(** * Village Machaan reservation backend: availability and booking core

    A shallow embedding of the reservation service
    ([ReservationService] in the backend module [reservationService]),
    of the web methods of [backend/webMethods.js] and of the HTTP function
    [post_createBooking] of [backend/http-functions.js], together with the
    part of the hosted document store ([wix-data]) these functions use.

    Conventions of the embedding.
    - A JavaScript [Date] is its [getTime()] value: milliseconds since the
      epoch, an integer of [Z].  Invalid dates ([NaN]) are not represented.
    - Local time is UTC shifted by a fixed offset [tz] (milliseconds east of
      Greenwich), so a local calendar day always lasts 24 hours.
    - Numbers stored in the collections (prices, guest counts) are integers,
      and [Math.ceil(a / b)] is taken of the exact quotient.
    - The store answers every call; the one rejection kept is that of
      [update] for an [_id] no item has.
    - [_id] values are opaque to the code, which only compares them; they are
      numbers of [N] here and the store hands out the value of a counter.
    - Every call reads the clock once: the argument [now] of an operation
      stands for each [new Date()] evaluated during that call.
    - An [async] method is a function from the store to the store it leaves
      behind and its outcome (a value, or the exception it throws).  Writes
      made before an exception stay in the store. *)

From Stdlib Require Import ZArith QArith Qround List String Bool Lia.
From Stdlib Require Import DecimalString.
Import ListNotations.
Open Scope string_scope.
Open Scope Z_scope.

(** ** Data model (after [COLLECTION_SCHEMAS] of [backend/collections]) *)

Abbreviation Id := N (only parsing).
Abbreviation Date := Z (only parsing).

(** [customerInfo]: a plain object with string properties; [{}] is [[]]. *)
Definition CustomerInfo := list (string * string).

Module Cottage.
Record t := mk {
  _id : Id;
  name : string;
  maxAdults : Z;
  maxChildren : Z;
  basePricePerNight : Z;
  isActive : bool
}.
End Cottage.

Module Package.
Record t := mk {
  _id : Id;
  name : string;
  price : Z;
  includesSafari : bool;
  safariCount : Z;
  isActive : bool
}.
End Package.

(** The object the endpoints hand to [ReservationService.createBooking]. *)
Module BookingData.
Record t := mk {
  cottageId : Id;
  packageId : Id;
  checkInDate : Date;
  checkOutDate : Date;
  adults : Z;
  children : Z;
  customerInfo : CustomerInfo;
  specialRequests : string
}.
End BookingData.

(** An item of the [Bookings] collection.  [createBooking] stores
    [{...bookingData, totalCost, status, paymentStatus, createdDate,
    updatedDate}]; [updateBookingStatus] stores [{_id, status, updatedDate}],
    so the properties only the first object has are optional. *)
Module Booking.
Record t := mk {
  _id : Id;
  data : option BookingData.t;
  totalCost : option Z;
  status : string;
  paymentStatus : option string;
  createdDate : option Date;
  updatedDate : Date
}.
End Booking.

Module AvailabilityRecord.
Record t := mk {
  _id : Id;
  cottageId : Id;
  date : Date;
  isAvailable : bool;
  bookingId : option Id;   (* [null] when the day is available *)
  createdDate : Date;
  updatedDate : Date
}.
End AvailabilityRecord.

Module SafariBooking.
Record t := mk {
  _id : Id;
  bookingId : option Id;
  safariDate : option Date;
  safariTime : option string;
  status : string;
  safariType : option string;
  createdDate : option Date;
  updatedDate : Date
}.
End SafariBooking.

(** [BOOKING_STATUS] and [SAFARI_STATUS] of [backend/collections]. *)
Module BOOKING_STATUS.
Definition PENDING := "Pending".
Definition CONFIRMED := "Confirmed".
Definition CANCELLED := "Cancelled".
Definition COMPLETED := "Completed".
End BOOKING_STATUS.

Module SAFARI_STATUS.
Definition PENDING := "Pending".
Definition CONFIRMED := "Confirmed".
Definition CANCELLED := "Cancelled".
End SAFARI_STATUS.

(** ** The document store *)

(** One list per collection of [COLLECTIONS], in insertion order, and the
    counter the store draws the [_id] of a new item from. *)
Record Store := mkStore {
  Cottages : list Cottage.t;
  Packages : list Package.t;
  Bookings : list Booking.t;
  Availability : list AvailabilityRecord.t;
  SafariBookings : list SafariBooking.t;
  nextId : Id
}.

(** ** Exceptions *)

(** One constructor per error the modelled code raises. *)
Inductive Error :=
| MaxAdultsExceeded (maxAdults : Z)
| NullPropertyAccess (property : string)   (* TypeError: property of [null] *)
| ItemDoesNotExist (id : Id)               (* rejection of [wixData.update] *)
| LoopDidNotFinish                         (* fuel of a loop exhausted *)
| PackageNotFound
| FailedToCheckAvailability
| FailedToUpdateBookingStatus
| FailedToCreateSafariBookings
| FailedToUpdateSafariStatus
| FailedToUpdateAvailability
| MissingBookingParameters
| AtLeastOneAdult
| DatesNotAvailable
| MissingParameters
| CottageOrPackageNotFound.

Definition string_of_Z (n : Z) : string := NilZero.string_of_int (Z.to_int n).

(** [error.message], the string the endpoints put on the wire. *)
Definition message (e : Error) : string :=
  match e with
  | MaxAdultsExceeded n =>
      "Maximum " ++ string_of_Z n ++ " adults allowed per cottage"
  | NullPropertyAccess p =>
      "Cannot read properties of null (reading '" ++ p ++ "')"
  | ItemDoesNotExist _ => "Item does not exist in collection"
  | LoopDidNotFinish => "loop did not finish"
  | PackageNotFound => "Package not found"
  | FailedToCheckAvailability => "Failed to check availability"
  | FailedToUpdateBookingStatus => "Failed to update booking status"
  | FailedToCreateSafariBookings => "Failed to create safari bookings"
  | FailedToUpdateSafariStatus => "Failed to update safari status"
  | FailedToUpdateAvailability => "Failed to update availability"
  | MissingBookingParameters => "Missing required booking parameters"
  | AtLeastOneAdult => "At least one adult is required"
  | DatesNotAvailable => "Selected dates are not available for this cottage"
  | MissingParameters => "Missing required parameters"
  | CottageOrPackageNotFound => "Cottage or package not found"
  end.

(** The taxonomy the specification sorts failures into.  The code itself
    raises plain [Error] objects; the class is read off the raising site. *)
Inductive ErrorClass := ValidationError | NotFound | Conflict | StoreError.

Definition errorClass (e : Error) : ErrorClass :=
  match e with
  | MaxAdultsExceeded _ | MissingBookingParameters | AtLeastOneAdult
  | MissingParameters =>
      ValidationError
  | NullPropertyAccess _ | PackageNotFound | CottageOrPackageNotFound
  | ItemDoesNotExist _ => NotFound
  | DatesNotAvailable => Conflict
  | LoopDidNotFinish | FailedToCheckAvailability | FailedToUpdateBookingStatus
  | FailedToCreateSafariBookings | FailedToUpdateSafariStatus
  | FailedToUpdateAvailability => StoreError
  end.

(** ** Asynchronous computations over the store *)

Inductive Outcome (A : Type) :=
| Returned (a : A)
| Thrown (e : Error).
Arguments Returned {A} a.
Arguments Thrown {A} e.

Definition Async (A : Type) : Type := Store -> Store * Outcome A.

Definition ret {A} (a : A) : Async A := fun s => (s, Returned a).

Definition throw {A} (e : Error) : Async A := fun s => (s, Thrown e).

Definition bind {A B} (m : Async A) (k : A -> Async B) : Async B :=
  fun s =>
    match m s with
    | (s', Returned a) => k a s'
    | (s', Thrown e) => (s', Thrown e)
    end.

(** [try { m } catch (error) { h error }] *)
Definition tryCatch {A} (m : Async A) (h : Error -> Async A) : Async A :=
  fun s =>
    match m s with
    | (s', Returned a) => (s', Returned a)
    | (s', Thrown e) => h e s'
    end.

Declare Scope async_scope.
Delimit Scope async_scope with async.
Notation "x <- m ;; k" := (bind m (fun x => k))
  (at level 100, m at next level, right associativity) : async_scope.
Notation "m ;;; k" := (bind m (fun _ => k))
  (at level 100, right associativity) : async_scope.
Open Scope async_scope.

(** ** Promises that carry an error message *)

(** The methods below are written with the message of the error in place of
    the error: every handler of theirs either ignores the error or reads its
    [message] only. *)
Inductive Settled (A : Type) :=
| Fulfilled (value : A)
| Rejected (reason : string).
Arguments Fulfilled {A} value.
Arguments Rejected {A} reason.

Definition Promise (A : Type) : Type := Store -> Store * Settled A.

Definition resolve {A} (a : A) : Promise A := fun s => (s, Fulfilled a).

Definition reject {A} (reason : string) : Promise A :=
  fun s => (s, Rejected reason).

Definition andThen {A B} (m : Promise A) (k : A -> Promise B) : Promise B :=
  fun s =>
    match m s with
    | (s', Fulfilled a) => k a s'
    | (s', Rejected reason) => (s', Rejected reason)
    end.

(** [try { m } catch (error) { h error.message }], and [m.catch(...)]. *)
Definition catchWith {A} (m : Promise A) (h : string -> Promise A)
  : Promise A :=
  fun s =>
    match m s with
    | (s', Fulfilled a) => (s', Fulfilled a)
    | (s', Rejected reason) => h reason s'
    end.

(** A computation of the first kind, as a promise. *)
Definition await {A} (m : Async A) : Promise A :=
  fun s =>
    match m s with
    | (s', Returned a) => (s', Fulfilled a)
    | (s', Thrown e) => (s', Rejected (message e))
    end.

Notation "x <~ m ;; k" := (andThen m (fun x => k))
  (at level 100, m at next level, right associativity) : async_scope.

(** ** [wix-data] *)

(** The module [wix-data] is the hosted store's client library, not code of
    the repository; the functions below give the documented behaviour of the
    calls the service makes. *)
Module wixData.

(** [wixData.get(collection, id)]: the item with that [_id], or [null]. *)
Definition get {A} (coll : Store -> list A) (idOf : A -> Id) (id : Id)
  : Async (option A) :=
  fun s => (s, Returned (find (fun x => N.eqb (idOf x) id) (coll s))).

(** [wixData.query(collection)....find()]: [matches] is the conjunction of
    the filters chained on the query; the result is its [items]. *)
Definition query {A} (coll : Store -> list A) (matches : A -> bool)
  : Async (list A) :=
  fun s => (s, Returned (filter matches (coll s))).

(** The items of one bulk insertion receive consecutive fresh [_id]s. *)
Fixpoint assignIds {A} (setId : Id -> A -> A) (n : Id) (items : list A)
  : list A :=
  match items with
  | [] => []
  | x :: rest => setId n x :: assignIds setId (N.succ n) rest
  end.

Definition nextIdAfter {A} (n : Id) (items : list A) : Id :=
  (n + N.of_nat (List.length items))%N.

(** What [bulkInsert] resolves to. *)
Record BulkResult := mkBulkResult {
  inserted : Z;
  insertedItemIds : list Id
}.

Definition setBookingId (i : Id) (b : Booking.t) : Booking.t :=
  Booking.mk i (Booking.data b) (Booking.totalCost b) (Booking.status b)
    (Booking.paymentStatus b) (Booking.createdDate b) (Booking.updatedDate b).

Definition setAvailabilityId (i : Id) (r : AvailabilityRecord.t)
  : AvailabilityRecord.t :=
  AvailabilityRecord.mk i (AvailabilityRecord.cottageId r)
    (AvailabilityRecord.date r) (AvailabilityRecord.isAvailable r)
    (AvailabilityRecord.bookingId r) (AvailabilityRecord.createdDate r)
    (AvailabilityRecord.updatedDate r).

Definition setSafariId (i : Id) (b : SafariBooking.t) : SafariBooking.t :=
  SafariBooking.mk i (SafariBooking.bookingId b) (SafariBooking.safariDate b)
    (SafariBooking.safariTime b) (SafariBooking.status b)
    (SafariBooking.safariType b) (SafariBooking.createdDate b)
    (SafariBooking.updatedDate b).

(** [wixData.insert(COLLECTIONS.BOOKINGS, item)]: the item is stored under a
    fresh [_id] and returned with it. *)
Definition insertBooking (item : Booking.t) : Async Booking.t :=
  fun s =>
    let created := setBookingId (nextId s) item in
    (mkStore (Cottages s) (Packages s) (Bookings s ++ [created])%list
       (Availability s) (SafariBookings s) (N.succ (nextId s)),
     Returned created).

(** [wixData.bulkInsert(COLLECTIONS.AVAILABILITY, items)] *)
Definition bulkInsertAvailability (items : list AvailabilityRecord.t)
  : Async BulkResult :=
  fun s =>
    let created := assignIds setAvailabilityId (nextId s) items in
    (mkStore (Cottages s) (Packages s) (Bookings s)
       (Availability s ++ created)%list (SafariBookings s)
       (nextIdAfter (nextId s) items),
     Returned (mkBulkResult (Z.of_nat (List.length created))
                 (map AvailabilityRecord._id created))).

(** [wixData.bulkInsert(COLLECTIONS.SAFARI_BOOKINGS, items)] *)
Definition bulkInsertSafariBookings (items : list SafariBooking.t)
  : Async BulkResult :=
  fun s =>
    let created := assignIds setSafariId (nextId s) items in
    (mkStore (Cottages s) (Packages s) (Bookings s) (Availability s)
       (SafariBookings s ++ created)%list (nextIdAfter (nextId s) items),
     Returned (mkBulkResult (Z.of_nat (List.length created))
                 (map SafariBooking._id created))).

(** [wixData.update(COLLECTIONS.BOOKINGS, item)]: the stored item whose [_id]
    is [item._id] is replaced by [item] (properties [item] lacks are lost);
    the promise is rejected when no stored item has that [_id]. *)
Definition updateBooking (item : Booking.t) : Async Booking.t :=
  fun s =>
    let same (b : Booking.t) := N.eqb (Booking._id b) (Booking._id item) in
    if existsb same (Bookings s) then
      (mkStore (Cottages s) (Packages s)
         (map (fun b => if same b then item else b) (Bookings s))
         (Availability s) (SafariBookings s) (nextId s),
       Returned item)
    else (s, Thrown (ItemDoesNotExist (Booking._id item))).

(** [wixData.update(COLLECTIONS.SAFARI_BOOKINGS, item)] *)
Definition updateSafariBooking (item : SafariBooking.t)
  : Async SafariBooking.t :=
  fun s =>
    let same (b : SafariBooking.t) :=
      N.eqb (SafariBooking._id b) (SafariBooking._id item) in
    if existsb same (SafariBookings s) then
      (mkStore (Cottages s) (Packages s) (Bookings s) (Availability s)
         (map (fun b => if same b then item else b) (SafariBookings s))
         (nextId s),
       Returned item)
    else (s, Thrown (ItemDoesNotExist (SafariBooking._id item))).

End wixData.

(** ** Dates *)

Definition msPerDay : Z := 1000 * 3600 * 24.

(** [date.setHours(0, 0, 0, 0)]: the start of the local day of [t]. *)
Definition setHoursZero (tz : Z) (t : Date) : Date :=
  t - (t + tz) mod msPerDay.

(** [date.setDate(date.getDate() + 1)]: the same local time one day on. *)
Definition setDateNextDay (t : Date) : Date := t + msPerDay.

(** [Math.ceil(a / b)] on the numbers [a] and [b]. *)
Definition Math_ceil_div (a b : Z) : Z :=
  Qceiling (Qdiv (inject_Z a) (inject_Z b)).

(** ** The reservation service *)

(** What [checkAvailability] resolves to. *)
Module AvailabilityResult.
Record t := mk {
  isAvailable : bool;
  conflictingDates : option (list Date);
  cottage : option Cottage.t;
  message : string
}.
End AvailabilityResult.

(** An element of the [safariData] array: [{date, time, type?}]. *)
Module SafariEntry.
Record t := mk {
  date : Date;
  time : string;
  type : option string
}.
End SafariEntry.

Module ReservationService.

(** The filters of the availability query:
    [.eq('cottageId', cottageId).gte('date', startDate).lt('date', endDate)
     .eq('isAvailable', false)]. *)
Definition conflicts (cottageId : Id) (startDate endDate : Date)
  (r : AvailabilityRecord.t) : bool :=
  N.eqb (AvailabilityRecord.cottageId r) cottageId
  && (startDate <=? AvailabilityRecord.date r)
  && (AvailabilityRecord.date r <? endDate)
  && Bool.eqb (AvailabilityRecord.isAvailable r) false.

Definition checkAvailability (tz : Z) (cottageId : Id)
  (checkInDate checkOutDate : Date) : Async AvailabilityResult.t :=
  tryCatch
    (let startDate := setHoursZero tz checkInDate in
     let endDate := setHoursZero tz checkOutDate in
     conflictingBookings <-
       wixData.query Availability (conflicts cottageId startDate endDate) ;;
     if (0 <? Z.of_nat (List.length conflictingBookings)) then
       ret (AvailabilityResult.mk false
              (Some (map AvailabilityRecord.date conflictingBookings)) None
              "Selected dates are not available for this cottage.")
     else
       cottage <- wixData.get Cottages Cottage._id cottageId ;;
       match cottage with
       | None =>
           ret (AvailabilityResult.mk false None None
                  "Cottage not found or inactive.")
       | Some c =>
           if negb (Cottage.isActive c) then
             ret (AvailabilityResult.mk false None None
                    "Cottage not found or inactive.")
           else
             ret (AvailabilityResult.mk true None (Some c)
                    "Cottage is available for selected dates.")
       end)
    (fun _ => throw FailedToCheckAvailability).

Definition getPackageById (packageId : Id) : Async (option Package.t) :=
  tryCatch
    (packageData <- wixData.get Packages Package._id packageId ;;
     ret packageData)
    (fun _ => throw PackageNotFound).

Definition calculateNights (checkIn checkOut : Date) : Z :=
  let checkInDate := checkIn in
  let checkOutDate := checkOut in
  let timeDiff := checkOutDate - checkInDate in
  let nights := Math_ceil_div timeDiff (1000 * 3600 * 24) in
  nights.

(** The [for] loop of [updateAvailability]:
    [for (let date = new Date(start); date < end;
          date.setDate(date.getDate() + 1)) availabilityRecords.push(...)].
    [None] when [fuel] iterations were not enough to leave the loop.  The
    [_id] of a pushed record is set by the store at insertion. *)
Fixpoint availabilityLoop (fuel : nat) (cottageId : Id)
  (bookingId : Id) (isAvailable : bool) (now : Date) (date end_ : Date)
  : option (list AvailabilityRecord.t) :=
  match fuel with
  | O => None
  | S fuel' =>
      if date <? end_ then
        match availabilityLoop fuel' cottageId bookingId isAvailable now
                (setDateNextDay date) end_ with
        | Some availabilityRecords =>
            Some (AvailabilityRecord.mk 0%N cottageId date isAvailable
                    (if isAvailable then None else Some bookingId) now now
                  :: availabilityRecords)
        | None => None
        end
      else Some []
  end.

(** Enough iterations for the loop from [start] to [end_] (see
    [availabilityLoop_terminates]). *)
Definition loopFuel (start end_ : Date) : nat :=
  S (Z.to_nat ((end_ - start) / msPerDay + 1)).

Definition updateAvailability (cottageId : Id) (startDate endDate : Date)
  (bookingId : Id) (isAvailable : bool) (now : Date) : Async unit :=
  let start := startDate in
  let end_ := endDate in
  match availabilityLoop (loopFuel start end_) cottageId bookingId
          isAvailable now start end_ with
  | None => throw LoopDidNotFinish
  | Some availabilityRecords =>
      tryCatch
        (wixData.bulkInsertAvailability availabilityRecords ;;; ret tt)
        (fun _ => throw FailedToUpdateAvailability)
  end.

Definition createBooking (bookingData : BookingData.t) (now : Date)
  : Async Booking.t :=
  tryCatch
    (cottage <-
       wixData.get Cottages Cottage._id (BookingData.cottageId bookingData) ;;
     match cottage with
     | None => throw (NullPropertyAccess "maxAdults")
     | Some cottage =>
         if BookingData.adults bookingData >? Cottage.maxAdults cottage then
           throw (MaxAdultsExceeded (Cottage.maxAdults cottage))
         else
           packageData <- getPackageById (BookingData.packageId bookingData) ;;
           let nights :=
             calculateNights (BookingData.checkInDate bookingData)
               (BookingData.checkOutDate bookingData) in
           let roomCost := Cottage.basePricePerNight cottage * nights in
           match packageData with
           | None => throw (NullPropertyAccess "price")
           | Some packageData =>
               let packageCost := Package.price packageData in
               let totalCost := roomCost + packageCost in
               let booking :=
                 Booking.mk 0%N (Some bookingData) (Some totalCost)
                   BOOKING_STATUS.PENDING (Some "Pending") (Some now) now in
               createdBooking <- wixData.insertBooking booking ;;
               updateAvailability (BookingData.cottageId bookingData)
                 (BookingData.checkInDate bookingData)
                 (BookingData.checkOutDate bookingData)
                 (Booking._id createdBooking) false now ;;;
               ret createdBooking
           end
     end)
    (fun error => throw error).

Definition updateBookingStatus (bookingId : Id) (status : string)
  (now : Date) : Async Booking.t :=
  tryCatch
    (updatedBooking <-
       wixData.updateBooking
         (Booking.mk bookingId None None status None None now) ;;
     ret updatedBooking)
    (fun _ => throw FailedToUpdateBookingStatus).

(** [safari.type || 'Standard'] *)
Definition typeOrStandard (type : option string) : string :=
  match type with
  | None => "Standard"
  | Some t => if String.eqb t "" then "Standard" else t
  end.

Definition createSafariBookings (bookingId : Id)
  (safariData : list SafariEntry.t) (now : Date)
  : Async wixData.BulkResult :=
  tryCatch
    (let safariBookings :=
       map (fun safari =>
              SafariBooking.mk 0%N (Some bookingId)
                (Some (SafariEntry.date safari))
                (Some (SafariEntry.time safari))
                SAFARI_STATUS.PENDING
                (Some (typeOrStandard (SafariEntry.type safari)))
                (Some now) now)
           safariData in
     createdSafaris <- wixData.bulkInsertSafariBookings safariBookings ;;
     ret createdSafaris)
    (fun _ => throw FailedToCreateSafariBookings).

Definition updateSafariStatus (safariId : Id) (status : string)
  (now : Date) : Async SafariBooking.t :=
  tryCatch
    (updatedSafari <-
       wixData.updateSafariBooking
         (SafariBooking.mk safariId None None None status None None now) ;;
     ret updatedSafari)
    (fun _ => throw FailedToUpdateSafariStatus).

(** What [getBookingDetails] resolves to:
    [{...booking, cottage, package, safariBookings}]. *)
Record BookingDetails := mkBookingDetails {
  booking : Booking.t;
  cottage : option Cottage.t;
  package : option Package.t;
  safariBookings : list SafariBooking.t
}.

Definition getAvailablePackages : Promise (list Package.t) :=
  catchWith
    (packages <~
       await (wixData.query Packages
                (fun p => Bool.eqb (Package.isActive p) true)) ;;
     resolve packages)
    (fun _ => reject "Failed to fetch packages").

(** The filter [.eq('bookingId', bookingId)] of [getBookingDetails]. *)
Definition ofBooking (bookingId : Id) (safari : SafariBooking.t) : bool :=
  match SafariBooking.bookingId safari with
  | Some b => N.eqb b bookingId
  | None => false
  end.

(** [booking.cottageId] and [booking.packageId] are [undefined] for a stored
    item without these properties, and [wixData.get] rejects an [itemId] that
    is not a string. *)
Definition getBookingDetails (bookingId : Id) : Promise BookingDetails :=
  catchWith
    (booking <~ await (wixData.get Bookings Booking._id bookingId) ;;
     match booking with
     | None => reject (message (NullPropertyAccess "cottageId"))
     | Some booking =>
         match Booking.data booking with
         | None => reject "itemId must be a string"
         | Some data =>
             cottage <~
               await (wixData.get Cottages Cottage._id
                        (BookingData.cottageId data)) ;;
             packageData <~
               await (wixData.get Packages Package._id
                        (BookingData.packageId data)) ;;
             safariBookings <~
               await (wixData.query SafariBookings (ofBooking bookingId)) ;;
             resolve (mkBookingDetails booking cottage packageData
                        safariBookings)
         end
     end)
    (fun _ => reject "Failed to fetch booking details").

End ReservationService.

(** ** Endpoints *)

(** The body of every answer: [{success: true, data, message?}] or
    [{success: false, error}]. *)
Inductive Response (A : Type) :=
| Success (data : A) (message : option string)
| Failure (error : string).
Arguments Success {A} data message.
Arguments Failure {A} error.

(** The request of the two [createBooking] endpoints.  A property is [None]
    when it is missing or falsy as an identifier, date or object; [adults]
    is the number [parseInt] reads. *)
Module BookingRequest.
Record t := mk {
  cottageId : option Id;
  packageId : option Id;
  checkInDate : option Date;
  checkOutDate : option Date;
  adults : option Z;
  children : option Z;
  customerInfo : option CustomerInfo;
  specialRequests : option string
}.
End BookingRequest.

Module CostRequest.
Record t := mk {
  cottageId : option Id;
  packageId : option Id;
  checkInDate : option Date;
  checkOutDate : option Date
}.
End CostRequest.

Module CostBreakdown.
Record t := mk {
  roomCost : Z;
  packageCost : Z;
  totalCost : Z;
  nights : Z;
  costPerNight : Z
}.
End CostBreakdown.

(** [x || d] *)
Definition orDefault {A} (x : option A) (d : A) : A :=
  match x with
  | Some a => a
  | None => d
  end.

Module AvailabilityRequest.
Record t := mk {
  cottageId : option Id;
  checkInDate : option Date;
  checkOutDate : option Date
}.
End AvailabilityRequest.

(** The request of the two [updateBookingStatus] endpoints; [status] is
    [None] when it is missing or the empty string. *)
Module StatusRequest.
Record t := mk {
  bookingId : option Id;
  status : option string
}.
End StatusRequest.

(** The request of the two [createSafariBookings] endpoints; [safariData] is
    [None] when it is missing or not an array. *)
Module SafariRequest.
Record t := mk {
  bookingId : option Id;
  safariData : option (list SafariEntry.t)
}.
End SafariRequest.

Module WebMethods.

Definition createBooking (tz : Z) (request : BookingRequest.t) (now : Date)
  : Async (Response Booking.t) :=
  tryCatch
    (match BookingRequest.cottageId request,
           BookingRequest.packageId request,
           BookingRequest.checkInDate request,
           BookingRequest.checkOutDate request,
           BookingRequest.adults request,
           BookingRequest.customerInfo request with
     | Some cottageId, Some packageId, Some checkInDate, Some checkOutDate,
       Some adults, Some customerInfo =>
         if adults =? 0 then throw MissingBookingParameters
         else if adults <? 1 then throw AtLeastOneAdult
         else
           availability <-
             ReservationService.checkAvailability tz cottageId checkInDate
               checkOutDate ;;
           if negb (AvailabilityResult.isAvailable availability) then
             ret (Failure (message DatesNotAvailable))
           else
             let bookingData :=
               BookingData.mk cottageId packageId checkInDate checkOutDate
                 adults
                 (orDefault (BookingRequest.children request) 0)
                 customerInfo
                 (orDefault (BookingRequest.specialRequests request) "") in
             createdBooking <-
               ReservationService.createBooking bookingData now ;;
             ret (Success createdBooking (Some "Booking created successfully"))
     | _, _, _, _, _, _ => throw MissingBookingParameters
     end)
    (fun error => ret (Failure (message error))).

Definition calculateBookingCost (request : CostRequest.t)
  : Async (Response CostBreakdown.t) :=
  tryCatch
    (match CostRequest.cottageId request, CostRequest.packageId request,
           CostRequest.checkInDate request,
           CostRequest.checkOutDate request with
     | Some cottageId, Some packageId, Some checkInDate, Some checkOutDate =>
         cottage <- wixData.get Cottages Cottage._id cottageId ;;
         packageData <- wixData.get Packages Package._id packageId ;;
         match cottage, packageData with
         | Some cottage, Some packageData =>
             let nights :=
               ReservationService.calculateNights checkInDate checkOutDate in
             let roomCost := Cottage.basePricePerNight cottage * nights in
             let packageCost := Package.price packageData in
             let totalCost := roomCost + packageCost in
             ret (Success
                    (CostBreakdown.mk roomCost packageCost totalCost nights
                       (Cottage.basePricePerNight cottage))
                    None)
         | _, _ => throw CottageOrPackageNotFound
         end
     | _, _, _, _ => throw MissingParameters
     end)
    (fun error => ret (Failure (message error))).

Definition checkCottageAvailability (tz : Z) (request : AvailabilityRequest.t)
  : Promise (Response AvailabilityResult.t) :=
  catchWith
    (match AvailabilityRequest.cottageId request,
           AvailabilityRequest.checkInDate request,
           AvailabilityRequest.checkOutDate request with
     | Some cottageId, Some checkInDate, Some checkOutDate =>
         availability <~
           await (ReservationService.checkAvailability tz cottageId
                    checkInDate checkOutDate) ;;
         resolve (Success availability None)
     | _, _, _ =>
         reject
           "Missing required parameters: cottageId, checkInDate, checkOutDate"
     end)
    (fun error => resolve (Failure error)).

Definition getAvailablePackages : Promise (Response (list Package.t)) :=
  catchWith
    (packages <~ ReservationService.getAvailablePackages ;;
     resolve (Success packages None))
    (fun error => resolve (Failure error)).

Definition getBookingDetails (bookingId : option Id)
  : Promise (Response ReservationService.BookingDetails) :=
  catchWith
    (match bookingId with
     | Some bookingId =>
         bookingDetails <~ ReservationService.getBookingDetails bookingId ;;
         resolve (Success bookingDetails None)
     | None => reject "Missing required parameter: bookingId"
     end)
    (fun error => resolve (Failure error)).

Definition updateBookingStatus (request : StatusRequest.t) (now : Date)
  : Promise (Response Booking.t) :=
  catchWith
    (match StatusRequest.bookingId request, StatusRequest.status request with
     | Some bookingId, Some status =>
         updatedBooking <~
           await (ReservationService.updateBookingStatus bookingId status
                    now) ;;
         resolve (Success updatedBooking
                    (Some "Booking status updated successfully"))
     | _, _ => reject "Missing required parameters: bookingId, status"
     end)
    (fun error => resolve (Failure error)).

Definition createSafariBookings (request : SafariRequest.t) (now : Date)
  : Promise (Response wixData.BulkResult) :=
  catchWith
    (match SafariRequest.bookingId request,
           SafariRequest.safariData request with
     | Some bookingId, Some safariData =>
         createdSafaris <~
           await (ReservationService.createSafariBookings bookingId
                    safariData now) ;;
         resolve (Success createdSafaris
                    (Some "Safari bookings created successfully"))
     | _, _ =>
         reject "Missing required parameters: bookingId, safariData (array)"
     end)
    (fun error => resolve (Failure error)).


End WebMethods.

Module HttpFunctions.

Record HttpResponse (A : Type) := mkHttpResponse {
  status : Z;
  body : Response A
}.
Arguments mkHttpResponse {A} status body.
Arguments status {A} h.
Arguments body {A} h.

Definition jsonResponse {A} (statusCode : Z) (body : Response A)
  : HttpResponse A :=
  mkHttpResponse statusCode body.

(** [payload] is what [parseJsonRequest] returns: [None] for [null]. *)
Definition post_createBooking (tz : Z) (payload : option BookingRequest.t)
  (now : Date) : Async (HttpResponse Booking.t) :=
  match payload with
  | None =>
      ret (jsonResponse 400 (Failure (message MissingBookingParameters)))
  | Some payload =>
      match BookingRequest.cottageId payload,
            BookingRequest.packageId payload,
            BookingRequest.checkInDate payload,
            BookingRequest.checkOutDate payload,
            BookingRequest.adults payload with
      | Some cottageId, Some packageId, Some checkInDate, Some checkOutDate,
        Some adults =>
          if adults =? 0 then
            ret (jsonResponse 400 (Failure (message MissingBookingParameters)))
          else
            tryCatch
              (availability <-
                 ReservationService.checkAvailability tz cottageId
                   checkInDate checkOutDate ;;
               if negb (AvailabilityResult.isAvailable availability) then
                 ret (jsonResponse 200 (Failure (message DatesNotAvailable)))
               else
                 let bookingData :=
                   BookingData.mk cottageId packageId checkInDate
                     checkOutDate adults
                     (orDefault (BookingRequest.children payload) 0)
                     (orDefault (BookingRequest.customerInfo payload) [])
                     (orDefault (BookingRequest.specialRequests payload) "")
                 in
                 created <- ReservationService.createBooking bookingData now ;;
                 ret (jsonResponse 200
                        (Success created
                           (Some "Booking created successfully"))))
              (fun error => ret (jsonResponse 500 (Failure (message error))))
      | _, _, _, _, _ =>
          ret (jsonResponse 400 (Failure (message MissingBookingParameters)))
      end
  end.

Definition post_checkCottageAvailability (tz : Z)
  (payload : option AvailabilityRequest.t)
  : Promise (HttpResponse AvailabilityResult.t) :=
  match payload with
  | None => resolve (jsonResponse 400 (Failure "Missing required parameters"))
  | Some payload =>
      match AvailabilityRequest.cottageId payload,
            AvailabilityRequest.checkInDate payload,
            AvailabilityRequest.checkOutDate payload with
      | Some cottageId, Some checkInDate, Some checkOutDate =>
          catchWith
            (data <~
               await (ReservationService.checkAvailability tz cottageId
                        checkInDate checkOutDate) ;;
             resolve (jsonResponse 200 (Success data None)))
            (fun error => resolve (jsonResponse 500 (Failure error)))
      | _, _, _ =>
          resolve (jsonResponse 400 (Failure "Missing required parameters"))
      end
  end.

Definition post_getBookingDetails (payload : option (option Id))
  : Promise (HttpResponse ReservationService.BookingDetails) :=
  match payload with
  | Some (Some bookingId) =>
      catchWith
        (data <~ ReservationService.getBookingDetails bookingId ;;
         resolve (jsonResponse 200 (Success data None)))
        (fun error => resolve (jsonResponse 500 (Failure error)))
  | _ =>
      resolve
        (jsonResponse 400 (Failure "Missing required parameter: bookingId"))
  end.

Definition post_updateBookingStatus (payload : option StatusRequest.t)
  (now : Date) : Promise (HttpResponse Booking.t) :=
  match payload with
  | None =>
      resolve
        (jsonResponse 400
           (Failure "Missing required parameters: bookingId, status"))
  | Some payload =>
      match StatusRequest.bookingId payload, StatusRequest.status payload with
      | Some bookingId, Some status =>
          catchWith
            (data <~
               await (ReservationService.updateBookingStatus bookingId
                        status now) ;;
             resolve
               (jsonResponse 200
                  (Success data
                     (Some "Booking status updated successfully"))))
            (fun error => resolve (jsonResponse 500 (Failure error)))
      | _, _ =>
          resolve
            (jsonResponse 400
               (Failure "Missing required parameters: bookingId, status"))
      end
  end.

Definition post_createSafariBookings (payload : option SafariRequest.t)
  (now : Date) : Promise (HttpResponse wixData.BulkResult) :=
  match payload with
  | None =>
      resolve
        (jsonResponse 400
           (Failure
              "Missing required parameters: bookingId, safariData (array)"))
  | Some payload =>
      match SafariRequest.bookingId payload,
            SafariRequest.safariData payload with
      | Some bookingId, Some safariData =>
          catchWith
            (data <~
               await (ReservationService.createSafariBookings bookingId
                        safariData now) ;;
             resolve
               (jsonResponse 200
                  (Success data
                     (Some "Safari bookings created successfully"))))
            (fun error => resolve (jsonResponse 500 (Failure error)))
      | _, _ =>
          resolve
            (jsonResponse 400
               (Failure
                  "Missing required parameters: bookingId, safariData (array)"))
      end
  end.

Definition post_calculateBookingCost (payload : option CostRequest.t)
  : Promise (HttpResponse CostBreakdown.t) :=
  match payload with
  | None => resolve (jsonResponse 400 (Failure "Missing required parameters"))
  | Some payload =>
      match CostRequest.cottageId payload, CostRequest.packageId payload,
            CostRequest.checkInDate payload,
            CostRequest.checkOutDate payload with
      | Some cottageId, Some packageId, Some checkInDate, Some checkOutDate =>
          catchWith
            (cottage <~ await (wixData.get Cottages Cottage._id cottageId) ;;
             packageData <~
               await (wixData.get Packages Package._id packageId) ;;
             match cottage, packageData with
             | Some cottage, Some packageData =>
                 let nights :=
                   ReservationService.calculateNights checkInDate
                     checkOutDate in
                 let roomCost := Cottage.basePricePerNight cottage * nights in
                 let packageCost := Package.price packageData in
                 let totalCost := roomCost + packageCost in
                 resolve
                   (jsonResponse 200
                      (Success
                         (CostBreakdown.mk roomCost packageCost totalCost
                            nights (Cottage.basePricePerNight cottage))
                         None))
             | _, _ =>
                 resolve
                   (jsonResponse 404 (Failure "Cottage or package not found"))
             end)
            (fun error => resolve (jsonResponse 500 (Failure error)))
      | _, _, _, _ =>
          resolve (jsonResponse 400 (Failure "Missing required parameters"))
      end
  end.

End HttpFunctions.

(** ** The web method [createBooking] in two steps *)

(** [WebMethods.createBooking] awaits the availability check and then the
    service's [createBooking]; other requests may run between the two.
    [createBookingCheck] is the method up to the decision taken on the
    answer of the check: the response, if the request ends there, or the
    [bookingData] it goes on with.  [createBookingCommit] is the rest. *)
Definition createBookingCheck (tz : Z) (request : BookingRequest.t)
  : Async (Response Booking.t + BookingData.t) :=
  tryCatch
    (match BookingRequest.cottageId request,
           BookingRequest.packageId request,
           BookingRequest.checkInDate request,
           BookingRequest.checkOutDate request,
           BookingRequest.adults request,
           BookingRequest.customerInfo request with
     | Some cottageId, Some packageId, Some checkInDate, Some checkOutDate,
       Some adults, Some customerInfo =>
         if adults =? 0 then throw MissingBookingParameters
         else if adults <? 1 then throw AtLeastOneAdult
         else
           availability <-
             ReservationService.checkAvailability tz cottageId checkInDate
               checkOutDate ;;
           if negb (AvailabilityResult.isAvailable availability) then
             ret (inl (Failure (message DatesNotAvailable)))
           else
             ret (inr (BookingData.mk cottageId packageId checkInDate
                         checkOutDate adults
                         (orDefault (BookingRequest.children request) 0)
                         customerInfo
                         (orDefault (BookingRequest.specialRequests request)
                            "")))
     | _, _, _, _, _, _ => throw MissingBookingParameters
     end)
    (fun error => ret (inl (Failure (message error)))).

Definition createBookingCommit (bookingData : BookingData.t) (now : Date)
  : Async (Response Booking.t) :=
  tryCatch
    (createdBooking <- ReservationService.createBooking bookingData now ;;
     ret (Success createdBooking (Some "Booking created successfully")))
    (fun error => ret (Failure (message error))).

(** Two requests [A] and [B] scheduled so that both checks run before
    either booking is written: check of [A], check of [B], rest of [A], rest
    of [B].  The result is the final store and the two responses. *)
Definition bothCheckThenBothCommit (tz : Z)
  (requestA requestB : BookingRequest.t) (nowA nowB : Date) (s : Store)
  : Store * (option (Response Booking.t) * option (Response Booking.t)) :=
  let finish (step : Outcome (Response Booking.t + BookingData.t))
             (now : Date) (s : Store) :=
    match step with
    | Returned (inl response) => (s, Some response)
    | Returned (inr bookingData) =>
        match createBookingCommit bookingData now s with
        | (s', Returned response) => (s', Some response)
        | (s', Thrown _) => (s', None)
        end
    | Thrown _ => (s, None)
    end in
  let (s1, stepA) := createBookingCheck tz requestA s in
  let (s2, stepB) := createBookingCheck tz requestB s1 in
  let (s3, responseA) := finish stepA nowA s2 in
  let (s4, responseB) := finish stepB nowB s3 in
  (s4, (responseA, responseB)).

(** ** Definitions used to state the properties *)

(** The availability records of cottage [cottageId] dated in [[lo, hi)],
    whatever their flag. *)
Definition inRange (cottageId : Id) (lo hi : Date)
  (r : AvailabilityRecord.t) : bool :=
  N.eqb (AvailabilityRecord.cottageId r) cottageId
  && (lo <=? AvailabilityRecord.date r)
  && (AvailabilityRecord.date r <? hi).

Definition recordsInRange (cottageId : Id) (lo hi : Date) (s : Store)
  : list AvailabilityRecord.t :=
  filter (inRange cottageId lo hi) (Availability s).

(** The answer of the availability check in store [s]. *)
Definition isRangeAvailable (tz : Z) (cottageId : Id)
  (checkInDate checkOutDate : Date) (s : Store) : option bool :=
  match ReservationService.checkAvailability tz cottageId checkInDate
          checkOutDate s with
  | (_, Returned availability) =>
      Some (AvailabilityResult.isAvailable availability)
  | (_, Thrown _) => None
  end.

(** The instants [date], [date + 1 day], ... ([n] of them). *)
Fixpoint daysFrom (date : Date) (n : nat) : list Date :=
  match n with
  | O => []
  | S n' => date :: daysFrom (setDateNextDay date) n'
  end.

(** The record [updateAvailability] pushes for the instant [date]. *)
Definition reservation (cottageId bookingId : Id) (now date : Date)
  : AvailabilityRecord.t :=
  AvailabilityRecord.mk 0%N cottageId date false (Some bookingId) now now.

(** The booking [createBooking] stores for [bookingData]. *)
Definition pendingBooking (id : Id) (bookingData : BookingData.t)
  (cottage : Cottage.t) (packageData : Package.t) (now : Date) : Booking.t :=
  Booking.mk id (Some bookingData)
    (Some (Cottage.basePricePerNight cottage
           * ReservationService.calculateNights
               (BookingData.checkInDate bookingData)
               (BookingData.checkOutDate bookingData)
           + Package.price packageData))
    BOOKING_STATUS.PENDING (Some "Pending") (Some now) now.

(** The store after a booking and its availability records went in. *)
Definition storeAfterBooking (s : Store) (b : Booking.t)
  (recs : list AvailabilityRecord.t) : Store :=
  mkStore (Cottages s) (Packages s) (Bookings s ++ [b])%list
    (Availability s
     ++ wixData.assignIds wixData.setAvailabilityId (N.succ (nextId s))
          recs)%list
    (SafariBookings s) (wixData.nextIdAfter (N.succ (nextId s)) recs).

Definition findCottage (id : Id) (s : Store) : option Cottage.t :=
  find (fun x => N.eqb (Cottage._id x) id) (Cottages s).

Definition findPackage (id : Id) (s : Store) : option Package.t :=
  find (fun x => N.eqb (Package._id x) id) (Packages s).

(** The unavailable records the query of [checkAvailability] finds. *)
Definition conflictingRecords (tz : Z) (cottageId : Id)
  (checkInDate checkOutDate : Date) (s : Store)
  : list AvailabilityRecord.t :=
  filter
    (ReservationService.conflicts cottageId (setHoursZero tz checkInDate)
       (setHoursZero tz checkOutDate))
    (Availability s).

(** The stores reached from a catalogue without bookings by calls of the
    endpoints, one after the other.  The endpoints for the status of a
    booking, for safari bookings and for the status of a safari validate
    their request and call the service method of the same name. *)
Inductive reachable (tz : Z) : Store -> Prop :=
| reachable_initial cottages packages n :
    reachable tz (mkStore cottages packages [] [] [] n)
| reachable_createBooking s request now :
    reachable tz s ->
    reachable tz (fst (WebMethods.createBooking tz request now s))
| reachable_post_createBooking s payload now :
    reachable tz s ->
    reachable tz (fst (HttpFunctions.post_createBooking tz payload now s))
| reachable_updateBookingStatus s bookingId status now :
    reachable tz s ->
    reachable tz
      (fst (ReservationService.updateBookingStatus bookingId status now s))
| reachable_createSafariBookings s bookingId safariData now :
    reachable tz s ->
    reachable tz
      (fst (ReservationService.createSafariBookings bookingId safariData
              now s))
| reachable_updateSafariStatus s safariId status now :
    reachable tz s ->
    reachable tz
      (fst (ReservationService.updateSafariStatus safariId status now s)).

(** Every availability record marks its day as taken. *)
Definition allBooked (s : Store) : Prop :=
  Forall (fun r => AvailabilityRecord.isAvailable r = false) (Availability s).

(** In the words of the specification: no availability record of the cottage
    has a date in [[start, end)] and [isAvailable == false], with [start] and
    [end] the two dates at 00:00. *)
Definition noUnavailableRecord (tz : Z) (cottageId : Id)
  (checkInDate checkOutDate : Date) (s : Store) : Prop :=
  forall r,
    In r (Availability s) ->
    AvailabilityRecord.cottageId r = cottageId ->
    setHoursZero tz checkInDate <= AvailabilityRecord.date r
      < setHoursZero tz checkOutDate ->
    AvailabilityRecord.isAvailable r <> false.

(** In the words of the specification: the number of nights computed after
    zeroing the time components of both dates. *)
Definition nightsAfterZeroing (tz : Z) (checkIn checkOut : Date) : Z :=
  Math_ceil_div (setHoursZero tz checkOut - setHoursZero tz checkIn) 86400000.

(** A booking with its [updatedDate] put aside. *)
Definition withoutUpdatedDate (b : Booking.t) : Booking.t :=
  Booking.mk (Booking._id b) (Booking.data b) (Booking.totalCost b)
    (Booking.status b) (Booking.paymentStatus b) (Booking.createdDate b) 0.

(** The safari booking [createSafariBookings] makes of one entry. *)
Definition madeFrom (bookingId : Id) (entry : SafariEntry.t)
  (safari : SafariBooking.t) : Prop :=
  SafariBooking.bookingId safari = Some bookingId
  /\ SafariBooking.status safari = "Pending"
  /\ SafariBooking.safariDate safari = Some (SafariEntry.date entry)
  /\ SafariBooking.safariTime safari = Some (SafariEntry.time entry)
  /\ SafariBooking.safariType safari
     = Some match SafariEntry.type entry with
            | None => "Standard"
            | Some "" => "Standard"
            | Some type => type
            end.

(** ** The reservation form *)

(** The part of [ReservationForm] (page code) that decides: the validation
    of dates and guests, the safari allowance, the step counter and the
    calls made at payment.  The page elements the methods also update are
    left out; [bookingData], [cottages] and the clock are arguments. *)
Module ReservationForm.

Definition totalSteps : Z := 4.

Definition calculateNights (checkIn checkOut : Date) : Z :=
  let checkInDate := checkIn in
  let checkOutDate := checkOut in
  let timeDiff := checkOutDate - checkInDate in
  Math_ceil_div timeDiff (1000 * 3600 * 24).

(** What [validateDates] returns, with the message it puts on the page when
    the dates are not valid. *)
Record DateValidation := mkDateValidation {
  isValid : bool;
  message : string
}.

Definition validateDates (checkIn checkOut today : Date) : DateValidation :=
  let isValid := true in
  let message := "" in
  let '(isValid, message) :=
    if checkIn <=? today then (false, "Check-in date must be in the future")
    else (isValid, message) in
  let '(isValid, message) :=
    if checkOut <=? checkIn then
      (false, "Check-out date must be after check-in date")
    else (isValid, message) in
  let nights := calculateNights checkIn checkOut in
  let '(isValid, message) :=
    if nights <? 1 then (false, "Minimum stay is 1 night")
    else (isValid, message) in
  mkDateValidation isValid message.

(** [cottageId] is [None] for the empty string. *)
Definition validateGuestCount (cottageId : option Id)
  (cottages : list Cottage.t) (adults : Z) : bool :=
  match cottageId with
  | None => true
  | Some cottageId =>
      match find (fun c => N.eqb (Cottage._id c) cottageId) cottages with
      | None => true
      | Some cottage =>
          let isValid := adults <=? Cottage.maxAdults cottage in
          isValid
      end
  end.

(** [availableSafaris] of [setupSafariSelection]. *)
Definition availableSafaris (safariCount : Z) (checkInDate checkOutDate : Date)
  : Z :=
  let nights := calculateNights checkInDate checkOutDate in
  Z.min safariCount nights.

(** The fields of the form the navigation reads. *)
Record State := mkState {
  currentStep : Z;
  cottageId : option Id;
  checkInDate : option Date;
  checkOutDate : option Date;
  packageId : option Id;
  availabilityResult : option AvailabilityResult.t
}.

Definition showStep (stepNumber : Z) (st : State) : State :=
  mkState stepNumber (cottageId st) (checkInDate st) (checkOutDate st)
    (packageId st) (availabilityResult st).

Definition validateStep1 (st : State) : bool :=
  match cottageId st with
  | None => false
  | Some _ =>
      match checkInDate st, checkOutDate st with
      | Some _, Some _ =>
          match availabilityResult st with
          | None => false
          | Some result =>
              if negb (AvailabilityResult.isAvailable result) then false
              else true
          end
      | _, _ => false
      end
  end.

Definition validateStep2 (st : State) : bool :=
  match packageId st with
  | None => false
  | Some _ => true
  end.

Definition validateStep3 (st : State) : bool := true.

Definition validateCurrentStep (st : State) : bool :=
  if currentStep st =? 1 then validateStep1 st
  else if currentStep st =? 2 then validateStep2 st
  else if currentStep st =? 3 then validateStep3 st
  else true.

Definition nextStep (st : State) : State :=
  if currentStep st <? totalSteps then
    if validateCurrentStep st then showStep (currentStep st + 1) st
    else st
  else st.

Definition previousStep (st : State) : State :=
  if currentStep st >? 1 then showStep (currentStep st - 1) st
  else st.

(** What [proceedToPayment] shows in the end. *)
Inductive Shown :=
| PaymentSuccess (booking : Booking.t)
| ErrorMessage (text : string).

(** [proceedToPayment], with the two requests answered by the HTTP
    functions: [request] is [{...bookingData, customerInfo}] as the function
    reads it, [safariData] the safari entries of the form, [now] and
    [nowSafari] the clock at the two requests; the answer to the safari
    request is only logged. *)
Definition proceedToPayment (tz : Z) (request : BookingRequest.t)
  (safariData : list SafariEntry.t) (now nowSafari : Date) (s : Store)
  : Store * Shown :=
  match HttpFunctions.post_createBooking tz (Some request) now s with
  | (s1, Returned response) =>
      match HttpFunctions.body response with
      | Success booking _ =>
          if 0 <? Z.of_nat (List.length safariData) then
            let (s2, _) :=
              HttpFunctions.post_createSafariBookings
                (Some (SafariRequest.mk (Some (Booking._id booking))
                         (Some safariData)))
                nowSafari s1 in
            (s2, PaymentSuccess booking)
          else (s1, PaymentSuccess booking)
      | Failure error =>
          (s1, ErrorMessage
                 (if String.eqb error "" then "Failed to create booking"
                  else error))
      end
  | (s1, Thrown _) => (s1, ErrorMessage "Failed to process payment")
  end.

End ReservationForm.

(** ** Further definitions used to state properties *)

(** The record the day loop pushes for [date], whatever the flag. *)
Definition pushed (cottageId bookingId : Id) (isAvailable : bool)
  (now date : Date) : AvailabilityRecord.t :=
  AvailabilityRecord.mk 0%N cottageId date isAvailable
    (if isAvailable then None else Some bookingId) now now.

(** [bookingData] with another number of children. *)
Definition withChildren (bookingData : BookingData.t) (children : Z)
  : BookingData.t :=
  BookingData.mk (BookingData.cottageId bookingData)
    (BookingData.packageId bookingData)
    (BookingData.checkInDate bookingData)
    (BookingData.checkOutDate bookingData)
    (BookingData.adults bookingData) children
    (BookingData.customerInfo bookingData)
    (BookingData.specialRequests bookingData).

(** The time of day of [t], in milliseconds after local midnight. *)
Definition timeOfDay (tz : Z) (t : Date) : Z := t - setHoursZero tz t.

(** A date range whose check-out is not later in the day than its check-in
    (two dates at midnight, for one). *)
Definition alignedDates (tz : Z) (checkIn checkOut : Date) : Prop :=
  timeOfDay tz checkOut <= timeOfDay tz checkIn.

Definition alignedRequest (tz : Z) (request : BookingRequest.t) : Prop :=
  forall checkIn checkOut,
    BookingRequest.checkInDate request = Some checkIn ->
    BookingRequest.checkOutDate request = Some checkOut ->
    alignedDates tz checkIn checkOut.

(** One call of an endpoint that writes, from store to store. *)
Inductive endpointStep (tz : Z) : Store -> Store -> Prop :=
| step_createBooking s request now :
    endpointStep tz s (fst (WebMethods.createBooking tz request now s))
| step_post_createBooking s payload now :
    endpointStep tz s
      (fst (HttpFunctions.post_createBooking tz payload now s))
| step_updateBookingStatus s bookingId status now :
    endpointStep tz s
      (fst (ReservationService.updateBookingStatus bookingId status now s))
| step_createSafariBookings s bookingId safariData now :
    endpointStep tz s
      (fst (ReservationService.createSafariBookings bookingId safariData
              now s))
| step_updateSafariStatus s safariId status now :
    endpointStep tz s
      (fst (ReservationService.updateSafariStatus safariId status now s)).

(** Any number of such calls, one after the other. *)
Inductive endpointRun (tz : Z) : Store -> Store -> Prop :=
| run_done s : endpointRun tz s s
| run_step s s' s'' :
    endpointRun tz s s' -> endpointStep tz s' s'' -> endpointRun tz s s''.

(** The stores reached by calls of the endpoints when every [createBooking]
    request has aligned dates. *)
Inductive reachableAligned (tz : Z) : Store -> Prop :=
| aligned_initial cottages packages n :
    reachableAligned tz (mkStore cottages packages [] [] [] n)
| aligned_createBooking s request now :
    reachableAligned tz s -> alignedRequest tz request ->
    reachableAligned tz (fst (WebMethods.createBooking tz request now s))
| aligned_post_createBooking s request now :
    reachableAligned tz s -> alignedRequest tz request ->
    reachableAligned tz
      (fst (HttpFunctions.post_createBooking tz (Some request) now s))
| aligned_updateBookingStatus s bookingId status now :
    reachableAligned tz s ->
    reachableAligned tz
      (fst (ReservationService.updateBookingStatus bookingId status now s))
| aligned_createSafariBookings s bookingId safariData now :
    reachableAligned tz s ->
    reachableAligned tz
      (fst (ReservationService.createSafariBookings bookingId safariData
              now s))
| aligned_updateSafariStatus s safariId status now :
    reachableAligned tz s ->
    reachableAligned tz
      (fst (ReservationService.updateSafariStatus safariId status now s)).

(** The cottage and local day an availability record reserves. *)
Definition reservedDay (tz : Z) (r : AvailabilityRecord.t) : Id * Date :=
  (AvailabilityRecord.cottageId r,
   setHoursZero tz (AvailabilityRecord.date r)).

(** No cottage has two availability records on one local day. *)
Definition noDoubleBooking (tz : Z) (s : Store) : Prop :=
  NoDup (map (reservedDay tz) (Availability s)).

(** The [_id]s the store has given so far are below its counter. *)
Definition idsBelowCounter (s : Store) : Prop :=
  Forall (fun b => (Booking._id b < nextId s)%N) (Bookings s).

(** ** Sample data *)

(** 2024-06-01T00:00:00Z *)
Definition juneFirst : Date := 1717200000000.

(** UTC+05:30, in milliseconds. *)
Definition indiaTime : Z := 19800000.

Definition hour : Z := 3600000.

Definition hornbill : Cottage.t := Cottage.mk 1 "Hornbill" 2 2 5000 true.

Definition kingfisher : Cottage.t := Cottage.mk 2 "Kingfisher" 2 1 6000 false.

Definition basicPackage : Package.t := Package.mk 10 "Basic" 1500 false 0 true.

Definition emptyStore : Store :=
  mkStore [hornbill; kingfisher] [basicPackage] [] [] [] 100.

(** Three nights in the Hornbill cottage from 2024-06-01. *)
Definition threeNights : BookingRequest.t :=
  BookingRequest.mk (Some 1%N) (Some 10%N) (Some juneFirst)
    (Some (juneFirst + 3 * msPerDay)) (Some 2) None
    (Some [("name", "Asha")]) None.

Definition threeNightsData : BookingData.t :=
  BookingData.mk 1 10 juneFirst (juneFirst + 3 * msPerDay) 2 0
    [("name", "Asha")] "".

Definition fiveAdultsData : BookingData.t :=
  BookingData.mk 1 10 juneFirst (juneFirst + 3 * msPerDay) 5 0 [] "".

(** Check-out one day before check-in. *)
Definition backwardsData : BookingData.t :=
  BookingData.mk 1 10 (juneFirst + msPerDay) juneFirst 2 0 [] "".

(** The store once the three nights are booked. *)
Definition bookedStore : Store :=
  fst (WebMethods.createBooking indiaTime threeNights 7 emptyStore).

(** Bookings for a cottage and for a package the sample store lacks. *)
Definition unknownCottageData : BookingData.t :=
  BookingData.mk 3 10 juneFirst (juneFirst + msPerDay) 2 0 [] "".

Definition unknownPackageData : BookingData.t :=
  BookingData.mk 1 11 juneFirst (juneFirst + msPerDay) 2 0 [] "".

(** Check-in at 10:00 UTC, check-out at 14:00 UTC two days later. *)
Definition lateCheckOutData : BookingData.t :=
  BookingData.mk 1 10 (juneFirst + 10 * hour)
    (juneFirst + 2 * msPerDay + 14 * hour) 2 0 [] "".

(** A request for minus one adult. *)
Definition minusOneAdult : BookingRequest.t :=
  BookingRequest.mk (Some 1%N) (Some 10%N) (Some juneFirst)
    (Some (juneFirst + msPerDay)) (Some (-1)) None
    (Some [("name", "Asha")]) None.

(** * Properties *)

(** ** Dates and nights *)

Lemma msPerDay_pos : 0 < msPerDay.
Proof. reflexivity. Qed.

Lemma msPerDay_value : msPerDay = 86400000.
Proof. reflexivity. Qed.

Lemma setHoursZero_bounds (tz t : Date) :
  setHoursZero tz t <= t < setHoursZero tz t + msPerDay.
Proof.
  unfold setHoursZero.
  pose proof (Z.mod_pos_bound (t + tz) msPerDay msPerDay_pos). lia.
Qed.

Lemma setHoursZero_next (tz t : Date) :
  setHoursZero tz (setDateNextDay t) = setHoursZero tz t + msPerDay.
Proof.
  unfold setHoursZero, setDateNextDay.
  replace (t + msPerDay + tz) with (t + tz + 1 * msPerDay) by ring.
  rewrite Z.mod_add by (pose proof msPerDay_pos; lia). ring.
Qed.

Lemma setHoursZero_idempotent (tz t : Date) :
  setHoursZero tz (setHoursZero tz t) = setHoursZero tz t.
Proof.
  unfold setHoursZero. pose proof msPerDay_pos as Hd.
  assert (H : (t - (t + tz) mod msPerDay + tz) mod msPerDay = 0).
  { replace (t - (t + tz) mod msPerDay + tz)
      with ((t + tz) / msPerDay * msPerDay)
      by (pose proof (Z.div_mod (t + tz) msPerDay ltac:(lia)); lia).
    apply Z.mod_mul. lia. }
  rewrite H. ring.
Qed.

Lemma Math_ceil_div_floor (a : Z) (p : positive) :
  Math_ceil_div a (Zpos p) = - ((- a) / Zpos p).
Proof.
  unfold Math_ceil_div, Qceiling, Qfloor, Qdiv, Qinv, Qmult, Qopp, inject_Z.
  simpl. rewrite Z.mul_1_r. reflexivity.
Qed.

(** [Math_ceil_div a b] is the least integer not below [a / b]. *)
Lemma Math_ceil_div_spec (a b : Z) :
  0 < b ->
  (Math_ceil_div a b - 1) * b < a <= Math_ceil_div a b * b.
Proof.
  intros Hb. destruct b as [|p|p]; try lia.
  rewrite Math_ceil_div_floor.
  pose proof (Z.div_mod (- a) (Zpos p) ltac:(lia)) as Hdm.
  pose proof (Z.mod_pos_bound (- a) (Zpos p) ltac:(lia)) as Hm.
  nia.
Qed.

Lemma Math_ceil_div_unique (a b n : Z) :
  0 < b -> (n - 1) * b < a <= n * b -> Math_ceil_div a b = n.
Proof.
  intros Hb Hn. pose proof (Math_ceil_div_spec a b Hb) as Hs. nia.
Qed.

Lemma calculateNights_spec (checkIn checkOut : Date) :
  (ReservationService.calculateNights checkIn checkOut - 1) * msPerDay
    < checkOut - checkIn
    <= ReservationService.calculateNights checkIn checkOut * msPerDay.
Proof.
  unfold ReservationService.calculateNights.
  apply (Math_ceil_div_spec (checkOut - checkIn) msPerDay msPerDay_pos).
Qed.

(** ** The day loop of [updateAvailability] *)

Section DayLoop.

Variables (cottageId bookingId : Id) (now : Date).

Lemma availabilityLoop_fuel (fuel : nat) :
  forall (isAvailable : bool) (date end_ : Date),
    Z.max 0 ((end_ - date) / msPerDay + 1) < Z.of_nat fuel ->
    ReservationService.availabilityLoop fuel cottageId bookingId isAvailable
      now date end_ <> None.
Proof.
  induction fuel as [|fuel IH]; intros isAvailable date end_ Hfuel;
    [lia|].
  simpl. destruct (date <? end_) eqn:Hlt; [|discriminate].
  apply Z.ltb_lt in Hlt.
  specialize (IH isAvailable (setDateNextDay date) end_).
  destruct (ReservationService.availabilityLoop fuel cottageId bookingId
              isAvailable now (setDateNextDay date) end_);
    [discriminate|].
  exfalso. apply IH; [|reflexivity].
  unfold setDateNextDay.
  replace (end_ - (date + msPerDay))
    with (end_ - date + (-1) * msPerDay) by ring.
  rewrite Z.div_add by (pose proof msPerDay_pos; lia).
  pose proof (Z.div_pos (end_ - date) msPerDay ltac:(lia) msPerDay_pos).
  lia.
Qed.

(** The loop always leaves: the fuel [updateAvailability] gives it is
    never exhausted. *)
Lemma availabilityLoop_terminates (isAvailable : bool) (start end_ : Date) :
  exists availabilityRecords,
    ReservationService.availabilityLoop
      (ReservationService.loopFuel start end_) cottageId bookingId
      isAvailable now start end_ = Some availabilityRecords.
Proof.
  destruct (ReservationService.availabilityLoop
              (ReservationService.loopFuel start end_) cottageId bookingId
              isAvailable now start end_) as [recs|] eqn:Hloop.
  - exists recs. reflexivity.
  - exfalso. revert Hloop. apply availabilityLoop_fuel.
    unfold ReservationService.loopFuel. lia.
Qed.

(** No iteration when the range is empty. *)
Lemma availabilityLoop_empty_range (isAvailable : bool) (start end_ : Date) :
  end_ <= start ->
  ReservationService.availabilityLoop
    (ReservationService.loopFuel start end_) cottageId bookingId
    isAvailable now start end_ = Some [].
Proof.
  intros Hle. unfold ReservationService.loopFuel. simpl.
  destruct (start <? end_) eqn:Hlt; [|reflexivity].
  apply Z.ltb_lt in Hlt. lia.
Qed.

Lemma availabilityLoop_records (fuel : nat) :
  forall (isAvailable : bool) (date end_ : Date) recs,
    ReservationService.availabilityLoop fuel cottageId bookingId isAvailable
      now date end_ = Some recs ->
    Forall (fun r =>
              AvailabilityRecord._id r = 0%N
              /\ AvailabilityRecord.cottageId r = cottageId
              /\ AvailabilityRecord.isAvailable r = isAvailable
              /\ date <= AvailabilityRecord.date r) recs.
Proof.
  induction fuel as [|fuel IH]; intros isAvailable date end_ recs Hloop;
    simpl in Hloop; [discriminate|].
  destruct (date <? end_); [|injection Hloop as <-; constructor].
  destruct (ReservationService.availabilityLoop fuel cottageId bookingId
              isAvailable now (setDateNextDay date) end_)
    as [rest|] eqn:Hrest; [|discriminate].
  injection Hloop as <-. constructor.
  - simpl. repeat split; lia.
  - apply IH in Hrest. eapply Forall_impl; [|exact Hrest].
    unfold setDateNextDay. pose proof msPerDay_pos.
    intros r (Hid & Hc & Ha & Hd). repeat split; auto; lia.
Qed.

(** The records the loop pushes for a booking whose last local day is [n]
    days after its first: those dated before the start of the check-out day
    are one per day, [n] in all. *)
Lemma availabilityLoop_in_range (tz : Z) (n : nat) :
  forall (fuel : nat) (date end_ lo : Date) recs,
    ReservationService.availabilityLoop fuel cottageId bookingId false now
      date end_ = Some recs ->
    setHoursZero tz end_ = setHoursZero tz date + Z.of_nat n * msPerDay ->
    lo <= date ->
    filter (inRange cottageId lo (setHoursZero tz end_)) recs
    = map (reservation cottageId bookingId now) (daysFrom date n).
Proof.
  induction n as [|n IH]; intros fuel date end_ lo recs Hloop Hdays Hlo.
  - simpl. apply availabilityLoop_records in Hloop.
    pose proof (setHoursZero_bounds tz date) as Hb.
    induction Hloop as [|r recs (_ & _ & _ & Hd) _ IHrecs]; [reflexivity|].
    simpl. rewrite IHrecs. unfold inRange.
    replace (AvailabilityRecord.date r <? setHoursZero tz end_) with false
      by (symmetry; apply Z.ltb_ge; lia).
    rewrite andb_false_r. reflexivity.
  - destruct fuel as [|fuel]; simpl in Hloop; [discriminate|].
    pose proof (setHoursZero_bounds tz date) as Hb.
    pose proof (setHoursZero_bounds tz end_) as He.
    pose proof msPerDay_pos as Hpos.
    assert (Hlt : date < end_) by nia.
    apply Z.ltb_lt in Hlt as Hltb. rewrite Hltb in Hloop.
    destruct (ReservationService.availabilityLoop fuel cottageId bookingId
                false now (setDateNextDay date) end_)
      as [rest|] eqn:Hrest; [|discriminate].
    injection Hloop as <-.
    cbn [filter daysFrom map]. unfold inRange at 1.
    cbn [AvailabilityRecord.cottageId AvailabilityRecord.date].
    rewrite N.eqb_refl.
    replace (lo <=? date) with true by (symmetry; apply Z.leb_le; lia).
    replace (date <? setHoursZero tz end_) with true
      by (symmetry; apply Z.ltb_lt; nia).
    cbn [andb]. unfold reservation at 1. f_equal.
    apply (IH fuel (setDateNextDay date) end_ lo rest Hrest).
    + rewrite setHoursZero_next. lia.
    + unfold setDateNextDay. lia.
Qed.

End DayLoop.

(** ** Identifiers given by the store *)

Lemma assignIds_length {A} (setId : Id -> A -> A) (items : list A) :
  forall n, List.length (wixData.assignIds setId n items) = List.length items.
Proof.
  induction items as [|x items IH]; intros n; simpl; [|rewrite IH];
    reflexivity.
Qed.

Lemma assignIds_map {A B} (setId : Id -> A -> A) (f : A -> B) :
  (forall i x, f (setId i x) = f x) ->
  forall items n, map f (wixData.assignIds setId n items) = map f items.
Proof.
  intros Hf items. induction items as [|x items IH]; intros n; simpl;
    [|rewrite Hf, IH]; reflexivity.
Qed.

Lemma assignIds_filter {A B} (setId : Id -> A -> A) (P : A -> bool)
  (f : A -> B) :
  (forall i x, P (setId i x) = P x) ->
  (forall i x, f (setId i x) = f x) ->
  forall items n,
    map f (filter P (wixData.assignIds setId n items))
    = map f (filter P items).
Proof.
  intros HP Hf items. induction items as [|x items IH]; intros n; simpl;
    [reflexivity|].
  rewrite HP. destruct (P x); simpl; [rewrite Hf|]; rewrite IH; reflexivity.
Qed.

Lemma assignIds_Forall {A} (setId : Id -> A -> A) (Q : A -> Prop) :
  (forall i x, Q x -> Q (setId i x)) ->
  forall items n, Forall Q items ->
    Forall Q (wixData.assignIds setId n items).
Proof.
  intros HQ items. induction items as [|x items IH]; intros n Hall; simpl;
    [constructor|].
  inversion Hall; subst. constructor; auto.
Qed.

(** ** What [ReservationService.createBooking] does, case by case *)

Lemma createBooking_cases (bookingData : BookingData.t) (now : Date)
  (s : Store) :
  match findCottage (BookingData.cottageId bookingData) s with
  | None =>
      ReservationService.createBooking bookingData now s
      = (s, Thrown (NullPropertyAccess "maxAdults"))
  | Some cottage =>
      if BookingData.adults bookingData >? Cottage.maxAdults cottage then
        ReservationService.createBooking bookingData now s
        = (s, Thrown (MaxAdultsExceeded (Cottage.maxAdults cottage)))
      else
        match findPackage (BookingData.packageId bookingData) s with
        | None =>
            ReservationService.createBooking bookingData now s
            = (s, Thrown (NullPropertyAccess "price"))
        | Some packageData =>
            let b := pendingBooking (nextId s) bookingData cottage
                       packageData now in
            exists recs,
              ReservationService.availabilityLoop
                (ReservationService.loopFuel
                   (BookingData.checkInDate bookingData)
                   (BookingData.checkOutDate bookingData))
                (BookingData.cottageId bookingData) (nextId s) false now
                (BookingData.checkInDate bookingData)
                (BookingData.checkOutDate bookingData) = Some recs
              /\ ReservationService.createBooking bookingData now s
                 = (storeAfterBooking s b recs, Returned b)
        end
  end.
Proof.
  unfold findCottage, findPackage, ReservationService.createBooking,
    ReservationService.getPackageById, tryCatch, bind, wixData.get, ret,
    throw.
  destruct (find _ (Cottages s)) as [cottage|]; [|reflexivity].
  destruct (BookingData.adults bookingData >? Cottage.maxAdults cottage);
    [reflexivity|].
  destruct (find _ (Packages s)) as [packageData|]; [|reflexivity].
  cbv zeta.
  destruct (availabilityLoop_terminates (BookingData.cottageId bookingData)
              (nextId s) now false (BookingData.checkInDate bookingData)
              (BookingData.checkOutDate bookingData)) as [recs Hrecs].
  exists recs. split; [exact Hrecs|].
  unfold wixData.insertBooking, ReservationService.updateAvailability,
    tryCatch, bind, ret.
  cbn [Booking._id wixData.setBookingId nextId].
  rewrite Hrecs. reflexivity.
Qed.

(** A booking that fails leaves the store as it was. *)
Lemma createBooking_thrown (bookingData : BookingData.t) (now : Date)
  (s s' : Store) (e : Error) :
  ReservationService.createBooking bookingData now s = (s', Thrown e) ->
  s' = s.
Proof.
  intros Hrun. pose proof (createBooking_cases bookingData now s) as Hc.
  destruct (findCottage _ s) as [cottage|]; [|congruence].
  destruct (_ >? _); [congruence|].
  destruct (findPackage _ s) as [packageData|]; [|congruence].
  destruct Hc as (recs & _ & Hok). congruence.
Qed.

(** A booking that succeeds: what was looked up and what was written. *)
Lemma createBooking_returned (bookingData : BookingData.t) (now : Date)
  (s s' : Store) (b : Booking.t) :
  ReservationService.createBooking bookingData now s = (s', Returned b) ->
  exists cottage packageData recs,
    findCottage (BookingData.cottageId bookingData) s = Some cottage
    /\ BookingData.adults bookingData <= Cottage.maxAdults cottage
    /\ findPackage (BookingData.packageId bookingData) s = Some packageData
    /\ b = pendingBooking (nextId s) bookingData cottage packageData now
    /\ ReservationService.availabilityLoop
         (ReservationService.loopFuel
            (BookingData.checkInDate bookingData)
            (BookingData.checkOutDate bookingData))
         (BookingData.cottageId bookingData) (nextId s) false now
         (BookingData.checkInDate bookingData)
         (BookingData.checkOutDate bookingData) = Some recs
    /\ s' = storeAfterBooking s b recs.
Proof.
  intros Hrun. pose proof (createBooking_cases bookingData now s) as Hc.
  destruct (findCottage _ s) as [cottage|]; [|congruence].
  destruct (_ >? _) eqn:Hadults; [congruence|].
  destruct (findPackage _ s) as [packageData|]; [|congruence].
  destruct Hc as (recs & Hloop & Hok).
  rewrite Hok in Hrun. injection Hrun as <- <-.
  exists cottage, packageData, recs.
  repeat split; auto. rewrite Z.gtb_ltb in Hadults.
  apply Z.ltb_ge in Hadults. exact Hadults.
Qed.

(** ** The availability check *)

Lemma checkAvailability_reads_only (tz : Z) (cottageId : Id)
  (checkInDate checkOutDate : Date) (s : Store) :
  fst (ReservationService.checkAvailability tz cottageId checkInDate
         checkOutDate s) = s.
Proof.
  unfold ReservationService.checkAvailability, tryCatch, bind, wixData.query,
    wixData.get, ret.
  cbv zeta. destruct (0 <? _); [reflexivity|].
  destruct (find _ (Cottages s)) as [c|]; [|reflexivity].
  destruct (negb (Cottage.isActive c)); reflexivity.
Qed.

Lemma checkAvailability_returns (tz : Z) (cottageId : Id)
  (checkInDate checkOutDate : Date) (s : Store) :
  exists availability,
    ReservationService.checkAvailability tz cottageId checkInDate
      checkOutDate s = (s, Returned availability)
    /\ AvailabilityResult.isAvailable availability
       = match conflictingRecords tz cottageId checkInDate checkOutDate s with
         | [] =>
             match findCottage cottageId s with
             | Some cottage => Cottage.isActive cottage
             | None => false
             end
         | _ :: _ => false
         end.
Proof.
  unfold ReservationService.checkAvailability, conflictingRecords,
    findCottage, tryCatch, bind, wixData.query, wixData.get, ret.
  cbv zeta.
  destruct (filter _ (Availability s)) as [|r rs].
  - simpl. destruct (find _ (Cottages s)) as [c|];
      [destruct (Cottage.isActive c)|]; simpl; eauto.
  - replace (0 <? Z.of_nat (List.length (r :: rs))) with true
      by (symmetry; apply Z.ltb_lt; simpl; lia).
    eauto.
Qed.

Lemma isRangeAvailable_eq (tz : Z) (cottageId : Id)
  (checkInDate checkOutDate : Date) (s : Store) :
  isRangeAvailable tz cottageId checkInDate checkOutDate s
  = Some match conflictingRecords tz cottageId checkInDate checkOutDate s with
         | [] =>
             match findCottage cottageId s with
             | Some cottage => Cottage.isActive cottage
             | None => false
             end
         | _ :: _ => false
         end.
Proof.
  unfold isRangeAvailable.
  destruct (checkAvailability_returns tz cottageId checkInDate checkOutDate s)
    as (a & -> & ->).
  reflexivity.
Qed.

(** ** The [createBooking] endpoints, case by case *)

Lemma web_createBooking_success (tz : Z) (request : BookingRequest.t)
  (now : Date) (s s' : Store) (b : Booking.t) (msg : option string) :
  WebMethods.createBooking tz request now s = (s', Returned (Success b msg)) ->
  exists bookingData,
    BookingRequest.cottageId request = Some (BookingData.cottageId bookingData)
    /\ BookingRequest.checkInDate request
       = Some (BookingData.checkInDate bookingData)
    /\ BookingRequest.checkOutDate request
       = Some (BookingData.checkOutDate bookingData)
    /\ isRangeAvailable tz (BookingData.cottageId bookingData)
         (BookingData.checkInDate bookingData)
         (BookingData.checkOutDate bookingData) s = Some true
    /\ ReservationService.createBooking bookingData now s = (s', Returned b).
Proof.
  unfold WebMethods.createBooking, tryCatch, bind.
  destruct request as [[cid|] [pid|] [ci|] [co|] [adults|] children
                         [info|] special]; cbn -[message];
    try (unfold throw, ret; discriminate).
  destruct (adults =? 0); [unfold throw, ret; discriminate|].
  destruct (adults <? 1); [unfold throw, ret; discriminate|].
  destruct (checkAvailability_returns tz cid ci co s) as (a & Hcheck & _).
  rewrite Hcheck.
  destruct (AvailabilityResult.isAvailable a) eqn:Ha; cbn -[message];
    [|unfold ret; discriminate].
  match goal with
  | |- context [ReservationService.createBooking ?bd now s] =>
      destruct (ReservationService.createBooking bd now s) as [s1 [b1|e]]
        eqn:Hrun
  end; unfold ret; intros Heq; [|discriminate].
  injection Heq as <- <- _.
  match type of Hrun with
  | ReservationService.createBooking ?bd _ _ = _ => exists bd
  end.
  unfold isRangeAvailable. cbn. rewrite Hcheck, Ha. repeat split.
  exact Hrun.
Qed.

Lemma web_createBooking_failure (tz : Z) (request : BookingRequest.t)
  (now : Date) (s s' : Store) (error : string) :
  WebMethods.createBooking tz request now s = (s', Returned (Failure error)) ->
  s' = s.
Proof.
  unfold WebMethods.createBooking, tryCatch, bind.
  destruct request as [[cid|] [pid|] [ci|] [co|] [adults|] children
                         [info|] special]; cbn -[message];
    try (unfold throw, ret; congruence).
  destruct (adults =? 0); [unfold throw, ret; congruence|].
  destruct (adults <? 1); [unfold throw, ret; congruence|].
  destruct (checkAvailability_returns tz cid ci co s) as (a & -> & _).
  destruct (AvailabilityResult.isAvailable a); cbn -[message];
    [|unfold ret; congruence].
  match goal with
  | |- context [ReservationService.createBooking ?bd now s] =>
      destruct (ReservationService.createBooking bd now s) as [s1 [b1|e]]
        eqn:Hrun
  end; unfold ret; intros Heq; [discriminate|].
  injection Heq as <- _. eapply createBooking_thrown; eassumption.
Qed.

Lemma web_createBooking_never_throws (tz : Z) (request : BookingRequest.t)
  (now : Date) (s : Store) :
  exists response,
    snd (WebMethods.createBooking tz request now s) = Returned response.
Proof.
  unfold WebMethods.createBooking, tryCatch.
  destruct (_ s) as [s1 [r|e]]; unfold ret; simpl; eauto.
Qed.

Lemma post_createBooking_success (tz : Z) (payload : option BookingRequest.t)
  (now : Date) (s s' : Store) (code : Z) (b : Booking.t)
  (msg : option string) :
  HttpFunctions.post_createBooking tz payload now s
  = (s', Returned (HttpFunctions.jsonResponse code (Success b msg))) ->
  exists request bookingData,
    payload = Some request
    /\ BookingRequest.cottageId request
       = Some (BookingData.cottageId bookingData)
    /\ BookingRequest.checkInDate request
       = Some (BookingData.checkInDate bookingData)
    /\ BookingRequest.checkOutDate request
       = Some (BookingData.checkOutDate bookingData)
    /\ isRangeAvailable tz (BookingData.cottageId bookingData)
         (BookingData.checkInDate bookingData)
         (BookingData.checkOutDate bookingData) s = Some true
    /\ ReservationService.createBooking bookingData now s = (s', Returned b).
Proof.
  unfold HttpFunctions.post_createBooking, HttpFunctions.jsonResponse,
    tryCatch, bind.
  destruct payload as [request|]; [|unfold ret; discriminate].
  destruct request as [[cid|] [pid|] [ci|] [co|] [adults|] children
                         info special]; cbn -[message];
    try (unfold ret; discriminate).
  destruct (adults =? 0); [unfold ret; discriminate|].
  destruct (checkAvailability_returns tz cid ci co s) as (a & Hcheck & _).
  rewrite Hcheck.
  destruct (AvailabilityResult.isAvailable a) eqn:Ha; cbn -[message];
    [|unfold ret; discriminate].
  match goal with
  | |- context [ReservationService.createBooking ?bd now s] =>
      destruct (ReservationService.createBooking bd now s) as [s1 [b1|e]]
        eqn:Hrun
  end; unfold ret; intros Heq; [|discriminate].
  injection Heq as <- _ <- _.
  eexists.
  match type of Hrun with
  | ReservationService.createBooking ?bd _ _ = _ => exists bd
  end.
  unfold isRangeAvailable. cbn. rewrite Hcheck, Ha. repeat split.
  exact Hrun.
Qed.

Lemma post_createBooking_effect (tz : Z) (payload : option BookingRequest.t)
  (now : Date) (s : Store) :
  fst (HttpFunctions.post_createBooking tz payload now s) = s
  \/ exists bookingData b,
       ReservationService.createBooking bookingData now s
       = (fst (HttpFunctions.post_createBooking tz payload now s), Returned b).
Proof.
  unfold HttpFunctions.post_createBooking, tryCatch, bind.
  destruct payload as [request|]; [|left; reflexivity].
  destruct request as [[cid|] [pid|] [ci|] [co|] [adults|] children
                         info special]; cbn -[message];
    try (left; reflexivity).
  destruct (adults =? 0); [left; reflexivity|].
  destruct (checkAvailability_returns tz cid ci co s) as (a & -> & _).
  destruct (AvailabilityResult.isAvailable a); cbn -[message];
    [|left; reflexivity].
  match goal with
  | |- context [ReservationService.createBooking ?bd now s] =>
      destruct (ReservationService.createBooking bd now s) as [s1 [b1|e]]
        eqn:Hrun
  end; cbn -[message].
  - right. eauto.
  - left. eapply createBooking_thrown; eassumption.
Qed.

Lemma web_createBooking_effect (tz : Z) (request : BookingRequest.t)
  (now : Date) (s : Store) :
  fst (WebMethods.createBooking tz request now s) = s
  \/ exists bookingData b,
       ReservationService.createBooking bookingData now s
       = (fst (WebMethods.createBooking tz request now s), Returned b).
Proof.
  destruct (WebMethods.createBooking tz request now s) as [s' o] eqn:Hrun.
  pose proof (web_createBooking_never_throws tz request now s) as [r Hr].
  rewrite Hrun in Hr. simpl in Hr. subst o. simpl.
  destruct r as [b msg|error].
  - right. apply web_createBooking_success in Hrun.
    destruct Hrun as (bd & _ & _ & _ & _ & Hrun). eauto.
  - left. eapply web_createBooking_failure; eassumption.
Qed.

(** ** Stores the endpoints can produce *)

Lemma createBooking_allBooked (bookingData : BookingData.t) (now : Date)
  (s s' : Store) (b : Booking.t) :
  ReservationService.createBooking bookingData now s = (s', Returned b) ->
  allBooked s -> allBooked s'.
Proof.
  intros Hrun Hinv. apply createBooking_returned in Hrun.
  destruct Hrun as (cottage & packageData & recs & _ & _ & _ & _ & Hloop & ->).
  unfold allBooked, storeAfterBooking. cbn [Availability].
  apply Forall_app. split; [exact Hinv|].
  apply assignIds_Forall; [intros i x Hx; exact Hx|].
  apply availabilityLoop_records in Hloop.
  eapply Forall_impl; [|exact Hloop]. intros r (_ & _ & Ha & _). exact Ha.
Qed.

Lemma updateBookingStatus_availability (bookingId : Id) (status : string)
  (now : Date) (s : Store) :
  Availability
    (fst (ReservationService.updateBookingStatus bookingId status now s))
  = Availability s.
Proof.
  unfold ReservationService.updateBookingStatus, tryCatch, bind,
    wixData.updateBooking, ret, throw.
  cbn [Booking._id]. destruct (existsb _ (Bookings s)); reflexivity.
Qed.

Lemma createSafariBookings_availability (bookingId : Id)
  (safariData : list SafariEntry.t) (now : Date) (s : Store) :
  Availability
    (fst (ReservationService.createSafariBookings bookingId safariData now s))
  = Availability s.
Proof. reflexivity. Qed.

Lemma updateSafariStatus_availability (safariId : Id) (status : string)
  (now : Date) (s : Store) :
  Availability
    (fst (ReservationService.updateSafariStatus safariId status now s))
  = Availability s.
Proof.
  unfold ReservationService.updateSafariStatus, tryCatch, bind,
    wixData.updateSafariBooking, ret, throw.
  cbn [SafariBooking._id]. destruct (existsb _ (SafariBookings s));
    reflexivity.
Qed.

Lemma reachable_allBooked (tz : Z) (s : Store) :
  reachable tz s -> allBooked s.
Proof.
  induction 1 as [cottages packages n
                 | s request now _ IH
                 | s payload now _ IH
                 | s bookingId status now _ IH
                 | s bookingId safariData now _ IH
                 | s safariId status now _ IH].
  - constructor.
  - destruct (web_createBooking_effect tz request now s)
      as [->|(bd & b & Hrun)]; [exact IH|].
    eapply createBooking_allBooked; eassumption.
  - destruct (post_createBooking_effect tz payload now s)
      as [->|(bd & b & Hrun)]; [exact IH|].
    eapply createBooking_allBooked; eassumption.
  - unfold allBooked. rewrite updateBookingStatus_availability. exact IH.
  - unfold allBooked. rewrite createSafariBookings_availability. exact IH.
  - unfold allBooked. rewrite updateSafariStatus_availability. exact IH.
Qed.

(** ** Reserving a range *)

Lemma allBooked_inRange (cottageId : Id) (lo hi : Date) (s : Store) :
  allBooked s ->
  filter (inRange cottageId lo hi) (Availability s)
  = filter (ReservationService.conflicts cottageId lo hi) (Availability s).
Proof.
  unfold allBooked. induction 1 as [|r rs Hr _ IH]; [reflexivity|].
  simpl. rewrite IH. unfold ReservationService.conflicts, inRange.
  rewrite Hr, andb_true_r. reflexivity.
Qed.

Lemma isRangeAvailable_true (tz : Z) (cottageId : Id)
  (checkInDate checkOutDate : Date) (s : Store) :
  isRangeAvailable tz cottageId checkInDate checkOutDate s = Some true ->
  conflictingRecords tz cottageId checkInDate checkOutDate s = []
  /\ exists cottage,
       findCottage cottageId s = Some cottage
       /\ Cottage.isActive cottage = true.
Proof.
  rewrite isRangeAvailable_eq.
  destruct (conflictingRecords _ _ _ _ _); [|discriminate].
  destruct (findCottage cottageId s) as [cottage|]; [|discriminate].
  intros Heq. injection Heq as Heq. eauto.
Qed.

(** A guarded booking over [n] local days: afterwards the records of the
    cottage dated in the checked range are the [n] reservations of the new
    booking, up to the [_id]s the store gave them. *)
Lemma guarded_booking_reserves (tz : Z) (n : nat) (bookingData : BookingData.t)
  (now : Date) (s s' : Store) (b : Booking.t) :
  let cottageId := BookingData.cottageId bookingData in
  let checkIn := BookingData.checkInDate bookingData in
  let checkOut := BookingData.checkOutDate bookingData in
  allBooked s ->
  isRangeAvailable tz cottageId checkIn checkOut s = Some true ->
  ReservationService.createBooking bookingData now s = (s', Returned b) ->
  setHoursZero tz checkOut
  = setHoursZero tz checkIn + Z.of_nat n * msPerDay ->
  map (wixData.setAvailabilityId 0)
    (recordsInRange cottageId (setHoursZero tz checkIn)
       (setHoursZero tz checkOut) s')
  = map (reservation cottageId (Booking._id b) now) (daysFrom checkIn n).
Proof.
  cbv zeta. intros Hinv Hfree Hrun Hdays.
  apply createBooking_returned in Hrun.
  destruct Hrun as (cottage & packageData & recs & _ & _ & _ & -> & Hloop & ->).
  apply isRangeAvailable_true in Hfree. destruct Hfree as [Hnone _].
  unfold recordsInRange, storeAfterBooking.
  cbn [Availability Booking._id pendingBooking].
  rewrite filter_app, map_app.
  rewrite (allBooked_inRange _ _ _ s Hinv).
  unfold conflictingRecords in Hnone. rewrite Hnone. cbn [map app].
  rewrite (assignIds_filter wixData.setAvailabilityId
             (inRange _ _ _) (wixData.setAvailabilityId 0));
    [|intros i []; reflexivity|intros i []; reflexivity].
  rewrite (availabilityLoop_in_range _ (nextId s) now tz n _ _ _ _ _
             Hloop Hdays (proj1 (setHoursZero_bounds tz _))).
  rewrite map_map. apply map_ext. reflexivity.
Qed.

Lemma stripped_fields (recs : list AvailabilityRecord.t)
  (cottageId bookingId : Id) (now : Date) (days : list Date) :
  map (wixData.setAvailabilityId 0) recs
  = map (reservation cottageId bookingId now) days ->
  List.length recs = List.length days
  /\ map AvailabilityRecord.date recs = days
  /\ Forall (fun r => AvailabilityRecord.cottageId r = cottageId
                      /\ AvailabilityRecord.isAvailable r = false
                      /\ AvailabilityRecord.bookingId r = Some bookingId)
       recs.
Proof.
  revert days. induction recs as [|r recs IH]; intros [|d days] Heq;
    try discriminate; [repeat split; constructor|].
  simpl in Heq. injection Heq as Hc Hd Ha Hb _ _ Hrest.
  destruct (IH days Hrest) as (Hlen & Hdates & Hall).
  simpl. repeat split; [congruence|congruence|].
  constructor; [repeat split; assumption|exact Hall].
Qed.

(** A store in which the range holds a reservation answers the check by
    [false]. *)
Lemma taken_not_available (tz : Z) (cottageId : Id)
  (checkInDate checkOutDate : Date) (s : Store) (r : AvailabilityRecord.t) :
  In r (recordsInRange cottageId (setHoursZero tz checkInDate)
          (setHoursZero tz checkOutDate) s) ->
  AvailabilityRecord.isAvailable r = false ->
  isRangeAvailable tz cottageId checkInDate checkOutDate s = Some false.
Proof.
  unfold recordsInRange. intros Hin Hflag. apply filter_In in Hin.
  destruct Hin as [Hin Hrange].
  assert (Hc : In r (conflictingRecords tz cottageId checkInDate
                       checkOutDate s)).
  { unfold conflictingRecords. apply filter_In. split; [exact Hin|].
    unfold ReservationService.conflicts. unfold inRange in Hrange.
    rewrite Hrange, Hflag. reflexivity. }
  rewrite isRangeAvailable_eq.
  destruct (conflictingRecords _ _ _ _ _); [contradiction|reflexivity].
Qed.

(** ** C1 *)

(** C1.  After a successful [createBooking] (through the web method or the
    HTTP function, from any store the endpoints can produce) for cottage [C]
    with check-in day [d0] and check-out day [d3 = d0 + 3 days], exactly three
    availability records exist for [C] with a date in [[d0, d3)], one per
    calendar day, each with [isAvailable = false] and the [_id] of the new
    booking as [bookingId]; the availability check for the same range then
    answers [false]. *)
Theorem createBooking_reserves_three_days (tz : Z) (s s' : Store)
  (request : BookingRequest.t) (now : Date) (b : Booking.t)
  (msg : option string) (C : Id) (checkIn checkOut : Date) :
  reachable tz s ->
  WebMethods.createBooking tz request now s = (s', Returned (Success b msg))
  \/ HttpFunctions.post_createBooking tz (Some request) now s
     = (s', Returned (HttpFunctions.jsonResponse 200 (Success b msg))) ->
  BookingRequest.cottageId request = Some C ->
  BookingRequest.checkInDate request = Some checkIn ->
  BookingRequest.checkOutDate request = Some checkOut ->
  setHoursZero tz checkOut = setHoursZero tz checkIn + 3 * msPerDay ->
  let d0 := setHoursZero tz checkIn in
  let d3 := setHoursZero tz checkOut in
  let recs := recordsInRange C d0 d3 s' in
  List.length recs = 3%nat
  /\ map AvailabilityRecord.date recs
     = [checkIn; checkIn + msPerDay; checkIn + 2 * msPerDay]
  /\ map (fun r => setHoursZero tz (AvailabilityRecord.date r)) recs
     = [d0; d0 + msPerDay; d0 + 2 * msPerDay]
  /\ Forall (fun r => AvailabilityRecord.isAvailable r = false
                      /\ AvailabilityRecord.bookingId r = Some (Booking._id b))
       recs
  /\ isRangeAvailable tz C checkIn checkOut s' = Some false.
Proof.
  intros Hreach Hrun HC Hin Hout Hdays d0 d3 recs.
  assert (Hguarded :
            exists bookingData,
              BookingData.cottageId bookingData = C
              /\ BookingData.checkInDate bookingData = checkIn
              /\ BookingData.checkOutDate bookingData = checkOut
              /\ isRangeAvailable tz C checkIn checkOut s = Some true
              /\ ReservationService.createBooking bookingData now s
                 = (s', Returned b)).
  { destruct Hrun as [Hrun|Hrun].
    - apply web_createBooking_success in Hrun.
      destruct Hrun as (bd & H1 & H2 & H3 & H4 & H5).
      exists bd. rewrite HC in H1. rewrite Hin in H2. rewrite Hout in H3.
      injection H1 as H1. injection H2 as H2. injection H3 as H3.
      rewrite <- H1, <- H2, <- H3 in H4. auto.
    - apply post_createBooking_success in Hrun.
      destruct Hrun as (rq & bd & Hrq & H1 & H2 & H3 & H4 & H5).
      injection Hrq as <-.
      exists bd. rewrite HC in H1. rewrite Hin in H2. rewrite Hout in H3.
      injection H1 as H1. injection H2 as H2. injection H3 as H3.
      rewrite <- H1, <- H2, <- H3 in H4. auto. }
  destruct Hguarded as (bd & <- & <- & <- & Hfree & Hcreate).
  pose proof (guarded_booking_reserves tz 3 bd now s s' b
                (reachable_allBooked tz s Hreach) Hfree Hcreate Hdays)
    as Hrecs.
  apply stripped_fields in Hrecs. fold d0 d3 recs in Hrecs.
  destruct Hrecs as (Hlen & Hdates & Hall).
  assert (Hdates' : map AvailabilityRecord.date recs
                    = [BookingData.checkInDate bd;
                       BookingData.checkInDate bd + msPerDay;
                       BookingData.checkInDate bd + 2 * msPerDay]).
  { rewrite Hdates. unfold daysFrom, setDateNextDay.
    replace (BookingData.checkInDate bd + msPerDay + msPerDay)
      with (BookingData.checkInDate bd + 2 * msPerDay) by ring.
    reflexivity. }
  split; [exact Hlen|]. split; [exact Hdates'|]. split; [|split].
  - rewrite <- (map_map AvailabilityRecord.date (setHoursZero tz)), Hdates.
    unfold daysFrom. cbn [map]. rewrite !setHoursZero_next.
    fold d0. replace (d0 + msPerDay + msPerDay) with (d0 + 2 * msPerDay)
      by ring.
    reflexivity.
  - eapply Forall_impl; [|exact Hall]. intros r (_ & Ha & Hb). auto.
  - destruct recs as [|r rest] eqn:Hrs; [discriminate|].
    apply (taken_not_available tz _ _ _ s' r).
    + fold d0 d3. fold recs. rewrite Hrs. left. reflexivity.
    + inversion Hall as [|? ? (_ & Ha & _) _]. exact Ha.
Qed.

Lemma createBooking_reserves_three_days_witness :
  let s' := bookedStore in
  List.length
    (recordsInRange 1 (setHoursZero indiaTime juneFirst)
       (setHoursZero indiaTime (juneFirst + 3 * msPerDay)) s') = 3%nat
  /\ isRangeAvailable indiaTime 1 juneFirst (juneFirst + 3 * msPerDay) s'
     = Some false.
Proof.
  pose proof
    (createBooking_reserves_three_days indiaTime emptyStore
       bookedStore threeNights 7
       (pendingBooking 100 threeNightsData hornbill basicPackage 7)
       (Some "Booking created successfully") 1 juneFirst
       (juneFirst + 3 * msPerDay)
       (reachable_initial indiaTime _ _ _)
       (or_introl eq_refl) eq_refl eq_refl eq_refl eq_refl) as H.
  cbv zeta in H. destruct H as (Hlen & _ & _ & _ & Hcheck).
  split; [exact Hlen|exact Hcheck].
Defined.

(** ** C2 *)

Lemma noUnavailableRecord_query (tz : Z) (cottageId : Id)
  (checkInDate checkOutDate : Date) (s : Store) :
  noUnavailableRecord tz cottageId checkInDate checkOutDate s
  <-> conflictingRecords tz cottageId checkInDate checkOutDate s = [].
Proof.
  unfold noUnavailableRecord, conflictingRecords. split.
  - intros Hnone.
    destruct (filter _ (Availability s)) as [|r rs] eqn:Hf; [reflexivity|].
    assert (Hin : In r (filter
                          (ReservationService.conflicts cottageId
                             (setHoursZero tz checkInDate)
                             (setHoursZero tz checkOutDate))
                          (Availability s)))
      by (rewrite Hf; left; reflexivity).
    apply filter_In in Hin. destruct Hin as [Hin Hc].
    unfold ReservationService.conflicts in Hc.
    apply andb_prop in Hc. destruct Hc as [Hc Hflag].
    apply andb_prop in Hc. destruct Hc as [Hc Hhi].
    apply andb_prop in Hc. destruct Hc as [Hc Hlo].
    apply N.eqb_eq in Hc. apply Z.leb_le in Hlo. apply Z.ltb_lt in Hhi.
    apply Bool.eqb_prop in Hflag.
    exfalso. apply (Hnone r Hin Hc (conj Hlo Hhi) Hflag).
  - intros Hempty r Hin Hc [Hlo Hhi] Hflag.
    assert (Hr : In r (filter
                         (ReservationService.conflicts cottageId
                            (setHoursZero tz checkInDate)
                            (setHoursZero tz checkOutDate))
                         (Availability s))).
    { apply filter_In. split; [exact Hin|].
      unfold ReservationService.conflicts.
      apply N.eqb_eq in Hc. apply Z.leb_le in Hlo. apply Z.ltb_lt in Hhi.
      rewrite Hc, Hlo, Hhi, Hflag. reflexivity. }
    rewrite Hempty in Hr. exact Hr.
Qed.

(** The claim as stated fails: an inactive cottage without any availability
    record is reported as not available. *)
Lemma inactive_cottage_not_available :
  ~ (isRangeAvailable 0 2 juneFirst (juneFirst + msPerDay) emptyStore
     = Some true
     <-> noUnavailableRecord 0 2 juneFirst (juneFirst + msPerDay) emptyStore).
Proof.
  intros [_ Hback].
  assert (Hnone : noUnavailableRecord 0 2 juneFirst (juneFirst + msPerDay)
                    emptyStore) by (intros r []).
  apply Hback in Hnone. vm_compute in Hnone. discriminate.
Qed.

(** C2 (amended).  The availability check answers [isAvailable = true] if and
    only if no availability record of the cottage dated in [[start, end)] has
    [isAvailable == false] and, moreover, the cottage exists and is active.
    The check always answers and leaves the store as it is. *)
Theorem checkAvailability_true_iff (tz : Z) (cottageId : Id)
  (checkInDate checkOutDate : Date) (s : Store) :
  (isRangeAvailable tz cottageId checkInDate checkOutDate s = Some true
   <-> noUnavailableRecord tz cottageId checkInDate checkOutDate s
       /\ exists cottage,
            findCottage cottageId s = Some cottage
            /\ Cottage.isActive cottage = true)
  /\ (exists answer,
        isRangeAvailable tz cottageId checkInDate checkOutDate s = Some answer)
  /\ fst (ReservationService.checkAvailability tz cottageId checkInDate
            checkOutDate s) = s.
Proof.
  split; [|split].
  - rewrite noUnavailableRecord_query. split.
    + apply isRangeAvailable_true.
    + intros (Hnone & cottage & Hfind & Hactive).
      rewrite isRangeAvailable_eq, Hnone, Hfind, Hactive. reflexivity.
  - rewrite isRangeAvailable_eq. eauto.
  - apply checkAvailability_reads_only.
Qed.

(** ** C3 *)

(** The claim as stated fails: from 2024-06-01 10:00 to 2024-06-04 14:00 the
    code counts four nights, the specified computation three. *)
Lemma calculateNights_keeps_time_of_day :
  ReservationService.calculateNights (juneFirst + 10 * hour)
    (juneFirst + 3 * msPerDay + 14 * hour) = 4
  /\ nightsAfterZeroing 0 (juneFirst + 10 * hour)
       (juneFirst + 3 * msPerDay + 14 * hour) = 3
  /\ ReservationService.calculateNights (juneFirst + 10 * hour)
       (juneFirst + 3 * msPerDay + 14 * hour)
     <> nightsAfterZeroing 0 (juneFirst + 10 * hour)
          (juneFirst + 3 * msPerDay + 14 * hour).
Proof. repeat split. discriminate. Qed.

(** C3 (amended).  [calculateNights(checkIn, checkOut)] is
    [ceil((checkOut - checkIn) / 86400000)] on the two instants as they are
    given; it is the value computed after zeroing the time components
    whenever both instants are at the same time of day, in particular when
    both are at midnight; from 2024-06-01 to 2024-06-04 it is 3. *)
Theorem calculateNights_is_ceiling (tz : Z) (checkIn checkOut : Date) :
  ReservationService.calculateNights checkIn checkOut
  = Math_ceil_div (checkOut - checkIn) 86400000
  /\ (ReservationService.calculateNights checkIn checkOut - 1) * 86400000
     < checkOut - checkIn
     <= ReservationService.calculateNights checkIn checkOut * 86400000
  /\ (checkIn - setHoursZero tz checkIn = checkOut - setHoursZero tz checkOut ->
      ReservationService.calculateNights checkIn checkOut
      = nightsAfterZeroing tz checkIn checkOut)
  /\ ReservationService.calculateNights juneFirst (juneFirst + 3 * 86400000)
     = 3.
Proof.
  split; [reflexivity|]. split; [apply calculateNights_spec|].
  split; [|reflexivity].
  intros Hsame. unfold nightsAfterZeroing, ReservationService.calculateNights.
  cbv zeta. f_equal. lia.
Qed.

Lemma calculateNights_is_ceiling_witness :
  ReservationService.calculateNights juneFirst (juneFirst + 5 * msPerDay)
  = nightsAfterZeroing indiaTime juneFirst (juneFirst + 5 * msPerDay).
Proof.
  apply (calculateNights_is_ceiling indiaTime juneFirst
           (juneFirst + 5 * msPerDay)).
  reflexivity.
Defined.

(** ** C4 *)

(** C4.  In [createBooking] and in [calculateBookingCost] the room cost is
    the cottage's [basePricePerNight] times the number of nights, the package
    cost is the package's [price], not multiplied by the nights, and the
    total cost is their sum: it is the [totalCost] of the booking stored by
    [createBooking], and [calculateBookingCost] returns the three amounts. *)
Theorem booking_costs :
  (forall bookingData now s s' b,
      ReservationService.createBooking bookingData now s = (s', Returned b) ->
      exists cottage packageData,
        findCottage (BookingData.cottageId bookingData) s = Some cottage
        /\ findPackage (BookingData.packageId bookingData) s
           = Some packageData
        /\ In b (Bookings s')
        /\ let nights :=
             ReservationService.calculateNights
               (BookingData.checkInDate bookingData)
               (BookingData.checkOutDate bookingData) in
           let roomCost := Cottage.basePricePerNight cottage * nights in
           let packageCost := Package.price packageData in
           Booking.totalCost b = Some (roomCost + packageCost))
  /\ (forall request s s' costs msg,
        WebMethods.calculateBookingCost request s
        = (s', Returned (Success costs msg)) ->
        exists cottageId packageId checkInDate checkOutDate cottage
               packageData,
          request = CostRequest.mk (Some cottageId) (Some packageId)
                      (Some checkInDate) (Some checkOutDate)
          /\ findCottage cottageId s = Some cottage
          /\ findPackage packageId s = Some packageData
          /\ CostBreakdown.nights costs
             = ReservationService.calculateNights checkInDate checkOutDate
          /\ CostBreakdown.roomCost costs
             = Cottage.basePricePerNight cottage * CostBreakdown.nights costs
          /\ CostBreakdown.packageCost costs = Package.price packageData
          /\ CostBreakdown.totalCost costs
             = CostBreakdown.roomCost costs + CostBreakdown.packageCost costs).
Proof.
  split.
  - intros bookingData now s s' b Hrun.
    apply createBooking_returned in Hrun.
    destruct Hrun as (cottage & packageData & recs
                      & Hc & _ & Hp & -> & _ & ->).
    exists cottage, packageData. repeat split; auto.
    unfold storeAfterBooking. cbn [Bookings].
    apply in_or_app. right. left. reflexivity.
  - intros request s s' costs msg.
    unfold WebMethods.calculateBookingCost, tryCatch, bind, wixData.get,
      findCottage, findPackage.
    destruct request as [[cid|] [pid|] [ci|] [co|]]; cbn -[message];
      try (unfold throw, ret; discriminate).
    destruct (find _ (Cottages s)) as [cottage|] eqn:Hc;
      cbn -[message]; [|unfold throw, ret; discriminate].
    destruct (find _ (Packages s)) as [packageData|] eqn:Hp;
      cbn -[message]; [|unfold throw, ret; discriminate].
    unfold ret. intros Heq. injection Heq as <- <- _.
    exists cid, pid, ci, co, cottage, packageData.
    repeat split; assumption.
Qed.

Lemma booking_costs_witness :
  exists b,
    snd (ReservationService.createBooking threeNightsData 7 emptyStore)
    = Returned b
    /\ Booking.totalCost b = Some (5000 * 3 + 1500).
Proof.
  destruct (proj1 booking_costs threeNightsData 7 emptyStore
              (fst (ReservationService.createBooking threeNightsData 7
                      emptyStore))
              (pendingBooking 100 threeNightsData hornbill basicPackage 7)
              eq_refl)
    as (cottage & packageData & Hc & Hp & _ & Hcost).
  exists (pendingBooking 100 threeNightsData hornbill basicPackage 7).
  split; [reflexivity|].
  vm_compute in Hc, Hp. injection Hc as <-. injection Hp as <-.
  exact Hcost.
Defined.

(** ** C5 *)

(** C5.  When [adults] exceeds the [maxAdults] of the cottage,
    [createBooking] fails with the error "Maximum ... adults allowed per
    cottage", a validation error, and the store is unchanged: no booking and
    no availability record is created. *)
Theorem createBooking_over_capacity (bookingData : BookingData.t)
  (now : Date) (s : Store) (cottage : Cottage.t) :
  findCottage (BookingData.cottageId bookingData) s = Some cottage ->
  BookingData.adults bookingData > Cottage.maxAdults cottage ->
  exists e,
    ReservationService.createBooking bookingData now s = (s, Thrown e)
    /\ e = MaxAdultsExceeded (Cottage.maxAdults cottage)
    /\ errorClass e = ValidationError
    /\ Bookings (fst (ReservationService.createBooking bookingData now s))
       = Bookings s
    /\ Availability (fst (ReservationService.createBooking bookingData now s))
       = Availability s.
Proof.
  intros Hfind Hadults.
  pose proof (createBooking_cases bookingData now s) as Hc.
  rewrite Hfind in Hc.
  replace (BookingData.adults bookingData >? Cottage.maxAdults cottage)
    with true in Hc by (symmetry; apply Z.gtb_lt; lia).
  exists (MaxAdultsExceeded (Cottage.maxAdults cottage)).
  rewrite Hc. repeat split.
Qed.

Lemma createBooking_over_capacity_witness :
  exists e,
    ReservationService.createBooking fiveAdultsData 7 emptyStore
    = (emptyStore, Thrown e)
    /\ message e = "Maximum 2 adults allowed per cottage"
    /\ errorClass e = ValidationError.
Proof.
  destruct (createBooking_over_capacity fiveAdultsData 7 emptyStore hornbill
              eq_refl eq_refl) as (e & Hrun & He & Hclass & _).
  exists e. split; [exact Hrun|]. split; [|exact Hclass].
  rewrite He. reflexivity.
Defined.

(** Over capacity through the web method: nothing is written either, and
    the error is the one of the capacity check once the fields are there and
    the re-check of the dates has passed. *)
Lemma web_createBooking_over_capacity (tz : Z) (request : BookingRequest.t)
  (now : Date) (s : Store) (cottageId : Id) (checkInDate checkOutDate : Date)
  (adults : Z) (cottage : Cottage.t) :
  BookingRequest.cottageId request = Some cottageId ->
  BookingRequest.checkInDate request = Some checkInDate ->
  BookingRequest.checkOutDate request = Some checkOutDate ->
  BookingRequest.adults request = Some adults ->
  findCottage cottageId s = Some cottage ->
  adults > Cottage.maxAdults cottage ->
  exists error,
    WebMethods.createBooking tz request now s = (s, Returned (Failure error))
    /\ (isRangeAvailable tz cottageId checkInDate checkOutDate s = Some true ->
        BookingRequest.packageId request <> None ->
        BookingRequest.customerInfo request <> None ->
        1 <= adults ->
        error = message (MaxAdultsExceeded (Cottage.maxAdults cottage))).
Proof.
  intros Hc Hi Ho Ha Hfind Hover.
  unfold WebMethods.createBooking, tryCatch, bind, isRangeAvailable.
  rewrite Hc, Hi, Ho, Ha.
  destruct (BookingRequest.packageId request) as [pid|];
    [|eexists; split; [reflexivity|intros _ H; contradiction]].
  destruct (BookingRequest.customerInfo request) as [info|];
    [|eexists; split; [reflexivity|intros _ _ H; contradiction]].
  destruct (adults =? 0) eqn:Hzero;
    [eexists; split; [reflexivity|apply Z.eqb_eq in Hzero; lia]|].
  destruct (adults <? 1) eqn:Hone;
    [eexists; split; [reflexivity|apply Z.ltb_lt in Hone; lia]|].
  destruct (checkAvailability_returns tz cottageId checkInDate checkOutDate s)
    as (a & -> & _).
  destruct (AvailabilityResult.isAvailable a); cbn -[message];
    [|eexists; split; [reflexivity|discriminate]].
  match goal with
  | |- context [ReservationService.createBooking ?bd now s] =>
      pose proof (createBooking_cases bd now s) as Hrun
  end.
  cbn [BookingData.cottageId BookingData.adults] in Hrun.
  rewrite Hfind in Hrun.
  replace (adults >? Cottage.maxAdults cottage) with true in Hrun
    by (symmetry; apply Z.gtb_lt; lia).
  rewrite Hrun. eexists. split; reflexivity.
Qed.

(** ** C6 *)

(** C6.  A [createBooking] request (both endpoints) that passed the
    validation of its fields and whose range the availability re-check
    reports as not available fails with "Selected dates are not available
    for this cottage", a conflict, and the store is unchanged: no booking is
    created. *)
Theorem createBooking_conflict (tz : Z) (request : BookingRequest.t)
  (now : Date) (s : Store) (cottageId packageId : Id)
  (checkInDate checkOutDate : Date) (adults : Z) :
  BookingRequest.cottageId request = Some cottageId ->
  BookingRequest.packageId request = Some packageId ->
  BookingRequest.checkInDate request = Some checkInDate ->
  BookingRequest.checkOutDate request = Some checkOutDate ->
  BookingRequest.adults request = Some adults ->
  1 <= adults ->
  isRangeAvailable tz cottageId checkInDate checkOutDate s = Some false ->
  (BookingRequest.customerInfo request <> None ->
   WebMethods.createBooking tz request now s
   = (s, Returned (Failure (message DatesNotAvailable))))
  /\ HttpFunctions.post_createBooking tz (Some request) now s
     = (s, Returned
             (HttpFunctions.jsonResponse 200
                (Failure (message DatesNotAvailable))))
  /\ errorClass DatesNotAvailable = Conflict
  /\ Bookings (fst (WebMethods.createBooking tz request now s)) = Bookings s
  /\ Bookings (fst (HttpFunctions.post_createBooking tz (Some request) now s))
     = Bookings s.
Proof.
  intros Hc Hp Hi Ho Ha Hadults Hbusy.
  unfold isRangeAvailable in Hbusy.
  destruct (checkAvailability_returns tz cottageId checkInDate checkOutDate s)
    as (a & Hcheck & _).
  rewrite Hcheck in Hbusy. injection Hbusy as Hbusy.
  assert (Hweb : BookingRequest.customerInfo request <> None ->
                 WebMethods.createBooking tz request now s
                 = (s, Returned (Failure (message DatesNotAvailable)))).
  { intros Hinfo. unfold WebMethods.createBooking, tryCatch, bind.
    rewrite Hc, Hp, Hi, Ho, Ha.
    destruct (BookingRequest.customerInfo request) as [info|];
      [|contradiction].
    replace (adults =? 0) with false by (symmetry; apply Z.eqb_neq; lia).
    replace (adults <? 1) with false by (symmetry; apply Z.ltb_ge; lia).
    rewrite Hcheck, Hbusy. reflexivity. }
  assert (Hhttp : HttpFunctions.post_createBooking tz (Some request) now s
                  = (s, Returned
                          (HttpFunctions.jsonResponse 200
                             (Failure (message DatesNotAvailable))))).
  { unfold HttpFunctions.post_createBooking, tryCatch, bind.
    rewrite Hc, Hp, Hi, Ho, Ha.
    replace (adults =? 0) with false by (symmetry; apply Z.eqb_neq; lia).
    rewrite Hcheck, Hbusy. reflexivity. }
  split; [exact Hweb|]. split; [exact Hhttp|]. split; [reflexivity|].
  split; [|rewrite Hhttp; reflexivity].
  destruct (web_createBooking_effect tz request now s)
    as [->|(bd & b & Hrun)]; [reflexivity|].
  exfalso.
  destruct (WebMethods.createBooking tz request now s) as [s1 o] eqn:Hrun1.
  pose proof (web_createBooking_never_throws tz request now s) as [r Hr].
  rewrite Hrun1 in Hr. simpl in Hr, Hrun. subst o.
  destruct r as [b1 msg|err].
  - apply web_createBooking_success in Hrun1.
    destruct Hrun1 as (bd1 & H1 & H2 & H3 & H4 & _).
    rewrite Hc in H1. rewrite Hi in H2. rewrite Ho in H3.
    injection H1 as E1. injection H2 as E2. injection H3 as E3.
    rewrite <- E1, <- E2, <- E3 in H4.
    unfold isRangeAvailable in H4. rewrite Hcheck, Hbusy in H4.
    discriminate.
  - apply web_createBooking_failure in Hrun1. subst s1.
    apply createBooking_returned in Hrun.
    destruct Hrun as (? & ? & recs & _ & _ & _ & _ & _ & Hs).
    apply (f_equal nextId) in Hs. unfold storeAfterBooking in Hs.
    cbn [nextId] in Hs. unfold wixData.nextIdAfter in Hs. lia.
Qed.

Lemma createBooking_conflict_witness :
  WebMethods.createBooking indiaTime threeNights 9 bookedStore
  = (bookedStore,
     Returned (Failure "Selected dates are not available for this cottage"))
  /\ List.length (Bookings bookedStore) = 1%nat.
Proof.
  split; [|reflexivity].
  apply (createBooking_conflict indiaTime threeNights 9 bookedStore 1 10
           juneFirst (juneFirst + 3 * msPerDay) 2
           eq_refl eq_refl eq_refl eq_refl eq_refl ltac:(lia) eq_refl).
  discriminate.
Defined.

(** ** C7 *)

Lemma updateBookingStatus_run (bookingId : Id) (status : string) (now : Date)
  (s : Store) :
  let item := Booking.mk bookingId None None status None None now in
  let same (b : Booking.t) := N.eqb (Booking._id b) bookingId in
  ReservationService.updateBookingStatus bookingId status now s
  = if existsb same (Bookings s) then
      (mkStore (Cottages s) (Packages s)
         (map (fun b => if same b then item else b) (Bookings s))
         (Availability s) (SafariBookings s) (nextId s),
       Returned item)
    else (s, Thrown FailedToUpdateBookingStatus).
Proof.
  unfold ReservationService.updateBookingStatus, tryCatch, bind,
    wixData.updateBooking, ret, throw.
  cbn [Booking._id]. destruct (existsb _ (Bookings s)); reflexivity.
Qed.

Lemma existsb_replaced (bookingId : Id) (item : Booking.t)
  (bookings : list Booking.t) :
  Booking._id item = bookingId ->
  existsb (fun b => N.eqb (Booking._id b) bookingId)
    (map (fun b => if N.eqb (Booking._id b) bookingId then item else b)
       bookings)
  = existsb (fun b => N.eqb (Booking._id b) bookingId) bookings.
Proof.
  intros Hid. induction bookings as [|b bookings IH]; [reflexivity|].
  simpl. rewrite IH.
  destruct (N.eqb (Booking._id b) bookingId) eqn:Hb; [|rewrite Hb; reflexivity].
  rewrite Hid, N.eqb_refl. reflexivity.
Qed.

Lemma map_replaced_twice (bookingId : Id) (item1 item2 : Booking.t)
  (bookings : list Booking.t) :
  Booking._id item1 = bookingId ->
  map (fun b => if N.eqb (Booking._id b) bookingId then item2 else b)
    (map (fun b => if N.eqb (Booking._id b) bookingId then item1 else b)
       bookings)
  = map (fun b => if N.eqb (Booking._id b) bookingId then item2 else b)
      bookings.
Proof.
  intros Hid. rewrite map_map. apply map_ext. intros b.
  destruct (N.eqb (Booking._id b) bookingId) eqn:Hb; [|rewrite Hb; reflexivity].
  rewrite Hid, N.eqb_refl. reflexivity.
Qed.

(** C7.  Calling [updateBookingStatus(id, status)] twice in succession (in
    particular with "Confirmed") leaves the store a single call leaves: the
    second call returns what one call at that time returns and stores what it
    stores, the store after the second call differs from the store after the
    first in no more than the [updatedDate] written, and not at all when the
    clock reads the same; no booking is added and the bookings with that
    [_id] have the status asked for. *)
Theorem updateBookingStatus_idempotent (bookingId : Id) (status : string)
  (t1 t2 : Date) (s : Store) :
  let s1 :=
    fst (ReservationService.updateBookingStatus bookingId status t1 s) in
  let s2 :=
    fst (ReservationService.updateBookingStatus bookingId status t2 s1) in
  ReservationService.updateBookingStatus bookingId status t2 s1
  = ReservationService.updateBookingStatus bookingId status t2 s
  /\ map withoutUpdatedDate (Bookings s2) = map withoutUpdatedDate (Bookings s1)
  /\ (t1 = t2 -> s2 = s1)
  /\ map Booking._id (Bookings s2) = map Booking._id (Bookings s)
  /\ List.length (Bookings s2) = List.length (Bookings s)
  /\ Forall (fun b => Booking._id b = bookingId -> Booking.status b = status)
       (Bookings s2)
  /\ (Cottages s2, Packages s2, Availability s2, SafariBookings s2, nextId s2)
     = (Cottages s, Packages s, Availability s, SafariBookings s, nextId s).
Proof.
  cbv zeta. rewrite !updateBookingStatus_run. cbv zeta.
  destruct (existsb _ (Bookings s)) eqn:Hex; cbn [fst].
  - cbn [Bookings].
    rewrite existsb_replaced by reflexivity. rewrite Hex. cbn [fst Bookings
      Cottages Packages Availability SafariBookings nextId].
    rewrite map_replaced_twice by reflexivity.
    split; [reflexivity|]. split; [|split; [|split; [|split; [|split]]]].
    + rewrite !map_map. apply map_ext. intros b.
      destruct (N.eqb (Booking._id b) bookingId); reflexivity.
    + intros <-. reflexivity.
    + rewrite map_map. apply map_ext_in. intros b _.
      destruct (N.eqb (Booking._id b) bookingId) eqn:Hb; [|reflexivity].
      apply N.eqb_eq in Hb. symmetry. exact Hb.
    + rewrite length_map. reflexivity.
    + apply Forall_map. apply Forall_forall. intros b _.
      destruct (N.eqb (Booking._id b) bookingId) eqn:Hb; [reflexivity|].
      intros Heq. apply N.eqb_neq in Hb. contradiction.
    + reflexivity.
  - rewrite Hex. cbn [fst].
    split; [reflexivity|]. split; [reflexivity|]. split; [reflexivity|].
    split; [reflexivity|]. split; [reflexivity|]. split; [|reflexivity].
    apply Forall_forall. intros b Hin Hid. exfalso.
    assert (Hsome : existsb (fun b => N.eqb (Booking._id b) bookingId)
                      (Bookings s) = true).
    { apply existsb_exists. exists b. split; [exact Hin|].
      apply N.eqb_eq. exact Hid. }
    rewrite Hsome in Hex. discriminate.
Qed.

Lemma updateBookingStatus_idempotent_witness :
  let confirm t := ReservationService.updateBookingStatus 100
                     BOOKING_STATUS.CONFIRMED t in
  fst (confirm 8 (fst (confirm 8 bookedStore))) = fst (confirm 8 bookedStore)
  /\ map Booking.status
       (Bookings (fst (confirm 9 (fst (confirm 8 bookedStore)))))
     = ["Confirmed"].
Proof.
  cbv zeta. split; [|reflexivity].
  apply (updateBookingStatus_idempotent 100 BOOKING_STATUS.CONFIRMED 8 8
           bookedStore).
  reflexivity.
Defined.

(** ** C8 *)

Lemma assignIds_madeFrom (bookingId : Id) (now : Date)
  (safariData : list SafariEntry.t) :
  forall n,
    Forall2 (madeFrom bookingId) safariData
      (wixData.assignIds wixData.setSafariId n
         (map (fun safari =>
                 SafariBooking.mk 0%N (Some bookingId)
                   (Some (SafariEntry.date safari))
                   (Some (SafariEntry.time safari))
                   SAFARI_STATUS.PENDING
                   (Some (ReservationService.typeOrStandard
                            (SafariEntry.type safari)))
                   (Some now) now)
            safariData)).
Proof.
  induction safariData as [|entry safariData IH]; intros n; simpl;
    constructor; [|apply IH].
  unfold madeFrom. cbn. repeat split.
  destruct (SafariEntry.type entry) as [[|c t]|]; reflexivity.
Qed.

(** C8.  [createSafariBookings(bookingId, entries)] inserts exactly one
    safari booking per entry, in the order of the entries, each with status
    "Pending", the given [bookingId], the date and time of its entry and its
    type, "Standard" when the entry has none; a single entry
    [{date: d, time: "Morning"}] creates exactly one safari booking, pending
    and of type "Standard". *)
Theorem createSafariBookings_one_per_entry (bookingId : Id)
  (safariData : list SafariEntry.t) (now : Date) (s : Store) :
  (exists created result,
      ReservationService.createSafariBookings bookingId safariData now s
      = (mkStore (Cottages s) (Packages s) (Bookings s) (Availability s)
           (SafariBookings s ++ created)%list
           (nextId s + N.of_nat (List.length safariData))%N,
         Returned result)
      /\ Forall2 (madeFrom bookingId) safariData created
      /\ List.length created = List.length safariData
      /\ wixData.inserted result = Z.of_nat (List.length safariData))
  /\ (forall d,
        exists safari,
          SafariBookings
            (fst (ReservationService.createSafariBookings bookingId
                    [SafariEntry.mk d "Morning" None] now s))
          = (SafariBookings s ++ [safari])%list
          /\ SafariBooking.status safari = "Pending"
          /\ SafariBooking.safariType safari = Some "Standard").
Proof.
  split.
  - eexists. eexists. split; [|split; [|split]].
    + unfold ReservationService.createSafariBookings, tryCatch, bind,
        wixData.bulkInsertSafariBookings, ret, wixData.nextIdAfter.
      cbv zeta. rewrite length_map. reflexivity.
    + apply assignIds_madeFrom.
    + rewrite assignIds_length, length_map. reflexivity.
    + cbn [wixData.inserted]. rewrite assignIds_length, length_map.
      reflexivity.
  - intros d. eexists. split; [reflexivity|]. split; reflexivity.
Qed.

(** ** C9 *)

(** Run without interruption, the two parts are the web method. *)
Lemma createBooking_in_two_steps (tz : Z) (request : BookingRequest.t)
  (now : Date) (s : Store) :
  WebMethods.createBooking tz request now s
  = (step <- createBookingCheck tz request ;;
     match step with
     | inl response => ret response
     | inr bookingData => createBookingCommit bookingData now
     end) s.
Proof.
  unfold WebMethods.createBooking, createBookingCheck, createBookingCommit,
    tryCatch, bind.
  destruct request as [[cid|] [pid|] [ci|] [co|] [adults|] children
                         [info|] special]; cbn -[message]; try reflexivity.
  destruct (adults =? 0); [reflexivity|].
  destruct (adults <? 1); [reflexivity|].
  destruct (checkAvailability_returns tz cid ci co s) as (a & -> & _).
  destruct (AvailabilityResult.isAvailable a); cbn -[message]; reflexivity.
Qed.

(** C9 (the code against the claim).  Two [createBooking] requests for the
    same cottage and the same three nights, interleaved so that both
    availability checks precede both writes, both succeed: two bookings are
    stored and every day of the range carries two reservations. *)
Theorem concurrent_createBooking_double_books :
  exists s bookingA bookingB msgA msgB,
    bothCheckThenBothCommit indiaTime threeNights threeNights 7 8 emptyStore
    = (s, (Some (Success bookingA msgA), Some (Success bookingB msgB)))
    /\ Booking._id bookingA <> Booking._id bookingB
    /\ List.length (Bookings s) = 2%nat
    /\ map AvailabilityRecord.bookingId
         (recordsInRange 1 (setHoursZero indiaTime juneFirst)
            (setHoursZero indiaTime (juneFirst + 3 * msPerDay)) s)
       = [Some (Booking._id bookingA); Some (Booking._id bookingA);
          Some (Booking._id bookingA); Some (Booking._id bookingB);
          Some (Booking._id bookingB); Some (Booking._id bookingB)].
Proof.
  do 5 eexists. split; [vm_compute; reflexivity|].
  split; [discriminate|]. split; reflexivity.
Qed.

(** ** C10 *)

(** C10.  With [adults] within the capacity of the cottage (and the cottage
    and the package found) but [checkOutDate <= checkInDate],
    [createBooking] raises no error: the booking is stored, with a number
    of nights that is not positive and
    [totalCost = basePricePerNight * nights + price], which is at most the
    package's price for a price per night that is not negative; the day loop
    makes no iteration and no availability record is written. *)
Theorem createBooking_empty_range (bookingData : BookingData.t) (now : Date)
  (s : Store) (cottage : Cottage.t) (packageData : Package.t) :
  findCottage (BookingData.cottageId bookingData) s = Some cottage ->
  BookingData.adults bookingData <= Cottage.maxAdults cottage ->
  findPackage (BookingData.packageId bookingData) s = Some packageData ->
  BookingData.checkOutDate bookingData <= BookingData.checkInDate bookingData ->
  let nights :=
    ReservationService.calculateNights (BookingData.checkInDate bookingData)
      (BookingData.checkOutDate bookingData) in
  exists b,
    ReservationService.createBooking bookingData now s
    = (mkStore (Cottages s) (Packages s) (Bookings s ++ [b])%list
         (Availability s) (SafariBookings s) (N.succ (nextId s)),
       Returned b)
    /\ Booking.data b = Some bookingData
    /\ nights <= 0
    /\ Booking.totalCost b
       = Some (Cottage.basePricePerNight cottage * nights
               + Package.price packageData)
    /\ (0 <= Cottage.basePricePerNight cottage ->
        Cottage.basePricePerNight cottage * nights + Package.price packageData
        <= Package.price packageData).
Proof.
  intros Hc Hadults Hp Hdates nights.
  pose proof (createBooking_cases bookingData now s) as Hrun.
  rewrite Hc in Hrun.
  replace (BookingData.adults bookingData >? Cottage.maxAdults cottage)
    with false in Hrun by (symmetry; rewrite Z.gtb_ltb; apply Z.ltb_ge; lia).
  rewrite Hp in Hrun. destruct Hrun as (recs & Hloop & Hrun).
  rewrite availabilityLoop_empty_range in Hloop by exact Hdates.
  injection Hloop as <-.
  exists (pendingBooking (nextId s) bookingData cottage packageData now).
  assert (Hnights : nights <= 0).
  { pose proof (calculateNights_spec (BookingData.checkInDate bookingData)
                  (BookingData.checkOutDate bookingData)) as Hs.
    fold nights in Hs. pose proof msPerDay_pos. nia. }
  split; [|split; [reflexivity|split; [exact Hnights|split; [reflexivity|]]]].
  - rewrite Hrun. unfold storeAfterBooking, wixData.nextIdAfter.
    cbn [wixData.assignIds List.length]. rewrite app_nil_r.
    f_equal. f_equal. lia.
  - intros Hprice. nia.
Qed.

Lemma createBooking_empty_range_witness :
  exists b,
    ReservationService.createBooking backwardsData 7 emptyStore
    = (mkStore [hornbill; kingfisher] [basicPackage] [b] [] [] 101,
       Returned b)
    /\ Booking.totalCost b = Some (5000 * -1 + 1500)
    /\ 5000 * -1 + 1500 <= 1500.
Proof.
  destruct (createBooking_empty_range backwardsData 7 emptyStore hornbill
              basicPackage eq_refl ltac:(discriminate) eq_refl
              ltac:(discriminate))
    as (b & Hrun & _ & _ & Hcost & Hle).
  exists b. split; [exact Hrun|]. split; [exact Hcost|].
  apply Hle. discriminate.
Defined.

(** * Further properties *)

(** ** Nights and the records of a range *)


Lemma availabilityLoop_shape (cottageId bookingId : Id) (isAvailable : bool)
  (now : Date) (fuel : nat) :
  forall (date end_ : Date) recs,
    ReservationService.availabilityLoop fuel cottageId bookingId isAvailable
      now date end_ = Some recs ->
    recs
    = map (pushed cottageId bookingId isAvailable now)
        (daysFrom date (Z.to_nat (Math_ceil_div (end_ - date) msPerDay))).
Proof.
  induction fuel as [|fuel IH]; intros date end_ recs Hloop;
    simpl in Hloop; [discriminate|].
  pose proof (Math_ceil_div_spec (end_ - date) msPerDay msPerDay_pos) as Hs.
  pose proof msPerDay_pos as Hd.
  destruct (date <? end_) eqn:Hlt.
  - apply Z.ltb_lt in Hlt.
    destruct (ReservationService.availabilityLoop fuel cottageId bookingId
                isAvailable now (setDateNextDay date) end_)
      as [rest|] eqn:Hrest; [|discriminate].
    injection Hloop as <-. apply IH in Hrest. rewrite Hrest.
    assert (Hnext : Math_ceil_div (end_ - setDateNextDay date) msPerDay
                    = Math_ceil_div (end_ - date) msPerDay - 1).
    { apply Math_ceil_div_unique; [exact Hd|].
      unfold setDateNextDay. nia. }
    rewrite Hnext.
    assert (Hpos : 1 <= Math_ceil_div (end_ - date) msPerDay) by nia.
    replace (Z.to_nat (Math_ceil_div (end_ - date) msPerDay))
      with (S (Z.to_nat (Math_ceil_div (end_ - date) msPerDay - 1)))
      by lia.
    reflexivity.
  - apply Z.ltb_ge in Hlt. injection Hloop as <-.
    replace (Z.to_nat (Math_ceil_div (end_ - date) msPerDay)) with 0%nat
      by nia.
    reflexivity.
Qed.


(** ** What a booking writes *)


Lemma createBooking_availability_length (bookingData : BookingData.t)
  (now : Date) (s s' : Store) (b : Booking.t) :
  ReservationService.createBooking bookingData now s = (s', Returned b) ->
  exists recs,
    Availability s'
    = (Availability s
       ++ wixData.assignIds wixData.setAvailabilityId (N.succ (nextId s))
            recs)%list
    /\ recs
       = map (pushed (BookingData.cottageId bookingData) (nextId s) false now)
           (daysFrom (BookingData.checkInDate bookingData)
              (Z.to_nat
                 (ReservationService.calculateNights
                    (BookingData.checkInDate bookingData)
                    (BookingData.checkOutDate bookingData)))).
Proof.
  intros Hrun. apply createBooking_returned in Hrun.
  destruct Hrun as (cottage & packageData & recs & _ & _ & _ & _ & Hloop & ->).
  exists recs. split; [reflexivity|].
  apply (availabilityLoop_shape _ _ _ _ _ _ _ _ Hloop).
Qed.



(** X4.  [createBooking] for a [cottageId] no cottage has, or for a
    [packageId] no package has, fails on reading a property of [null]
    ([maxAdults], [price]) and writes nothing. *)
Theorem createBooking_unknown_cottage_or_package
  (bookingData : BookingData.t) (now : Date) (s : Store) :
  (findCottage (BookingData.cottageId bookingData) s = None ->
   ReservationService.createBooking bookingData now s
   = (s, Thrown (NullPropertyAccess "maxAdults")))
  /\ (forall cottage,
        findCottage (BookingData.cottageId bookingData) s = Some cottage ->
        BookingData.adults bookingData <= Cottage.maxAdults cottage ->
        findPackage (BookingData.packageId bookingData) s = None ->
        ReservationService.createBooking bookingData now s
        = (s, Thrown (NullPropertyAccess "price"))).
Proof.
  pose proof (createBooking_cases bookingData now s) as Hc. split.
  - intros Hnone. rewrite Hnone in Hc. exact Hc.
  - intros cottage Hfind Hadults Hnone. rewrite Hfind in Hc.
    replace (BookingData.adults bookingData >? Cottage.maxAdults cottage)
      with false in Hc
      by (symmetry; rewrite Z.gtb_ltb; apply Z.ltb_ge; lia).
    rewrite Hnone in Hc. exact Hc.
Qed.

Lemma createBooking_unknown_cottage_or_package_witness :
  ReservationService.createBooking unknownCottageData 7 emptyStore
  = (emptyStore, Thrown (NullPropertyAccess "maxAdults"))
  /\ ReservationService.createBooking unknownPackageData 7 emptyStore
     = (emptyStore, Thrown (NullPropertyAccess "price")).
Proof.
  split.
  - apply (proj1 (createBooking_unknown_cottage_or_package unknownCottageData
                    7 emptyStore)).
    reflexivity.
  - apply (proj2 (createBooking_unknown_cottage_or_package unknownPackageData
                    7 emptyStore) hornbill); [reflexivity| |reflexivity].
    discriminate.
Defined.

(** X5.  [createBooking] never looks at [children]: whether it succeeds, the
    error it raises, the total cost and the availability records written are
    the same for any number of children, also above the [maxChildren] of the
    cottage. *)
Theorem createBooking_ignores_children (bookingData : BookingData.t)
  (children : Z) (now : Date) (s : Store) :
  match ReservationService.createBooking bookingData now s,
        ReservationService.createBooking (withChildren bookingData children)
          now s with
  | (s1, Returned b1), (s2, Returned b2) =>
      Booking.totalCost b1 = Booking.totalCost b2
      /\ Booking._id b1 = Booking._id b2
      /\ Availability s1 = Availability s2
  | (s1, Thrown e1), (s2, Thrown e2) => e1 = e2 /\ s1 = s2
  | _, _ => False
  end.
Proof.
  pose proof (createBooking_cases bookingData now s) as H1.
  pose proof (createBooking_cases (withChildren bookingData children) now s)
    as H2.
  cbn [withChildren BookingData.cottageId BookingData.packageId
       BookingData.adults BookingData.checkInDate BookingData.checkOutDate]
    in H2.
  destruct (findCottage _ s) as [cottage|];
    [|rewrite H1, H2; split; reflexivity].
  destruct (_ >? _); [rewrite H1, H2; split; reflexivity|].
  destruct (findPackage _ s) as [packageData|];
    [|rewrite H1, H2; split; reflexivity].
  destruct H1 as (recs1 & Hl1 & ->). destruct H2 as (recs2 & Hl2 & ->).
  rewrite Hl1 in Hl2. injection Hl2 as <-.
  repeat split.
Qed.

(** ** More on the availability check *)

(** X6.  The availability check only sees the local days of the two dates:
    two requests whose check-in dates fall on one day and whose check-out
    dates fall on one day get the same answer. *)
Theorem checkAvailability_ignores_time_of_day (tz : Z) (cottageId : Id)
  (checkIn checkOut checkIn' checkOut' : Date) (s : Store) :
  setHoursZero tz checkIn = setHoursZero tz checkIn' ->
  setHoursZero tz checkOut = setHoursZero tz checkOut' ->
  ReservationService.checkAvailability tz cottageId checkIn checkOut s
  = ReservationService.checkAvailability tz cottageId checkIn' checkOut' s.
Proof.
  intros Hin Hout. unfold ReservationService.checkAvailability.
  cbv zeta. rewrite Hin, Hout. reflexivity.
Qed.

Lemma checkAvailability_ignores_time_of_day_witness :
  ReservationService.checkAvailability indiaTime 1 juneFirst
    (juneFirst + 3 * msPerDay) bookedStore
  = ReservationService.checkAvailability indiaTime 1 (juneFirst + 9 * hour)
      (juneFirst + 3 * msPerDay - 2 * hour) bookedStore.
Proof.
  apply checkAvailability_ignores_time_of_day; reflexivity.
Defined.

(** X7.  When the check-out date is not on a later local day than the
    check-in date, the availability query covers no day: the answer is
    [true] for every active cottage, whatever is reserved, and [false] only
    for a cottage that is missing or inactive. *)
Theorem checkAvailability_empty_range (tz : Z) (cottageId : Id)
  (checkIn checkOut : Date) (s : Store) :
  setHoursZero tz checkOut <= setHoursZero tz checkIn ->
  conflictingRecords tz cottageId checkIn checkOut s = []
  /\ isRangeAvailable tz cottageId checkIn checkOut s
     = Some match findCottage cottageId s with
            | Some cottage => Cottage.isActive cottage
            | None => false
            end.
Proof.
  intros Hle.
  assert (Hnone : conflictingRecords tz cottageId checkIn checkOut s = []).
  { unfold conflictingRecords.
    induction (Availability s) as [|r rs IH]; [reflexivity|].
    simpl. rewrite IH. unfold ReservationService.conflicts.
    destruct (setHoursZero tz checkIn <=? AvailabilityRecord.date r) eqn:Hlo;
      [|rewrite andb_false_r; reflexivity].
    apply Z.leb_le in Hlo.
    replace (AvailabilityRecord.date r <? setHoursZero tz checkOut)
      with false by (symmetry; apply Z.ltb_ge; lia).
    rewrite andb_false_r. reflexivity. }
  split; [exact Hnone|]. rewrite isRangeAvailable_eq, Hnone. reflexivity.
Qed.

Lemma checkAvailability_empty_range_witness :
  isRangeAvailable indiaTime 1 (juneFirst + hour) (juneFirst + 5 * hour)
    bookedStore = Some true.
Proof.
  apply (checkAvailability_empty_range indiaTime 1 (juneFirst + hour)
           (juneFirst + 5 * hour) bookedStore).
  discriminate.
Defined.



(** ** Reservations are never released *)

Lemma createBooking_appends (bookingData : BookingData.t) (now : Date)
  (s : Store) :
  exists added,
    Availability (fst (ReservationService.createBooking bookingData now s))
    = (Availability s ++ added)%list
    /\ Cottages (fst (ReservationService.createBooking bookingData now s))
       = Cottages s.
Proof.
  destruct (ReservationService.createBooking bookingData now s)
    as [s' [b|e]] eqn:Hrun.
  - apply createBooking_returned in Hrun.
    destruct Hrun as (c & p & recs & _ & _ & _ & _ & _ & ->).
    eexists. split; reflexivity.
  - apply createBooking_thrown in Hrun. subst s'. exists [].
    rewrite app_nil_r. split; reflexivity.
Qed.

Lemma endpointStep_appends (tz : Z) (s s' : Store) :
  endpointStep tz s s' ->
  exists added,
    Availability s' = (Availability s ++ added)%list
    /\ Cottages s' = Cottages s.
Proof.
  intros Hstep. destruct Hstep as [s request now|s payload now
                                  |s bookingId status now
                                  |s bookingId safariData now
                                  |s safariId status now].
  - destruct (web_createBooking_effect tz request now s)
      as [->|(bd & b & Hrun)];
      [exists []; rewrite app_nil_r; split; reflexivity|].
    pose proof (createBooking_appends bd now s) as Happ.
    rewrite Hrun in Happ. exact Happ.
  - destruct (post_createBooking_effect tz payload now s)
      as [->|(bd & b & Hrun)];
      [exists []; rewrite app_nil_r; split; reflexivity|].
    pose proof (createBooking_appends bd now s) as Happ.
    rewrite Hrun in Happ. exact Happ.
  - exists []. rewrite app_nil_r, updateBookingStatus_availability.
    split; [reflexivity|].
    rewrite updateBookingStatus_run. cbv zeta.
    destruct (existsb _ (Bookings s)); reflexivity.
  - exists []. rewrite app_nil_r. split; reflexivity.
  - exists []. rewrite app_nil_r, updateSafariStatus_availability.
    split; [reflexivity|].
    unfold ReservationService.updateSafariStatus, tryCatch, bind,
      wixData.updateSafariBooking, ret, throw.
    cbn [SafariBooking._id]. destruct (existsb _ (SafariBookings s));
      reflexivity.
Qed.

Lemma endpointRun_appends (tz : Z) (s s' : Store) :
  endpointRun tz s s' ->
  exists added,
    Availability s' = (Availability s ++ added)%list
    /\ Cottages s' = Cottages s.
Proof.
  induction 1 as [s|s s' s'' _ IH Hstep].
  - exists []. rewrite app_nil_r. split; reflexivity.
  - destruct IH as (added & Hav & Hc).
    destruct (endpointStep_appends tz s' s'' Hstep) as (added' & Hav' & Hc').
    exists (added ++ added')%list.
    rewrite Hav', Hav, app_assoc, Hc', Hc. split; reflexivity.
Qed.

(** X9.  No endpoint removes or changes an availability record: whatever
    calls follow (a change of the booking's status to "Cancelled" among
    them), the records stay, in place, and a range the check has reported as
    taken is reported as taken ever after. *)
Theorem taken_dates_stay_taken (tz : Z) (s s' : Store) (cottageId : Id)
  (checkIn checkOut : Date) :
  endpointRun tz s s' ->
  (exists added, Availability s' = (Availability s ++ added)%list)
  /\ (conflictingRecords tz cottageId checkIn checkOut s <> [] ->
      isRangeAvailable tz cottageId checkIn checkOut s' = Some false).
Proof.
  intros Hrun. destruct (endpointRun_appends tz s s' Hrun)
    as (added & Hav & _).
  split; [eauto|]. intros Htaken. rewrite isRangeAvailable_eq.
  unfold conflictingRecords in *. rewrite Hav, filter_app.
  destruct (filter _ (Availability s)); [contradiction|reflexivity].
Qed.

Lemma taken_dates_stay_taken_witness :
  isRangeAvailable indiaTime 1 juneFirst (juneFirst + msPerDay)
    (fst (ReservationService.updateBookingStatus 100
            BOOKING_STATUS.CANCELLED 9 bookedStore))
  = Some false.
Proof.
  apply (taken_dates_stay_taken indiaTime bookedStore
           (fst (ReservationService.updateBookingStatus 100
                   BOOKING_STATUS.CANCELLED 9 bookedStore))
           1 juneFirst (juneFirst + msPerDay)).
  - eapply run_step; [apply run_done|].
    apply step_updateBookingStatus.
  - discriminate.
Defined.

(** ** Days reserved by a booking *)

Lemma setHoursZero_multiple (tz t : Date) :
  setHoursZero tz t = (t + tz) / msPerDay * msPerDay - tz.
Proof.
  unfold setHoursZero.
  pose proof (Z.div_mod (t + tz) msPerDay ltac:(pose proof msPerDay_pos; lia)).
  lia.
Qed.

Lemma setHoursZero_mono (tz a b : Date) :
  a <= b -> setHoursZero tz a <= setHoursZero tz b.
Proof.
  intros Hle. rewrite !setHoursZero_multiple.
  pose proof (Z.div_le_mono (a + tz) (b + tz) msPerDay msPerDay_pos
                ltac:(lia)).
  pose proof msPerDay_pos. nia.
Qed.

(** Two starts of day are equal or at least a day apart. *)
Lemma setHoursZero_apart (tz a b : Date) :
  setHoursZero tz a < setHoursZero tz b ->
  setHoursZero tz a + msPerDay <= setHoursZero tz b.
Proof.
  rewrite !setHoursZero_multiple. pose proof msPerDay_pos as Hd.
  generalize ((a + tz) / msPerDay) ((b + tz) / msPerDay). intros p q Hlt.
  assert (Hpq : p < q) by nia.
  assert (Hstep : (p + 1) * msPerDay <= q * msPerDay) by nia.
  lia.
Qed.

Lemma setHoursZero_plus_days (tz t : Date) (k : Z) :
  setHoursZero tz (t + k * msPerDay) = setHoursZero tz t + k * msPerDay.
Proof.
  unfold setHoursZero.
  replace (t + k * msPerDay + tz) with (t + tz + k * msPerDay) by ring.
  rewrite Z.mod_add by (pose proof msPerDay_pos; lia). ring.
Qed.

Lemma daysFrom_In (n : nat) :
  forall date d,
    In d (daysFrom date n) ->
    exists k, 0 <= k < Z.of_nat n /\ d = date + k * msPerDay.
Proof.
  induction n as [|n IH]; intros date d Hin; [contradiction|].
  destruct Hin as [<-|Hin].
  - exists 0. split; lia.
  - apply IH in Hin. destruct Hin as (k & Hk & ->).
    exists (k + 1). unfold setDateNextDay. split; lia.
Qed.

Lemma daysFrom_NoDup (tz : Z) (cottageId : Id) (n : nat) :
  forall date,
    NoDup (map (fun d => (cottageId, setHoursZero tz d)) (daysFrom date n)).
Proof.
  induction n as [|n IH]; intros date; simpl; constructor; [|apply IH].
  intros Hin. apply in_map_iff in Hin. destruct Hin as (d & Heq & Hd).
  apply daysFrom_In in Hd. destruct Hd as (k & Hk & ->).
  injection Heq as Heq. unfold setDateNextDay in Heq.
  replace (date + msPerDay + k * msPerDay)
    with (date + (k + 1) * msPerDay) in Heq by ring.
  rewrite setHoursZero_plus_days in Heq. pose proof msPerDay_pos. nia.
Qed.

(** The instants a stay is given records for, when its dates are aligned,
    are within the days the availability check covers. *)
Lemma aligned_days_in_range (tz : Z) (checkIn checkOut d : Date) :
  alignedDates tz checkIn checkOut ->
  In d (daysFrom checkIn
          (Z.to_nat (ReservationService.calculateNights checkIn checkOut))) ->
  setHoursZero tz checkIn <= d < setHoursZero tz checkOut.
Proof.
  unfold alignedDates, timeOfDay. intros Haligned Hin.
  apply daysFrom_In in Hin. destruct Hin as (k & Hk & ->).
  pose proof (calculateNights_spec checkIn checkOut) as Hs.
  pose proof msPerDay_pos as Hd.
  pose proof (setHoursZero_bounds tz checkIn) as Hb.
  assert (Hlt : checkIn + k * msPerDay < checkOut) by nia.
  split; [nia|].
  pose proof (setHoursZero_plus_days tz checkIn k) as Hday.
  destruct (Z.lt_ge_cases (setHoursZero tz (checkIn + k * msPerDay))
              (setHoursZero tz checkOut)) as [Hless|Hge].
  - apply setHoursZero_apart in Hless.
    pose proof (setHoursZero_bounds tz (checkIn + k * msPerDay)). lia.
  - exfalso. lia.
Qed.

Lemma reservedDay_assigned (tz : Z) (cottageId bookingId : Id) (now : Date)
  (n : Id) (days : list Date) :
  map (reservedDay tz)
    (wixData.assignIds wixData.setAvailabilityId n
       (map (pushed cottageId bookingId false now) days))
  = map (fun d => (cottageId, setHoursZero tz d)) days.
Proof.
  rewrite assignIds_map by (intros i []; reflexivity).
  rewrite map_map. reflexivity.
Qed.

(** A guarded booking with aligned dates reserves days no record of the
    cottage was on. *)
Lemma guarded_aligned_booking (tz : Z) (bookingData : BookingData.t)
  (now : Date) (s s' : Store) (b : Booking.t) :
  allBooked s ->
  noDoubleBooking tz s ->
  isRangeAvailable tz (BookingData.cottageId bookingData)
    (BookingData.checkInDate bookingData)
    (BookingData.checkOutDate bookingData) s = Some true ->
  alignedDates tz (BookingData.checkInDate bookingData)
    (BookingData.checkOutDate bookingData) ->
  ReservationService.createBooking bookingData now s = (s', Returned b) ->
  noDoubleBooking tz s'.
Proof.
  intros Hinv Hno Hfree Haligned Hrun.
  destruct (createBooking_availability_length _ _ _ _ _ Hrun)
    as (recs & Hav & Hrecs).
  unfold noDoubleBooking. rewrite Hav, map_app, Hrecs, reservedDay_assigned.
  apply NoDup_app; [exact Hno|apply daysFrom_NoDup|].
  intros [c day] Hold Hnew.
  apply in_map_iff in Hold. destruct Hold as (r & Hr & Hin).
  apply in_map_iff in Hnew. destruct Hnew as (d & Hd & Hdin).
  unfold reservedDay in Hr. injection Hr as Hrc Hrd.
  injection Hd as Hdc Hdd.
  assert (Hsame : AvailabilityRecord.cottageId r
                  = BookingData.cottageId bookingData) by congruence.
  assert (Hday : setHoursZero tz (AvailabilityRecord.date r)
                 = setHoursZero tz d) by congruence.
  clear Hrc Hrd Hdc Hdd.
  pose proof (aligned_days_in_range tz _ _ d Haligned Hdin) as Hrange.
  apply isRangeAvailable_true in Hfree. destruct Hfree as [Hnone _].
  unfold conflictingRecords in Hnone.
  rewrite <- (allBooked_inRange _ _ _ s Hinv) in Hnone.
  assert (Hout : inRange (BookingData.cottageId bookingData)
                   (setHoursZero tz (BookingData.checkInDate bookingData))
                   (setHoursZero tz (BookingData.checkOutDate bookingData))
                   r = false).
  { destruct (inRange _ _ _ r) eqn:Hr; [|reflexivity].
    assert (Hf : In r (filter
                         (inRange (BookingData.cottageId bookingData)
                            (setHoursZero tz
                               (BookingData.checkInDate bookingData))
                            (setHoursZero tz
                               (BookingData.checkOutDate bookingData)))
                         (Availability s)))
      by (apply filter_In; split; assumption).
    rewrite Hnone in Hf. contradiction. }
  unfold inRange in Hout. rewrite Hsame, N.eqb_refl in Hout.
  cbn [andb] in Hout.
  pose proof (setHoursZero_bounds tz (AvailabilityRecord.date r)) as Hb.
  pose proof (setHoursZero_bounds tz d) as Hbd.
  apply andb_false_iff in Hout. destruct Hout as [Hlo|Hhi].
  - apply Z.leb_gt in Hlo.
    pose proof (setHoursZero_mono tz _ _ (proj1 Hrange)) as Hm.
    rewrite setHoursZero_idempotent in Hm. lia.
  - apply Z.ltb_ge in Hhi.
    pose proof (setHoursZero_mono tz _ _ Hhi) as Hm.
    rewrite setHoursZero_idempotent in Hm.
    destruct (Z.lt_ge_cases (setHoursZero tz d)
                (setHoursZero tz (BookingData.checkOutDate bookingData)))
      as [Hless|Hge]; [lia|].
    pose proof (setHoursZero_mono tz _ _ Hge) as Hm'.
    rewrite !setHoursZero_idempotent in Hm'. lia.
Qed.

Lemma post_createBooking_answer (tz : Z) (payload : option BookingRequest.t)
  (now : Date) (s : Store) :
  exists code body,
    snd (HttpFunctions.post_createBooking tz payload now s)
    = Returned (HttpFunctions.jsonResponse code body)
    /\ (forall error,
          body = Failure error ->
          fst (HttpFunctions.post_createBooking tz payload now s) = s).
Proof.
  unfold HttpFunctions.post_createBooking, tryCatch, bind.
  destruct payload as [request|];
    [|do 2 eexists; split; [reflexivity|reflexivity]].
  destruct request as [[cid|] [pid|] [ci|] [co|] [adults|] children
                         info special]; cbn -[message];
    try (do 2 eexists; split; [reflexivity|reflexivity]).
  destruct (adults =? 0);
    [do 2 eexists; split; [reflexivity|reflexivity]|].
  destruct (checkAvailability_returns tz cid ci co s) as (a & -> & _).
  destruct (AvailabilityResult.isAvailable a); cbn -[message];
    [|do 2 eexists; split; [reflexivity|reflexivity]].
  match goal with
  | |- context [ReservationService.createBooking ?bd now s] =>
      destruct (ReservationService.createBooking bd now s) as [s1 [b1|e]]
        eqn:Hrun
  end; cbn -[message]; do 2 eexists; (split; [reflexivity|]).
  - discriminate.
  - intros _ _. eapply createBooking_thrown; eassumption.
Qed.

Lemma reachableAligned_invariant (tz : Z) (s : Store) :
  reachableAligned tz s -> allBooked s /\ noDoubleBooking tz s.
Proof.
  induction 1 as [cottages packages n
                 | s request now _ [IHb IHn] Haligned
                 | s request now _ [IHb IHn] Haligned
                 | s bookingId status now _ [IHb IHn]
                 | s bookingId safariData now _ [IHb IHn]
                 | s safariId status now _ [IHb IHn]].
  - split; constructor.
  - destruct (WebMethods.createBooking tz request now s) as [s' o] eqn:Hrun.
    pose proof (web_createBooking_never_throws tz request now s) as [r Hr].
    rewrite Hrun in Hr. simpl in Hr. subst o. cbn [fst].
    destruct r as [b msg|error].
    + apply web_createBooking_success in Hrun.
      destruct Hrun as (bd & _ & Hi & Ho & Hfree & Hrun).
      split; [eapply createBooking_allBooked; eassumption|].
      eapply guarded_aligned_booking; try eassumption.
      apply (Haligned _ _ Hi Ho).
    + apply web_createBooking_failure in Hrun. subst s'. split; assumption.
  - destruct (HttpFunctions.post_createBooking tz (Some request) now s)
      as [s' o] eqn:Hrun.
    destruct (post_createBooking_answer tz (Some request) now s)
      as (code & body & Hbody & Hfail).
    rewrite Hrun in Hbody, Hfail. simpl in Hbody, Hfail. subst o. cbn [fst].
    destruct body as [b msg|error].
    + apply post_createBooking_success in Hrun.
      destruct Hrun as (rq & bd & Hrq & _ & Hi & Ho & Hfree & Hrun).
      injection Hrq as <-.
      split; [eapply createBooking_allBooked; eassumption|].
      eapply guarded_aligned_booking; try eassumption.
      apply (Haligned _ _ Hi Ho).
    + rewrite (Hfail error eq_refl). split; assumption.
  - unfold allBooked, noDoubleBooking.
    rewrite updateBookingStatus_availability. split; assumption.
  - unfold allBooked, noDoubleBooking.
    rewrite createSafariBookings_availability. split; assumption.
  - unfold allBooked, noDoubleBooking.
    rewrite updateSafariStatus_availability. split; assumption.
Qed.

(** X10.  As long as the endpoints are called one after the other and every
    [createBooking] request has its check-out no later in the day than its
    check-in (two dates at midnight, for one), no cottage ever gets two
    availability records on one local day. *)
Theorem sequential_aligned_bookings_never_overlap (tz : Z) (s : Store) :
  reachableAligned tz s -> noDoubleBooking tz s.
Proof. intros Hreach. apply (reachableAligned_invariant tz s Hreach). Qed.

Lemma sequential_aligned_bookings_never_overlap_witness :
  noDoubleBooking indiaTime
    (fst (WebMethods.createBooking indiaTime threeNights 9 bookedStore)).
Proof.
  apply sequential_aligned_bookings_never_overlap.
  apply aligned_createBooking; [apply aligned_createBooking|].
  - apply aligned_initial.
  - intros ci co Hi Ho. injection Hi as <-. injection Ho as <-.
    vm_compute. discriminate.
  - intros ci co Hi Ho. injection Hi as <-. injection Ho as <-.
    vm_compute. discriminate.
Defined.

Lemma daysFrom_In_inv (n : nat) :
  forall date k,
    0 <= k < Z.of_nat n -> In (date + k * msPerDay) (daysFrom date n).
Proof.
  induction n as [|n IH]; intros date k Hk; [lia|].
  destruct (Z.eq_dec k 0) as [->|Hne].
  - left. ring.
  - right. replace (date + k * msPerDay)
      with (setDateNextDay date + (k - 1) * msPerDay)
      by (unfold setDateNextDay; ring).
    apply IH. lia.
Qed.

(** X11.  The availability records a successful [createBooking] writes, set
    against the days its availability check covers (from the check-in day up
    to, not including, the check-out day).  When the check-out is no later
    in the day than the check-in, every record written lies within those
    days.  When it is later in the day, one record is written on the
    check-out day, a day the check did not look at. *)
Theorem createBooking_reserved_days (tz : Z) (bookingData : BookingData.t)
  (now : Date) (s s' : Store) (b : Booking.t) :
  ReservationService.createBooking bookingData now s = (s', Returned b) ->
  let cottageId := BookingData.cottageId bookingData in
  let checkIn := BookingData.checkInDate bookingData in
  let checkOut := BookingData.checkOutDate bookingData in
  exists written,
    Availability s' = (Availability s ++ written)%list
    /\ (alignedDates tz checkIn checkOut ->
        Forall (fun r =>
                  inRange cottageId (setHoursZero tz checkIn)
                    (setHoursZero tz checkOut) r = true) written)
    /\ (setHoursZero tz checkIn <= setHoursZero tz checkOut ->
        timeOfDay tz checkIn < timeOfDay tz checkOut ->
        exists r,
          In r written
          /\ AvailabilityRecord.cottageId r = cottageId
          /\ AvailabilityRecord.isAvailable r = false
          /\ setHoursZero tz (AvailabilityRecord.date r)
             = setHoursZero tz checkOut
          /\ inRange cottageId (setHoursZero tz checkIn)
               (setHoursZero tz checkOut) r = false).
Proof.
  intros Hrun. cbv zeta.
  destruct (createBooking_availability_length _ _ _ _ _ Hrun)
    as (recs & Hav & Hrecs).
  eexists. split; [exact Hav|]. rewrite Hrecs. split.
  - intros Haligned. apply assignIds_Forall; [intros i [] H; exact H|].
    apply Forall_map. apply Forall_forall. intros d Hd.
    pose proof (aligned_days_in_range tz _ _ d Haligned Hd) as [Hlo Hhi].
    unfold inRange, pushed. cbn [AvailabilityRecord.cottageId
                                  AvailabilityRecord.date].
    rewrite N.eqb_refl.
    apply Z.leb_le in Hlo. apply Z.ltb_lt in Hhi. rewrite Hlo, Hhi.
    reflexivity.
  - intros Hdays Hlater. unfold timeOfDay in Hlater.
    set (checkIn := BookingData.checkInDate bookingData) in *.
    set (checkOut := BookingData.checkOutDate bookingData) in *.
    pose proof msPerDay_pos as Hd.
    pose proof (calculateNights_spec checkIn checkOut) as Hs.
    assert (Hk : exists k, 0 <= k
                           /\ setHoursZero tz checkOut
                              = setHoursZero tz checkIn + k * msPerDay).
    { exists ((checkOut + tz) / msPerDay - (checkIn + tz) / msPerDay).
      rewrite !setHoursZero_multiple in *. split; [nia|ring]. }
    destruct Hk as (k & Hk0 & Hk).
    assert (Hin : In (checkIn + k * msPerDay)
                    (daysFrom checkIn
                       (Z.to_nat
                          (ReservationService.calculateNights checkIn
                             checkOut)))).
    { apply daysFrom_In_inv. split; [exact Hk0|].
      assert (k < ReservationService.calculateNights checkIn checkOut)
        by nia.
      lia. }
    assert (Hmapped :
              In (checkIn + k * msPerDay)
                (map AvailabilityRecord.date
                   (wixData.assignIds wixData.setAvailabilityId
                      (N.succ (nextId s))
                      (map (pushed (BookingData.cottageId bookingData)
                              (nextId s) false now)
                         (daysFrom checkIn
                            (Z.to_nat
                               (ReservationService.calculateNights checkIn
                                  checkOut))))))).
    { rewrite assignIds_map by (intros i []; reflexivity).
      rewrite map_map. cbn [pushed AvailabilityRecord.date].
      rewrite map_id. exact Hin. }
    apply in_map_iff in Hmapped. destruct Hmapped as (r & Hdate & Hr).
    exists r. split; [exact Hr|].
    assert (Hfields :
              Forall (fun r =>
                        AvailabilityRecord.cottageId r
                        = BookingData.cottageId bookingData
                        /\ AvailabilityRecord.isAvailable r = false)
                (wixData.assignIds wixData.setAvailabilityId
                   (N.succ (nextId s))
                   (map (pushed (BookingData.cottageId bookingData)
                           (nextId s) false now)
                      (daysFrom checkIn
                         (Z.to_nat
                            (ReservationService.calculateNights checkIn
                               checkOut)))))).
    { apply assignIds_Forall; [intros i [] H; exact H|].
      apply Forall_map. apply Forall_forall. intros d _. split; reflexivity. }
    rewrite Forall_forall in Hfields. destruct (Hfields r Hr) as [Hc Ha].
    split; [exact Hc|]. split; [exact Ha|].
    rewrite Hdate, setHoursZero_plus_days. split; [symmetry; exact Hk|].
    unfold inRange. rewrite Hdate.
    replace (checkIn + k * msPerDay <? setHoursZero tz checkOut) with false
      by (symmetry; apply Z.ltb_ge;
          pose proof (setHoursZero_bounds tz checkIn); lia).
    rewrite andb_false_r. reflexivity.
Qed.

Lemma createBooking_reserved_days_witness :
  exists r,
    In r (Availability
            (fst (ReservationService.createBooking lateCheckOutData 7
                    emptyStore)))
    /\ setHoursZero 0 (AvailabilityRecord.date r)
       = setHoursZero 0 (juneFirst + 2 * msPerDay + 14 * hour).
Proof.
  destruct (createBooking_reserved_days 0 lateCheckOutData 7 emptyStore
              (fst (ReservationService.createBooking lateCheckOutData 7
                      emptyStore))
              (pendingBooking 100 lateCheckOutData hornbill basicPackage 7)
              eq_refl)
    as (written & Hav & _ & Hlate).
  destruct Hlate as (r & Hr & _ & _ & Hday & _);
    [discriminate|reflexivity|].
  exists r. split; [|exact Hday].
  rewrite Hav. apply in_or_app. right. exact Hr.
Defined.

(** ** A reserved range refuses later requests *)

Lemma web_createBooking_busy (tz : Z) (request : BookingRequest.t)
  (now : Date) (s : Store) (cottageId packageId : Id)
  (checkInDate checkOutDate : Date) (adults : Z) :
  BookingRequest.cottageId request = Some cottageId ->
  BookingRequest.packageId request = Some packageId ->
  BookingRequest.checkInDate request = Some checkInDate ->
  BookingRequest.checkOutDate request = Some checkOutDate ->
  BookingRequest.adults request = Some adults ->
  1 <= adults ->
  BookingRequest.customerInfo request <> None ->
  isRangeAvailable tz cottageId checkInDate checkOutDate s = Some false ->
  WebMethods.createBooking tz request now s
  = (s, Returned (Failure (message DatesNotAvailable))).
Proof.
  intros Hc Hp Hi Ho Ha Hadults Hinfo Hbusy.
  unfold isRangeAvailable in Hbusy.
  destruct (checkAvailability_returns tz cottageId checkInDate checkOutDate s)
    as (a & Hcheck & _).
  rewrite Hcheck in Hbusy. injection Hbusy as Hbusy.
  unfold WebMethods.createBooking, tryCatch, bind.
  rewrite Hc, Hp, Hi, Ho, Ha.
  destruct (BookingRequest.customerInfo request) as [info|];
    [|contradiction].
  replace (adults =? 0) with false by (symmetry; apply Z.eqb_neq; lia).
  replace (adults <? 1) with false by (symmetry; apply Z.ltb_ge; lia).
  rewrite Hcheck, Hbusy. reflexivity.
Qed.

(** X12.  After a [createBooking] request for a stay of at least one night
    has succeeded, and whatever endpoint calls follow, every later complete
    [createBooking] request for the same cottage whose days include the
    first check-in instant is answered "Selected dates are not available for
    this cottage" and writes nothing: repeating the request, in particular. *)
Theorem booked_range_refuses_later_requests (tz : Z)
  (request request' : BookingRequest.t) (now now' : Date)
  (s s1 s2 : Store) (b : Booking.t) (msg : option string)
  (cottageId packageId' : Id) (checkIn checkOut checkIn' checkOut' : Date)
  (adults' : Z) :
  WebMethods.createBooking tz request now s = (s1, Returned (Success b msg)) ->
  BookingRequest.cottageId request = Some cottageId ->
  BookingRequest.checkInDate request = Some checkIn ->
  BookingRequest.checkOutDate request = Some checkOut ->
  checkIn < checkOut ->
  endpointRun tz s1 s2 ->
  BookingRequest.cottageId request' = Some cottageId ->
  BookingRequest.packageId request' = Some packageId' ->
  BookingRequest.checkInDate request' = Some checkIn' ->
  BookingRequest.checkOutDate request' = Some checkOut' ->
  BookingRequest.adults request' = Some adults' ->
  1 <= adults' ->
  BookingRequest.customerInfo request' <> None ->
  setHoursZero tz checkIn' <= checkIn < setHoursZero tz checkOut' ->
  WebMethods.createBooking tz request' now' s2
  = (s2, Returned (Failure (message DatesNotAvailable))).
Proof.
  intros Hrun Hc Hi Ho Hnight Hlater Hc' Hp' Hi' Ho' Ha' Hadults Hinfo Hcover.
  apply web_createBooking_success in Hrun.
  destruct Hrun as (bd & H1 & H2 & H3 & _ & Hrun).
  rewrite Hc in H1. rewrite Hi in H2. rewrite Ho in H3.
  injection H1 as H1. injection H2 as H2. injection H3 as H3.
  destruct (createBooking_availability_length _ _ _ _ _ Hrun)
    as (recs & Hav & Hrecs).
  rewrite <- H1, <- H2, <- H3 in Hrecs.
  assert (Hn : exists n,
             Z.to_nat (ReservationService.calculateNights checkIn checkOut)
             = S n).
  { pose proof (calculateNights_spec checkIn checkOut) as Hs.
    pose proof msPerDay_pos.
    exists (Z.to_nat (ReservationService.calculateNights checkIn checkOut - 1)).
    nia. }
  destruct Hn as (n & Hn). rewrite Hn in Hrecs. cbn [daysFrom map] in Hrecs.
  rewrite Hrecs in Hav. cbn [wixData.assignIds] in Hav.
  destruct (endpointRun_appends tz s1 s2 Hlater) as (added & Hav2 & _).
  eapply web_createBooking_busy; try eassumption.
  rewrite isRangeAvailable_eq.
  assert (Hin : In (wixData.setAvailabilityId (N.succ (nextId s))
                      (pushed cottageId (nextId s) false now checkIn))
                  (conflictingRecords tz cottageId checkIn' checkOut' s2)).
  { unfold conflictingRecords. apply filter_In. split.
    - rewrite Hav2, Hav. apply in_or_app. left. apply in_or_app. right.
      left. reflexivity.
    - unfold ReservationService.conflicts. cbn.
      rewrite N.eqb_refl.
      replace (setHoursZero tz checkIn' <=? checkIn) with true
        by (symmetry; apply Z.leb_le; lia).
      replace (checkIn <? setHoursZero tz checkOut') with true
        by (symmetry; apply Z.ltb_lt; lia).
      reflexivity. }
  destruct (conflictingRecords tz cottageId checkIn' checkOut' s2);
    [contradiction|reflexivity].
Qed.

Lemma booked_range_refuses_later_requests_witness :
  WebMethods.createBooking indiaTime threeNights 11
    (fst (ReservationService.updateBookingStatus 100
            BOOKING_STATUS.CANCELLED 9 bookedStore))
  = (fst (ReservationService.updateBookingStatus 100
            BOOKING_STATUS.CANCELLED 9 bookedStore),
     Returned (Failure "Selected dates are not available for this cottage")).
Proof.
  apply (booked_range_refuses_later_requests indiaTime threeNights
           threeNights 7 11 emptyStore bookedStore _
           (pendingBooking 100 threeNightsData hornbill basicPackage 7)
           (Some "Booking created successfully") 1 10 juneFirst
           (juneFirst + 3 * msPerDay) juneFirst (juneFirst + 3 * msPerDay) 2);
    try reflexivity; try discriminate.
  - eapply run_step; [apply run_done|]. apply step_updateBookingStatus.
  - split; [vm_compute; discriminate|reflexivity].
Defined.

(** ** Status updates *)

Lemma existsb_none {A} (idOf : A -> Id) (id : Id) (items : list A) :
  (forall x, In x items -> idOf x <> id) ->
  existsb (fun x => N.eqb (idOf x) id) items = false.
Proof.
  intros Hnone. induction items as [|x items IH]; [reflexivity|].
  simpl. rewrite IH by (intros y Hy; apply Hnone; right; exact Hy).
  replace (N.eqb (idOf x) id) with false; [reflexivity|].
  symmetry. apply N.eqb_neq. apply Hnone. left. reflexivity.
Qed.

Lemma existsb_some {A} (idOf : A -> Id) (id : Id) (items : list A) (x : A) :
  In x items -> idOf x = id ->
  existsb (fun x => N.eqb (idOf x) id) items = true.
Proof.
  intros Hin Hid. apply existsb_exists. exists x. split; [exact Hin|].
  apply N.eqb_eq. exact Hid.
Qed.

(** X13.  [updateBookingStatus] for an [_id] no booking has fails with
    "Failed to update booking status" and leaves the store as it is; the web
    method answers with that message and the HTTP function with status 500.
    For the [_id] of a stored booking it succeeds for any status string and
    returns the item written: that [_id], the status, the time of the call. *)
Theorem updateBookingStatus_unknown_or_known (bookingId : Id)
  (status : string) (now : Date) (s : Store) :
  ((forall b, In b (Bookings s) -> Booking._id b <> bookingId) ->
   ReservationService.updateBookingStatus bookingId status now s
   = (s, Thrown FailedToUpdateBookingStatus)
   /\ (status <> "" ->
       WebMethods.updateBookingStatus
         (StatusRequest.mk (Some bookingId) (Some status)) now s
       = (s, Fulfilled (Failure "Failed to update booking status"))
       /\ HttpFunctions.post_updateBookingStatus
            (Some (StatusRequest.mk (Some bookingId) (Some status))) now s
          = (s, Fulfilled
                  (HttpFunctions.jsonResponse 500
                     (Failure "Failed to update booking status")))))
  /\ (forall b,
        In b (Bookings s) -> Booking._id b = bookingId ->
        exists s' item,
          ReservationService.updateBookingStatus bookingId status now s
          = (s', Returned item)
          /\ Booking._id item = bookingId
          /\ Booking.status item = status
          /\ Booking.updatedDate item = now
          /\ In item (Bookings s')
          /\ List.length (Bookings s') = List.length (Bookings s)).
Proof.
  split.
  - intros Hnone.
    assert (Hrun : ReservationService.updateBookingStatus bookingId status
                     now s = (s, Thrown FailedToUpdateBookingStatus)).
    { rewrite updateBookingStatus_run. cbv zeta.
      rewrite (existsb_none Booking._id bookingId (Bookings s) Hnone).
      reflexivity. }
    split; [exact Hrun|]. intros _.
    unfold WebMethods.updateBookingStatus,
      HttpFunctions.post_updateBookingStatus, catchWith, andThen, await.
    cbn -[ReservationService.updateBookingStatus].
    rewrite Hrun. split; reflexivity.
  - intros b Hin Hid. rewrite updateBookingStatus_run. cbv zeta.
    rewrite (existsb_some Booking._id bookingId (Bookings s) b Hin Hid).
    do 2 eexists. split; [reflexivity|]. cbn.
    repeat split; [|apply length_map].
    apply in_map_iff. exists b. split; [|exact Hin].
    apply N.eqb_eq in Hid. rewrite Hid. reflexivity.
Qed.

Lemma updateBookingStatus_unknown_or_known_witness :
  ReservationService.updateBookingStatus 55 "Confirmed" 9 bookedStore
  = (bookedStore, Thrown FailedToUpdateBookingStatus)
  /\ exists s' item,
       ReservationService.updateBookingStatus 100 "Anything" 9 bookedStore
       = (s', Returned item)
       /\ Booking.status item = "Anything".
Proof.
  destruct (updateBookingStatus_unknown_or_known 55 "Confirmed" 9 bookedStore)
    as [Hunknown _].
  destruct (updateBookingStatus_unknown_or_known 100 "Anything" 9 bookedStore)
    as [_ Hknown].
  split.
  - apply Hunknown. intros b [<-|[]]. discriminate.
  - destruct (Hknown (pendingBooking 100 threeNightsData hornbill
                        basicPackage 7))
      as (s' & item & Hrun & _ & Hstatus & _);
      [left; reflexivity|reflexivity|].
    exists s', item. split; assumption.
Defined.

(** X14.  [updateBookingStatus] refuses no transition: a second call with
    any status, after a first call with any other, returns and stores what
    that second call alone would, so the last status written is the one
    kept (from "Cancelled" back to "Confirmed", for one). *)
Theorem updateBookingStatus_last_write_wins (bookingId : Id)
  (status1 status2 : string) (t1 t2 : Date) (s : Store) :
  ReservationService.updateBookingStatus bookingId status2 t2
    (fst (ReservationService.updateBookingStatus bookingId status1 t1 s))
  = ReservationService.updateBookingStatus bookingId status2 t2 s.
Proof.
  rewrite !updateBookingStatus_run. cbv zeta.
  destruct (existsb _ (Bookings s)) eqn:Hex; cbn [fst].
  - cbn [Bookings]. rewrite existsb_replaced by reflexivity. rewrite Hex.
    cbn [Cottages Packages Availability SafariBookings nextId].
    rewrite map_replaced_twice by reflexivity. reflexivity.
  - rewrite Hex. reflexivity.
Qed.

Lemma updateSafariStatus_run (safariId : Id) (status : string) (now : Date)
  (s : Store) :
  let item := SafariBooking.mk safariId None None None status None None now in
  let same (b : SafariBooking.t) := N.eqb (SafariBooking._id b) safariId in
  ReservationService.updateSafariStatus safariId status now s
  = if existsb same (SafariBookings s) then
      (mkStore (Cottages s) (Packages s) (Bookings s) (Availability s)
         (map (fun b => if same b then item else b) (SafariBookings s))
         (nextId s),
       Returned item)
    else (s, Thrown FailedToUpdateSafariStatus).
Proof.
  unfold ReservationService.updateSafariStatus, tryCatch, bind,
    wixData.updateSafariBooking, ret, throw.
  cbn [SafariBooking._id]. destruct (existsb _ (SafariBookings s));
    reflexivity.
Qed.

(** X15.  [updateSafariStatus] behaves as [updateBookingStatus] does: it
    fails with "Failed to update safari status", changing nothing, for an
    [_id] no safari booking has; it never adds or removes a safari booking
    and touches no other collection; and of two calls in a row the second
    decides. *)
Theorem updateSafariStatus_overwrites (safariId : Id)
  (status1 status2 : string) (t1 t2 : Date) (s : Store) :
  ((forall b, In b (SafariBookings s) -> SafariBooking._id b <> safariId) ->
   ReservationService.updateSafariStatus safariId status1 t1 s
   = (s, Thrown FailedToUpdateSafariStatus))
  /\ (let s1 :=
        fst (ReservationService.updateSafariStatus safariId status1 t1 s) in
      map SafariBooking._id (SafariBookings s1)
      = map SafariBooking._id (SafariBookings s)
      /\ Forall (fun b => SafariBooking._id b = safariId ->
                          SafariBooking.status b = status1)
           (SafariBookings s1)
      /\ (Cottages s1, Packages s1, Bookings s1, Availability s1, nextId s1)
         = (Cottages s, Packages s, Bookings s, Availability s, nextId s)
      /\ ReservationService.updateSafariStatus safariId status2 t2 s1
         = ReservationService.updateSafariStatus safariId status2 t2 s).
Proof.
  split.
  - intros Hnone. rewrite updateSafariStatus_run. cbv zeta.
    rewrite (existsb_none SafariBooking._id safariId (SafariBookings s)
               Hnone).
    reflexivity.
  - cbv zeta. rewrite !updateSafariStatus_run. cbv zeta.
    destruct (existsb _ (SafariBookings s)) eqn:Hex; cbn [fst].
    + cbn [SafariBookings Cottages Packages Bookings Availability nextId].
      split; [|split; [|split; [reflexivity|]]].
      * rewrite map_map. apply map_ext. intros b.
        destruct (N.eqb (SafariBooking._id b) safariId) eqn:Hb;
          [|reflexivity].
        apply N.eqb_eq in Hb. symmetry. exact Hb.
      * apply Forall_map. apply Forall_forall. intros b _.
        destruct (N.eqb (SafariBooking._id b) safariId) eqn:Hb;
          [reflexivity|].
        intros Heq. apply N.eqb_neq in Hb. contradiction.
      * assert (Hex' :
                  existsb (fun b => N.eqb (SafariBooking._id b) safariId)
                    (map (fun b =>
                            if N.eqb (SafariBooking._id b) safariId then
                              SafariBooking.mk safariId None None None
                                status1 None None t1
                            else b) (SafariBookings s)) = true).
        { rewrite <- Hex. clear Hex.
          induction (SafariBookings s) as [|b bs IH]; [reflexivity|].
          simpl. rewrite IH.
          destruct (N.eqb (SafariBooking._id b) safariId) eqn:Hb;
            [|rewrite Hb; reflexivity].
          cbn [SafariBooking._id]. rewrite N.eqb_refl. reflexivity. }
        rewrite Hex'. f_equal. f_equal.
        rewrite map_map. apply map_ext. intros b.
        destruct (N.eqb (SafariBooking._id b) safariId) eqn:Hb;
          [|rewrite Hb; reflexivity].
        cbn [SafariBooking._id]. rewrite N.eqb_refl. reflexivity.
    + rewrite Hex. repeat split.
      apply Forall_forall. intros b Hin Hid. exfalso.
      rewrite (existsb_some SafariBooking._id safariId (SafariBookings s) b
                 Hin Hid) in Hex.
      discriminate.
Qed.

Lemma updateSafariStatus_overwrites_witness :
  ReservationService.updateSafariStatus 5 "Confirmed" 9 bookedStore
  = (bookedStore, Thrown FailedToUpdateSafariStatus).
Proof.
  refine (proj1 (updateSafariStatus_overwrites 5 "Confirmed" "Cancelled" 9
                   10 bookedStore) _).
  intros b Hin. destruct Hin.
Defined.

(** ** Safari bookings and booking details *)

Lemma assignIds_app {A} (setId : Id -> A -> A) (l1 l2 : list A) :
  forall n,
    wixData.assignIds setId n (l1 ++ l2)
    = (wixData.assignIds setId n l1
       ++ wixData.assignIds setId (n + N.of_nat (List.length l1))%N l2)%list.
Proof.
  induction l1 as [|x l1 IH]; intros n; simpl.
  - rewrite N.add_0_r. reflexivity.
  - rewrite IH. do 3 f_equal. lia.
Qed.

(** X16.  Safari bookings made in two calls for one booking are the safari
    bookings one call makes of the two lists joined, [_id]s included; a call
    with no entry changes nothing; no call looks whether the booking
    exists or touches a booking or an availability record. *)
Theorem createSafariBookings_compose (bookingId : Id)
  (entries1 entries2 : list SafariEntry.t) (now : Date) (s : Store) :
  fst (ReservationService.createSafariBookings bookingId entries2 now
         (fst (ReservationService.createSafariBookings bookingId entries1
                 now s)))
  = fst (ReservationService.createSafariBookings bookingId
           (entries1 ++ entries2) now s)
  /\ fst (ReservationService.createSafariBookings bookingId [] now s) = s
  /\ (let s1 :=
        fst (ReservationService.createSafariBookings bookingId entries1
               now s) in
      (Cottages s1, Packages s1, Bookings s1, Availability s1)
      = (Cottages s, Packages s, Bookings s, Availability s)).
Proof.
  unfold ReservationService.createSafariBookings, tryCatch, bind,
    wixData.bulkInsertSafariBookings, ret, wixData.nextIdAfter.
  cbn [fst Cottages Packages Bookings Availability SafariBookings nextId].
  split; [|split; [|reflexivity]].
  - f_equal.
    + rewrite map_app, assignIds_app, length_map, app_assoc. reflexivity.
    + rewrite !length_map, length_app. lia.
  - destruct s. cbn. rewrite app_nil_r, N.add_0_r. reflexivity.
Qed.

Lemma getBookingDetails_run (bookingId : Id) (s : Store) :
  ReservationService.getBookingDetails bookingId s
  = (s,
     match find (fun b => N.eqb (Booking._id b) bookingId) (Bookings s) with
     | Some booking =>
         match Booking.data booking with
         | Some data =>
             Fulfilled
               (ReservationService.mkBookingDetails booking
                  (findCottage (BookingData.cottageId data) s)
                  (findPackage (BookingData.packageId data) s)
                  (filter (ReservationService.ofBooking bookingId)
                     (SafariBookings s)))
         | None => Rejected "Failed to fetch booking details"
         end
     | None => Rejected "Failed to fetch booking details"
     end).
Proof.
  unfold ReservationService.getBookingDetails, catchWith, andThen, await,
    wixData.get, wixData.query, resolve, reject, findCottage, findPackage.
  destruct (find _ (Bookings s)) as [booking|]; [|reflexivity].
  destruct (Booking.data booking); reflexivity.
Qed.

(** X17.  [getBookingDetails] never writes.  For an [_id] no booking has it
    fails with "Failed to fetch booking details", which the web method
    returns as its error and the HTTP function with status 500; a missing
    [bookingId] is answered "Missing required parameter: bookingId" (status
    400). *)
Theorem getBookingDetails_unknown (bookingId : Id) (s : Store) :
  fst (ReservationService.getBookingDetails bookingId s) = s
  /\ ((forall b, In b (Bookings s) -> Booking._id b <> bookingId) ->
      ReservationService.getBookingDetails bookingId s
      = (s, Rejected "Failed to fetch booking details")
      /\ WebMethods.getBookingDetails (Some bookingId) s
         = (s, Fulfilled (Failure "Failed to fetch booking details"))
      /\ HttpFunctions.post_getBookingDetails (Some (Some bookingId)) s
         = (s, Fulfilled
                 (HttpFunctions.jsonResponse 500
                    (Failure "Failed to fetch booking details"))))
  /\ WebMethods.getBookingDetails None s
     = (s, Fulfilled (Failure "Missing required parameter: bookingId"))
  /\ HttpFunctions.post_getBookingDetails (Some None) s
     = (s, Fulfilled
             (HttpFunctions.jsonResponse 400
                (Failure "Missing required parameter: bookingId"))).
Proof.
  split; [rewrite getBookingDetails_run; reflexivity|].
  split; [|split; reflexivity].
  intros Hnone.
  assert (Hrun : ReservationService.getBookingDetails bookingId s
                 = (s, Rejected "Failed to fetch booking details")).
  { rewrite getBookingDetails_run.
    destruct (find _ (Bookings s)) as [b|] eqn:Hfind; [|reflexivity].
    apply find_some in Hfind. destruct Hfind as [Hin Hid].
    apply N.eqb_eq in Hid. exfalso. apply (Hnone b Hin Hid). }
  split; [exact Hrun|].
  unfold WebMethods.getBookingDetails, HttpFunctions.post_getBookingDetails,
    catchWith, andThen.
  rewrite Hrun. split; reflexivity.
Qed.

Lemma getBookingDetails_unknown_witness :
  ReservationService.getBookingDetails 55 bookedStore
  = (bookedStore, Rejected "Failed to fetch booking details").
Proof.
  refine (proj1 (proj1 (proj2 (getBookingDetails_unknown 55 bookedStore)) _)).
  intros b [<-|[]]. discriminate.
Defined.

Lemma createBooking_idsBelowCounter (bookingData : BookingData.t)
  (now : Date) (s : Store) :
  idsBelowCounter s ->
  idsBelowCounter (fst (ReservationService.createBooking bookingData now s)).
Proof.
  intros Hinv.
  destruct (ReservationService.createBooking bookingData now s)
    as [s' [b|e]] eqn:Hrun; cbn [fst].
  - apply createBooking_returned in Hrun.
    destruct Hrun as (c & p & recs & _ & _ & _ & -> & _ & ->).
    unfold idsBelowCounter, storeAfterBooking, wixData.nextIdAfter in *.
    cbn [Bookings nextId]. apply Forall_app. split.
    + eapply Forall_impl; [|exact Hinv]. intros b Hb. cbn beta in *. lia.
    + constructor; [|constructor]. cbn. lia.
  - apply createBooking_thrown in Hrun. subst s'. exact Hinv.
Qed.

Lemma reachable_idsBelowCounter (tz : Z) (s : Store) :
  reachable tz s -> idsBelowCounter s.
Proof.
  induction 1 as [cottages packages n
                 | s request now _ IH
                 | s payload now _ IH
                 | s bookingId status now _ IH
                 | s bookingId safariData now _ IH
                 | s safariId status now _ IH].
  - constructor.
  - destruct (web_createBooking_effect tz request now s)
      as [->|(bd & b & Hrun)]; [exact IH|].
    pose proof (createBooking_idsBelowCounter bd now s IH) as H.
    rewrite Hrun in H. exact H.
  - destruct (post_createBooking_effect tz payload now s)
      as [->|(bd & b & Hrun)]; [exact IH|].
    pose proof (createBooking_idsBelowCounter bd now s IH) as H.
    rewrite Hrun in H. exact H.
  - rewrite updateBookingStatus_run. cbv zeta.
    destruct (existsb _ (Bookings s)); [|exact IH].
    unfold idsBelowCounter in *. cbn [fst Bookings nextId].
    apply Forall_map. eapply Forall_impl; [|exact IH].
    intros b Hb. cbn beta.
    destruct (N.eqb (Booking._id b) bookingId) eqn:Heq; [|exact Hb].
    apply N.eqb_eq in Heq. cbn [Booking._id]. rewrite <- Heq. exact Hb.
  - unfold idsBelowCounter in *.
    unfold ReservationService.createSafariBookings, tryCatch, bind,
      wixData.bulkInsertSafariBookings, ret, wixData.nextIdAfter.
    cbn [fst Bookings nextId].
    eapply Forall_impl; [|exact IH]. intros b Hb. cbn beta in *. lia.
  - rewrite updateSafariStatus_run. cbv zeta.
    destruct (existsb _ (SafariBookings s)); exact IH.
Qed.

Lemma find_last {A} (f : A -> bool) (l : list A) (x : A) :
  (forall y, In y l -> f y = false) -> f x = true ->
  find f (l ++ [x]) = Some x.
Proof.
  intros Hnone Hx. induction l as [|y l IH]; simpl.
  - rewrite Hx. reflexivity.
  - rewrite (Hnone y) by (left; reflexivity).
    apply IH. intros z Hz. apply Hnone. right. exact Hz.
Qed.

(** X18.  A booking made through the web method can be read back: in a
    store the endpoints have produced, [getBookingDetails] called with the
    [_id] of the booking just returned yields that booking, the cottage and
    the package it was priced with, and the safari bookings that carry its
    [_id]. *)
Theorem createBooking_then_getBookingDetails (tz : Z)
  (request : BookingRequest.t) (now : Date) (s s' : Store) (b : Booking.t)
  (msg : option string) :
  reachable tz s ->
  WebMethods.createBooking tz request now s = (s', Returned (Success b msg)) ->
  exists bookingData cottage packageData,
    Booking.data b = Some bookingData
    /\ findCottage (BookingData.cottageId bookingData) s = Some cottage
    /\ findPackage (BookingData.packageId bookingData) s = Some packageData
    /\ ReservationService.getBookingDetails (Booking._id b) s'
       = (s',
          Fulfilled
            (ReservationService.mkBookingDetails b (Some cottage)
               (Some packageData)
               (filter (ReservationService.ofBooking (Booking._id b))
                  (SafariBookings s)))).
Proof.
  intros Hreach Hrun. apply reachable_idsBelowCounter in Hreach.
  apply web_createBooking_success in Hrun.
  destruct Hrun as (bd & _ & _ & _ & _ & Hrun).
  apply createBooking_returned in Hrun.
  destruct Hrun as (c & p & recs & Hc & _ & Hp & -> & _ & ->).
  exists bd, c, p. split; [reflexivity|]. split; [exact Hc|].
  split; [exact Hp|].
  rewrite getBookingDetails_run.
  set (b := pendingBooking (nextId s) bd c p now).
  assert (Hb : find (fun x => N.eqb (Booking._id x) (Booking._id b))
                 (Bookings (storeAfterBooking s b recs)) = Some b).
  { unfold storeAfterBooking. cbn [Bookings]. apply find_last.
    - intros y Hy. apply N.eqb_neq. unfold idsBelowCounter in Hreach.
      rewrite Forall_forall in Hreach. specialize (Hreach y Hy).
      subst b. cbn [pendingBooking Booking._id]. lia.
    - apply N.eqb_refl. }
  rewrite Hb.
  change (Booking.data b) with (Some bd). cbv iota beta.
  change (findCottage (BookingData.cottageId bd) (storeAfterBooking s b recs))
    with (findCottage (BookingData.cottageId bd) s).
  change (findPackage (BookingData.packageId bd) (storeAfterBooking s b recs))
    with (findPackage (BookingData.packageId bd) s).
  rewrite Hc, Hp. reflexivity.
Qed.

Lemma createBooking_then_getBookingDetails_witness :
  exists details,
    ReservationService.getBookingDetails 100 bookedStore
    = (bookedStore, Fulfilled details)
    /\ ReservationService.cottage details = Some hornbill
    /\ ReservationService.package details = Some basicPackage.
Proof.
  destruct (createBooking_then_getBookingDetails indiaTime threeNights 7
              emptyStore bookedStore
              (pendingBooking 100 threeNightsData hornbill basicPackage 7)
              (Some "Booking created successfully")
              (reachable_initial indiaTime _ _ _) eq_refl)
    as (bd & c & p & Hdata & Hc & Hp & Hrun).
  eexists. split; [exact Hrun|].
  injection Hdata as <-. vm_compute in Hc, Hp.
  injection Hc as <-. injection Hp as <-. split; reflexivity.
Defined.




(** ** Quotes *)

Lemma calculateBookingCost_run (cottageId packageId : Id)
  (checkInDate checkOutDate : Date) (s : Store) :
  WebMethods.calculateBookingCost
    (CostRequest.mk (Some cottageId) (Some packageId) (Some checkInDate)
       (Some checkOutDate)) s
  = (s,
     Returned
       match findCottage cottageId s, findPackage packageId s with
       | Some cottage, Some packageData =>
           let nights :=
             ReservationService.calculateNights checkInDate checkOutDate in
           Success
             (CostBreakdown.mk (Cottage.basePricePerNight cottage * nights)
                (Package.price packageData)
                (Cottage.basePricePerNight cottage * nights
                 + Package.price packageData)
                nights (Cottage.basePricePerNight cottage))
             None
       | _, _ => Failure "Cottage or package not found"
       end).
Proof.
  unfold WebMethods.calculateBookingCost, tryCatch, bind, wixData.get,
    findCottage, findPackage, ret, throw.
  cbn -[message].
  destruct (find _ (Cottages s)) as [cottage|]; [|reflexivity].
  destruct (find _ (Packages s)) as [packageData|]; reflexivity.
Qed.

(** X20.  The quote is the charge: when [calculateBookingCost] succeeds for
    a cottage, a package and two dates, and [createBooking] succeeds for the
    same four, the [totalCost] stored with the booking is the [totalCost]
    quoted.  Quoting writes nothing, and looks neither at availability nor
    at the number of guests. *)
Theorem quote_matches_charge (bookingData : BookingData.t) (now : Date)
  (s s1 s2 : Store) (costs : CostBreakdown.t) (msg : option string)
  (b : Booking.t) :
  WebMethods.calculateBookingCost
    (CostRequest.mk (Some (BookingData.cottageId bookingData))
       (Some (BookingData.packageId bookingData))
       (Some (BookingData.checkInDate bookingData))
       (Some (BookingData.checkOutDate bookingData))) s
  = (s1, Returned (Success costs msg)) ->
  ReservationService.createBooking bookingData now s = (s2, Returned b) ->
  s1 = s /\ Booking.totalCost b = Some (CostBreakdown.totalCost costs).
Proof.
  intros Hquote Hrun. rewrite calculateBookingCost_run in Hquote.
  apply createBooking_returned in Hrun.
  destruct Hrun as (c & p & recs & Hc & _ & Hp & -> & _ & _).
  rewrite Hc, Hp in Hquote. injection Hquote as <- <- _.
  split; reflexivity.
Qed.

Lemma quote_matches_charge_witness :
  Booking.totalCost
    (pendingBooking 100 threeNightsData hornbill basicPackage 7)
  = Some 16500.
Proof.
  apply (quote_matches_charge threeNightsData 7 emptyStore emptyStore
           (fst (ReservationService.createBooking threeNightsData 7
                   emptyStore))
           (CostBreakdown.mk 15000 1500 16500 3 5000) None
           (pendingBooking 100 threeNightsData hornbill basicPackage 7)
           eq_refl eq_refl).
Defined.

(** X21.  The HTTP function [post_calculateBookingCost] answers with the
    response of the web method as its body, and with status 400 when the
    payload or one of the four fields is missing, 404 when the cottage or
    the package is not found, 200 with the costs otherwise; neither writes. *)
Theorem post_calculateBookingCost_status (request : CostRequest.t)
  (s : Store) :
  exists code response,
    HttpFunctions.post_calculateBookingCost (Some request) s
    = (s, Fulfilled (HttpFunctions.jsonResponse code response))
    /\ WebMethods.calculateBookingCost request s = (s, Returned response)
    /\ (code = 400
        <-> CostRequest.cottageId request = None
            \/ CostRequest.packageId request = None
            \/ CostRequest.checkInDate request = None
            \/ CostRequest.checkOutDate request = None)
    /\ (code = 200 <-> exists costs, response = Success costs None)
    /\ (code = 400 \/ code = 404 \/ code = 200)
    /\ HttpFunctions.post_calculateBookingCost None s
       = (s, Fulfilled
               (HttpFunctions.jsonResponse 400
                  (Failure "Missing required parameters"))).
Proof.
  destruct request as [[cid|] [pid|] [ci|] [co|]];
    try (exists 400, (Failure "Missing required parameters");
         split; [reflexivity|]; split; [reflexivity|];
         split; [split; [intros _; cbn; tauto|reflexivity]|];
         split; [split; [discriminate|intros [c Hc]; discriminate]|];
         split; [left; reflexivity|reflexivity]).
  rewrite calculateBookingCost_run.
  unfold HttpFunctions.post_calculateBookingCost, catchWith, andThen, await,
    wixData.get, resolve, findCottage, findPackage.
  cbn [CostRequest.cottageId CostRequest.packageId CostRequest.checkInDate
       CostRequest.checkOutDate].
  destruct (find _ (Cottages s)) as [cottage|];
    [destruct (find _ (Packages s)) as [packageData|]|].
  - do 2 eexists. split; [reflexivity|]. split; [reflexivity|].
    split; [split; [discriminate|intros [H|[H|[H|H]]]; discriminate]|].
    split; [split; [eauto|reflexivity]|].
    split; [right; right; reflexivity|reflexivity].
  - exists 404. eexists. split; [reflexivity|]. split; [reflexivity|].
    split; [split; [discriminate|intros [H|[H|[H|H]]]; discriminate]|].
    split; [split; [discriminate|intros [c Hc]; discriminate]|].
    split; [right; left; reflexivity|reflexivity].
  - exists 404. eexists. split; [reflexivity|]. split; [reflexivity|].
    split; [split; [discriminate|intros [H|[H|[H|H]]]; discriminate]|].
    split; [split; [discriminate|intros [c Hc]; discriminate]|].
    split; [right; left; reflexivity|reflexivity].
Qed.

(** ** The two [createBooking] endpoints side by side *)



(** X23.  The two endpoints part on a negative number of adults: the web
    method answers "At least one adult is required" and writes nothing,
    while the HTTP function, which has no such test, goes on and, for an
    available cottage and a package that exists, stores a booking with that
    number of adults. *)
Theorem negative_adults_web_and_http (tz : Z) (request : BookingRequest.t)
  (now : Date) (s : Store) (cottageId packageId : Id)
  (checkIn checkOut : Date) (adults : Z) (cottage : Cottage.t)
  (packageData : Package.t) :
  BookingRequest.cottageId request = Some cottageId ->
  BookingRequest.packageId request = Some packageId ->
  BookingRequest.checkInDate request = Some checkIn ->
  BookingRequest.checkOutDate request = Some checkOut ->
  BookingRequest.adults request = Some adults ->
  adults < 0 ->
  (BookingRequest.customerInfo request <> None ->
   WebMethods.createBooking tz request now s
   = (s, Returned (Failure "At least one adult is required")))
  /\ (isRangeAvailable tz cottageId checkIn checkOut s = Some true ->
      findCottage cottageId s = Some cottage ->
      adults <= Cottage.maxAdults cottage ->
      findPackage packageId s = Some packageData ->
      exists s' b msg,
        HttpFunctions.post_createBooking tz (Some request) now s
        = (s', Returned (HttpFunctions.jsonResponse 200 (Success b msg)))
        /\ In b (Bookings s')
        /\ exists bookingData,
             Booking.data b = Some bookingData
             /\ BookingData.adults bookingData = adults).
Proof.
  intros Hc Hp Hi Ho Ha Hneg. split.
  - intros Hinfo. unfold WebMethods.createBooking, tryCatch, bind.
    rewrite Hc, Hp, Hi, Ho, Ha.
    destruct (BookingRequest.customerInfo request) as [info|];
      [|contradiction].
    replace (adults =? 0) with false by (symmetry; apply Z.eqb_neq; lia).
    replace (adults <? 1) with true by (symmetry; apply Z.ltb_lt; lia).
    reflexivity.
  - intros Hfree Hfind Hcap Hpack.
    unfold isRangeAvailable in Hfree.
    destruct (checkAvailability_returns tz cottageId checkIn checkOut s)
      as (a & Hcheck & _).
    rewrite Hcheck in Hfree. injection Hfree as Hfree.
    unfold HttpFunctions.post_createBooking, tryCatch, bind.
    rewrite Hc, Hp, Hi, Ho, Ha.
    replace (adults =? 0) with false by (symmetry; apply Z.eqb_neq; lia).
    rewrite Hcheck, Hfree. cbn [negb].
    match goal with
    | |- context [ReservationService.createBooking ?bd now s] =>
        pose proof (createBooking_cases bd now s) as Hrun
    end.
    cbn [BookingData.cottageId BookingData.packageId BookingData.adults]
      in Hrun.
    rewrite Hfind in Hrun.
    replace (adults >? Cottage.maxAdults cottage) with false in Hrun
      by (symmetry; rewrite Z.gtb_ltb; apply Z.ltb_ge; lia).
    rewrite Hpack in Hrun. destruct Hrun as (recs & _ & Hrun).
    rewrite Hrun. do 3 eexists. split; [reflexivity|].
    split.
    + unfold storeAfterBooking. cbn [Bookings].
      apply in_or_app. right. left. reflexivity.
    + eexists. split; reflexivity.
Qed.

Lemma negative_adults_web_and_http_witness :
  WebMethods.createBooking indiaTime minusOneAdult 7 emptyStore
  = (emptyStore, Returned (Failure "At least one adult is required"))
  /\ exists s' b msg,
       HttpFunctions.post_createBooking indiaTime (Some minusOneAdult) 7
         emptyStore
       = (s', Returned (HttpFunctions.jsonResponse 200 (Success b msg)))
       /\ In b (Bookings s').
Proof.
  destruct (negative_adults_web_and_http indiaTime minusOneAdult 7 emptyStore
              1 10 juneFirst (juneFirst + msPerDay) (-1) hornbill
              basicPackage eq_refl eq_refl eq_refl eq_refl eq_refl eq_refl)
    as [Hweb Hhttp].
  split; [apply Hweb; discriminate|].
  destruct Hhttp as (s' & b & msg & Hrun & Hin & _);
    [reflexivity|reflexivity|discriminate|reflexivity|].
  exists s', b, msg. split; assumption.
Defined.

(** ** The read-only endpoints *)

(** X24.  The two availability endpoints answer a complete request with
    [success: true] and the answer of the service as data, also when that
    answer is "not available" (the HTTP status is 200); a request without
    cottage or without one of the dates is answered with an error (status
    400); the store is never written. *)
Theorem checkCottageAvailability_endpoints (tz : Z)
  (request : AvailabilityRequest.t) (s : Store) :
  (forall cottageId checkIn checkOut,
      request = AvailabilityRequest.mk (Some cottageId) (Some checkIn)
                  (Some checkOut) ->
      exists answer,
        ReservationService.checkAvailability tz cottageId checkIn checkOut s
        = (s, Returned answer)
        /\ WebMethods.checkCottageAvailability tz request s
           = (s, Fulfilled (Success answer None))
        /\ HttpFunctions.post_checkCottageAvailability tz (Some request) s
           = (s, Fulfilled
                   (HttpFunctions.jsonResponse 200 (Success answer None))))
  /\ (AvailabilityRequest.cottageId request = None
      \/ AvailabilityRequest.checkInDate request = None
      \/ AvailabilityRequest.checkOutDate request = None ->
      WebMethods.checkCottageAvailability tz request s
      = (s, Fulfilled
              (Failure
                 "Missing required parameters: cottageId, checkInDate, checkOutDate"))
      /\ HttpFunctions.post_checkCottageAvailability tz (Some request) s
         = (s, Fulfilled
                 (HttpFunctions.jsonResponse 400
                    (Failure "Missing required parameters")))).
Proof.
  split.
  - intros cottageId checkIn checkOut ->.
    destruct (checkAvailability_returns tz cottageId checkIn checkOut s)
      as (a & Hcheck & _).
    exists a. split; [exact Hcheck|].
    unfold WebMethods.checkCottageAvailability,
      HttpFunctions.post_checkCottageAvailability, catchWith, andThen, await,
      resolve.
    cbn [AvailabilityRequest.cottageId AvailabilityRequest.checkInDate
         AvailabilityRequest.checkOutDate].
    rewrite Hcheck. split; reflexivity.
  - destruct request as [[c|] [ci|] [co|]]; intros [H|[H|H]];
      try discriminate; split; reflexivity.
Qed.

Lemma checkCottageAvailability_endpoints_witness :
  exists answer,
    WebMethods.checkCottageAvailability indiaTime
      (AvailabilityRequest.mk (Some 1%N) (Some juneFirst)
         (Some (juneFirst + msPerDay))) bookedStore
    = (bookedStore, Fulfilled (Success answer None))
    /\ AvailabilityResult.isAvailable answer = false.
Proof.
  destruct (proj1 (checkCottageAvailability_endpoints indiaTime
                     (AvailabilityRequest.mk (Some 1%N) (Some juneFirst)
                        (Some (juneFirst + msPerDay))) bookedStore)
              1%N juneFirst (juneFirst + msPerDay) eq_refl)
    as (answer & Hservice & Hweb & _).
  exists answer. split; [exact Hweb|].
  vm_compute in Hservice. injection Hservice as <-. reflexivity.
Defined.


(** ** The reservation form *)

Lemma form_calculateNights_spec (checkIn checkOut : Date) :
  (ReservationForm.calculateNights checkIn checkOut - 1) * msPerDay
    < checkOut - checkIn
    <= ReservationForm.calculateNights checkIn checkOut * msPerDay.
Proof.
  unfold ReservationForm.calculateNights.
  apply (Math_ceil_div_spec (checkOut - checkIn) msPerDay msPerDay_pos).
Qed.

(** X26.  [validateDates] accepts the dates exactly when the check-in is
    after the present instant and the check-out after the check-in.  The
    message it shows is "Minimum stay is 1 night" whenever the check-out is
    not after the check-in, and "Check-in date must be in the future" for a
    past check-in otherwise; the text "Check-out date must be after check-in
    date" is never the one shown.  Dates it accepts make at least one night
    for the service. *)
Theorem validateDates_decides (checkIn checkOut today : Date) :
  let result := ReservationForm.validateDates checkIn checkOut today in
  (ReservationForm.isValid result = true
   <-> today < checkIn /\ checkIn < checkOut)
  /\ (checkOut <= checkIn ->
      ReservationForm.message result = "Minimum stay is 1 night")
  /\ (checkIn < checkOut -> checkIn <= today ->
      ReservationForm.message result = "Check-in date must be in the future")
  /\ ReservationForm.message result
     <> "Check-out date must be after check-in date"
  /\ (ReservationForm.isValid result = true ->
      1 <= ReservationService.calculateNights checkIn checkOut).
Proof.
  cbv zeta. unfold ReservationForm.validateDates.
  pose proof (form_calculateNights_spec checkIn checkOut) as Hs.
  pose proof (calculateNights_spec checkIn checkOut) as Hs'.
  pose proof msPerDay_pos as Hd.
  destruct (checkIn <=? today) eqn:H1; destruct (checkOut <=? checkIn) eqn:H2;
    destruct (ReservationForm.calculateNights checkIn checkOut <? 1) eqn:H3;
    cbn [ReservationForm.isValid ReservationForm.message];
    try apply Z.leb_le in H1; try apply Z.leb_gt in H1;
    try apply Z.leb_le in H2; try apply Z.leb_gt in H2;
    try apply Z.ltb_lt in H3; try apply Z.ltb_ge in H3;
    try (exfalso; nia);
    (split; [split; [discriminate || (intros _; lia)
                    |intros [? ?]; reflexivity || lia]|]);
    (split; [intros ?; reflexivity || lia|]);
    (split; [intros ? ?; reflexivity || lia|]);
    (split; [discriminate|]);
    intros ?; try discriminate; nia.
Qed.

Lemma validateDates_decides_witness :
  ReservationForm.message
    (ReservationForm.validateDates (juneFirst + msPerDay) juneFirst 0)
  = "Minimum stay is 1 night".
Proof.
  apply (validateDates_decides (juneFirst + msPerDay) juneFirst 0).
  discriminate.
Defined.

(** X27.  The form refuses the guest counts the service refuses: for a
    selected cottage that the form's list and the store agree on,
    [validateGuestCount] is [false] exactly when [createBooking] fails with
    "Maximum ... adults allowed per cottage".  Without a selection, or for a
    cottage the form does not list, it is [true]. *)
Theorem validateGuestCount_agrees_with_service
  (cottages : list Cottage.t) (bookingData : BookingData.t) (now : Date)
  (s : Store) (cottage : Cottage.t) :
  find (fun c => N.eqb (Cottage._id c) (BookingData.cottageId bookingData))
    cottages = Some cottage ->
  findCottage (BookingData.cottageId bookingData) s = Some cottage ->
  (ReservationForm.validateGuestCount
     (Some (BookingData.cottageId bookingData)) cottages
     (BookingData.adults bookingData) = false
   <-> ReservationService.createBooking bookingData now s
       = (s, Thrown (MaxAdultsExceeded (Cottage.maxAdults cottage))))
  /\ ReservationForm.validateGuestCount None cottages
       (BookingData.adults bookingData) = true
  /\ (forall unlisted,
        find (fun c => N.eqb (Cottage._id c) unlisted) cottages = None ->
        ReservationForm.validateGuestCount (Some unlisted) cottages
          (BookingData.adults bookingData) = true).
Proof.
  intros Hform Hstore. split; [|split].
  - unfold ReservationForm.validateGuestCount. rewrite Hform. cbv zeta.
    pose proof (createBooking_cases bookingData now s) as Hc.
    rewrite Hstore in Hc. rewrite Z.gtb_ltb in Hc.
    destruct (BookingData.adults bookingData <=? Cottage.maxAdults cottage)
      eqn:Hle.
    + apply Z.leb_le in Hle.
      replace (Cottage.maxAdults cottage <? BookingData.adults bookingData)
        with false in Hc by (symmetry; apply Z.ltb_ge; lia).
      split; [discriminate|]. intros Hrun.
      destruct (findPackage _ s) as [p|].
      * destruct Hc as (recs & _ & Hc). rewrite Hc in Hrun. discriminate.
      * rewrite Hc in Hrun. discriminate.
    + apply Z.leb_gt in Hle.
      replace (Cottage.maxAdults cottage <? BookingData.adults bookingData)
        with true in Hc by (symmetry; apply Z.ltb_lt; lia).
      split; [intros _; exact Hc|reflexivity].
  - reflexivity.
  - intros unlisted Hnone. unfold ReservationForm.validateGuestCount.
    rewrite Hnone. reflexivity.
Qed.

Lemma validateGuestCount_agrees_with_service_witness :
  ReservationForm.validateGuestCount (Some 1%N) [hornbill] 5 = false
  <-> ReservationService.createBooking fiveAdultsData 7 emptyStore
      = (emptyStore, Thrown (MaxAdultsExceeded 2)).
Proof.
  apply (validateGuestCount_agrees_with_service [hornbill] fiveAdultsData 7
           emptyStore hornbill eq_refl eq_refl).
Defined.

(** X28.  The step counter of the form stays between 1 and [totalSteps].
    [nextStep] moves one step on exactly when the current step is not the
    last and its validation passes, and step 1 is left only with a cottage,
    both dates and a positive availability answer in hand; [previousStep]
    moves one step back from any step but the first, without validation. *)
Theorem form_navigation (st : ReservationForm.State) :
  let step := ReservationForm.currentStep in
  (1 <= step st <= ReservationForm.totalSteps ->
   1 <= step (ReservationForm.nextStep st) <= ReservationForm.totalSteps
   /\ 1 <= step (ReservationForm.previousStep st)
      <= ReservationForm.totalSteps)
  /\ (step (ReservationForm.nextStep st)
      = if (step st <? ReservationForm.totalSteps)
           && ReservationForm.validateCurrentStep st
        then step st + 1 else step st)
  /\ (step st = 1 -> step (ReservationForm.nextStep st) = 2 ->
      ReservationForm.cottageId st <> None
      /\ ReservationForm.checkInDate st <> None
      /\ ReservationForm.checkOutDate st <> None
      /\ exists answer,
           ReservationForm.availabilityResult st = Some answer
           /\ AvailabilityResult.isAvailable answer = true)
  /\ (step (ReservationForm.previousStep st)
      = if step st >? 1 then step st - 1 else step st).
Proof.
  cbv zeta. unfold ReservationForm.nextStep, ReservationForm.previousStep,
    ReservationForm.totalSteps.
  split; [|split; [|split]].
  - intros Hrange.
    destruct (ReservationForm.currentStep st <? 4) eqn:Hlt;
      destruct (ReservationForm.validateCurrentStep st);
      destruct (ReservationForm.currentStep st >? 1) eqn:Hgt;
      cbn [ReservationForm.showStep ReservationForm.currentStep];
      try apply Z.ltb_lt in Hlt; try rewrite Z.gtb_ltb in Hgt;
      try apply Z.ltb_lt in Hgt; lia.
  - destruct (ReservationForm.currentStep st <? 4);
      destruct (ReservationForm.validateCurrentStep st); reflexivity.
  - intros Hone Htwo.
    unfold ReservationForm.validateCurrentStep in Htwo.
    rewrite Hone in Htwo. change (1 <? 4) with true in Htwo.
    change (1 =? 1) with true in Htwo. cbv iota in Htwo.
    destruct (ReservationForm.validateStep1 st) eqn:Hv;
      [|rewrite Hone in Htwo; discriminate].
    unfold ReservationForm.validateStep1 in Hv.
    destruct (ReservationForm.cottageId st); [|discriminate].
    destruct (ReservationForm.checkInDate st); [|discriminate].
    destruct (ReservationForm.checkOutDate st); [|discriminate].
    destruct (ReservationForm.availabilityResult st) as [answer|];
      [|discriminate].
    destruct (AvailabilityResult.isAvailable answer) eqn:Ha;
      [|discriminate].
    repeat split; try discriminate. eauto.
  - destruct (ReservationForm.currentStep st >? 1); reflexivity.
Qed.

Lemma form_navigation_witness :
  ReservationForm.currentStep
    (ReservationForm.nextStep
       (ReservationForm.mkState 1 (Some 1%N) (Some juneFirst)
          (Some (juneFirst + msPerDay)) None None)) = 1.
Proof.
  pose proof (form_navigation
                (ReservationForm.mkState 1 (Some 1%N) (Some juneFirst)
                   (Some (juneFirst + msPerDay)) None None))
    as (Hrange & Hnext & _).
  rewrite Hnext. reflexivity.
Defined.

Lemma post_createBooking_safaris (tz : Z) (payload : option BookingRequest.t)
  (now : Date) (s : Store) :
  SafariBookings (fst (HttpFunctions.post_createBooking tz payload now s))
  = SafariBookings s.
Proof.
  destruct (post_createBooking_effect tz payload now s)
    as [->|(bd & b & Hrun)]; [reflexivity|].
  apply createBooking_returned in Hrun.
  destruct Hrun as (c & p & recs & _ & _ & _ & _ & _ & ->). reflexivity.
Qed.

(** X29.  [proceedToPayment] end to end.  When the booking request fails,
    the form shows an error and nothing is stored, no safari booking
    either.  When it succeeds, the form shows the booking returned, and each
    safari entry of the form, however many, has become one pending safari
    booking carrying the [_id] of that booking; bookings and availability
    records are as the booking request left them. *)
Theorem proceedToPayment_outcome (tz : Z) (request : BookingRequest.t)
  (safariData : list SafariEntry.t) (now nowSafari : Date) (s : Store) :
  match ReservationForm.proceedToPayment tz request safariData now nowSafari
          s with
  | (s', ReservationForm.ErrorMessage text) => s' = s /\ text <> ""
  | (s', ReservationForm.PaymentSuccess b) =>
      exists s1 code msg created,
        HttpFunctions.post_createBooking tz (Some request) now s
        = (s1, Returned (HttpFunctions.jsonResponse code (Success b msg)))
        /\ SafariBookings s' = (SafariBookings s ++ created)%list
        /\ Forall2 (madeFrom (Booking._id b)) safariData created
        /\ Bookings s' = Bookings s1
        /\ Availability s' = Availability s1
  end.
Proof.
  unfold ReservationForm.proceedToPayment.
  pose proof (post_createBooking_safaris tz (Some request) now s) as Hsaf.
  destruct (post_createBooking_answer tz (Some request) now s)
    as (code & body & Hbody & Hfail).
  destruct (HttpFunctions.post_createBooking tz (Some request) now s)
    as [s1 o] eqn:Hrun.
  cbn [fst snd] in *. subst o. cbn [HttpFunctions.body
                                     HttpFunctions.jsonResponse].
  destruct body as [b msg|error].
  - destruct (0 <? Z.of_nat (List.length safariData)) eqn:Hlen.
    + unfold HttpFunctions.post_createSafariBookings, catchWith, andThen,
        await, resolve.
      cbn [SafariRequest.bookingId SafariRequest.safariData].
      unfold ReservationService.createSafariBookings, tryCatch, bind,
        wixData.bulkInsertSafariBookings, ret.
      cbn [fst snd SafariBookings Bookings Availability].
      exists s1, code, msg. eexists. split; [reflexivity|].
      rewrite Hsaf. split; [reflexivity|].
      split; [apply assignIds_madeFrom|]. split; reflexivity.
    + exists s1, code, msg, []. split; [reflexivity|].
      rewrite Hsaf, app_nil_r. split; [reflexivity|].
      destruct safariData; [|discriminate].
      split; [constructor|]. split; reflexivity.
  - split; [apply (Hfail error eq_refl)|].
    destruct (String.eqb error "") eqn:Hempty; [discriminate|].
    apply String.eqb_neq in Hempty. exact Hempty.
Qed.
